(** * biorhythm.py: a shallow embedding and its checked properties

    The program is a Telegram bot.  Its own code is short and leans on the
    Python library: [str.strip], [datetime.strptime], [date] arithmetic,
    [math.sin], [round], the formatting of a [float] and
    python-telegram-bot's conversation handler.  The library layers are
    modelled first, each from CPython's behaviour, then the functions of
    [biorhythm.py] in the order of the file. *)

From Stdlib Require Import ZArith List Bool Lia String Ascii.
From Stdlib Require Import Floats.SpecFloat.
Import ListNotations.

Local Open Scope Z_scope.

(** ** Python [str]: a sequence of Unicode code points *)

Module Str.

Abbreviation char := Z (only parsing).
Abbreviation str := (list Z) (only parsing).

(** A literal of the source file is UTF-8 text; [py] decodes it. *)
Fixpoint utf8_decode (bs : list Z) : str :=
  match bs with
  | [] => []
  | b0 :: t0 =>
    if b0 <? 128 then b0 :: utf8_decode t0
    else
      match t0 with
      | [] => []
      | b1 :: t1 =>
        if b0 <? 224 then ((b0 - 192) * 64 + (b1 - 128)) :: utf8_decode t1
        else
          match t1 with
          | [] => []
          | b2 :: t2 =>
            if b0 <? 240
            then ((b0 - 224) * 4096 + (b1 - 128) * 64 + (b2 - 128)) :: utf8_decode t2
            else
              match t2 with
              | [] => []
              | b3 :: t3 =>
                ((b0 - 240) * 262144 + (b1 - 128) * 4096
                 + (b2 - 128) * 64 + (b3 - 128)) :: utf8_decode t3
              end
          end
      end
  end.

Definition py (s : string) : str :=
  utf8_decode (map (fun a => Z.of_nat (nat_of_ascii a)) (list_ascii_of_string s)).

Definition nl : str := [10].

(** [str.isspace] on one character: CPython's [_PyUnicode_IsWhitespace]. *)
Definition isspace (c : char) : bool :=
  ((9 <=? c) && (c <=? 13)) || ((28 <=? c) && (c <=? 32))
  || (c =? 133) || (c =? 160) || (c =? 5760)
  || ((8192 <=? c) && (c <=? 8202))
  || (c =? 8232) || (c =? 8233) || (c =? 8239) || (c =? 8287) || (c =? 12288).

Fixpoint lstrip (s : str) : str :=
  match s with
  | c :: t => if isspace c then lstrip t else s
  | [] => []
  end.

Definition rstrip (s : str) : str := rev (lstrip (rev s)).

(** [text.strip()] *)
Definition strip (s : str) : str := rstrip (lstrip s).

(** The code points of general category Nd come in runs of ten, one per
    script, each starting at that script's zero (Unicode 14, the table of
    CPython 3.11).  [\d] of [re] and [int] both read them. *)
Definition Nd_zeros : list Z :=
  [48; 1632; 1776; 1984; 2406; 2534; 2662; 2790; 2918; 3046; 3174; 3302;
   3430; 3558; 3664; 3792; 3872; 4160; 4240; 6112; 6160; 6470; 6608; 6784;
   6800; 6992; 7088; 7232; 7248; 42528; 43216; 43264; 43472; 43504; 43600;
   44016; 65296; 66720; 68912; 69734; 69872; 69942; 70096; 70384; 70736;
   70864; 71248; 71360; 71472; 71904; 72016; 72784; 73040; 73120; 92768;
   92864; 93008; 120782; 120792; 120802; 120812; 120822; 123200; 123632;
   125264; 130032].

Definition decimal (c : char) : option Z :=
  match find (fun z => (z <=? c) && (c <=? z + 9)) Nd_zeros with
  | Some z => Some (c - z)
  | None => None
  end.

Definition isdecimal (c : char) : bool :=
  match decimal c with Some _ => true | None => false end.

(** The value of a run of decimal digits, most significant first. *)
Fixpoint digits_value (acc : Z) (s : str) : option Z :=
  match s with
  | [] => Some acc
  | c :: t =>
    match decimal c with
    | Some v => digits_value (10 * acc + v) t
    | None => None
    end
  end.

(** [int(s)] for the strings the program hands it: surrounding white space
    is dropped and what is left must be a non-empty run of decimal digits
    ([None] stands for [ValueError]).  Signs and underscores, which [int]
    also reads, never reach it here. *)
Definition int (s : str) : option Z :=
  match strip s with
  | [] => None
  | t => digits_value 0 t
  end.

(** Decimal digits of a non-negative integer. *)
Fixpoint dec_digits (fuel : nat) (n : Z) (acc : str) : str :=
  match fuel with
  | O => acc
  | S f =>
    let acc' := (48 + n mod 10) :: acc in
    if n <? 10 then acc' else dec_digits f (n / 10) acc'
  end.

Definition str_of_nat (n : Z) : str :=
  dec_digits (S (Z.to_nat (Z.log2 n))) n [].

(** [str(n)] for an integer. *)
Definition str_of_int (n : Z) : str :=
  if n <? 0 then 45 :: str_of_nat (- n) else str_of_nat n.

(** ["%0wd" % n] for [n >= 0]: zero-filled on the left up to width [w]. *)
Definition zfill (w : nat) (n : Z) : str :=
  let ds := str_of_nat n in
  repeat 48 (w - List.length ds) ++ ds.

Fixpoint str_eqb (a b : str) : bool :=
  match a, b with
  | [], [] => true
  | x :: a', y :: b' => (x =? y) && str_eqb a' b'
  | _, _ => false
  end.

(** [str.lower], exact wherever the result is compared with an ASCII text,
    the one use made of it here: the capital Latin letters and the Kelvin
    sign are the only characters whose lower case is ASCII; any other
    character lowers to something that is not, and is left as it is. *)
Definition lower_char (c : char) : char :=
  if (65 <=? c) && (c <=? 90) then c + 32
  else if c =? 8490 then 107
  else c.

Definition lower (s : str) : str := map lower_char s.

(** [s.split(sep)] for a separator of one character *)
Fixpoint split (sep : char) (s : str) : list str :=
  match s with
  | [] => [[]]
  | c :: t =>
    if c =? sep then [] :: split sep t
    else
      match split sep t with
      | part :: parts => (c :: part) :: parts
      | [] => [[c]]
      end
  end.

End Str.
Import Str.

(** ** Exceptions *)

Inductive exn := ValueError | KeyError | OverflowError | AttributeError.

Inductive res (A : Type) :=
| Return (a : A)
| Raise (e : exn).
Arguments Return {A} a.
Arguments Raise {A} e.

Definition bind {A B : Type} (x : res A) (f : A -> res B) : res B :=
  match x with
  | Return a => f a
  | Raise e => Raise e
  end.

Notation "x <- c ;; k" := (bind c (fun x => k))
  (at level 61, c at next level, right associativity).

(** ** [datetime.date] *)

Module Datetime.

Record date := mkdate { year : Z; month : Z; day : Z }.

Definition MINYEAR := 1.
Definition MAXYEAR := 9999.

Definition _DAYS_IN_MONTH : list Z :=
  [-1; 31; 28; 31; 30; 31; 30; 31; 31; 30; 31; 30; 31].

(** The module builds this table with a loop over [_DAYS_IN_MONTH[1:]]. *)
Definition _DAYS_BEFORE_MONTH : list Z :=
  Eval cbv in
    rev (snd (fold_left
                (fun '(dbm, acc) dim => (dbm + dim, dbm :: acc))
                (tl _DAYS_IN_MONTH) (0, [-1]))).

Definition _is_leap (y : Z) : bool :=
  (y mod 4 =? 0) && (negb (y mod 100 =? 0) || (y mod 400 =? 0)).

Definition _days_before_year (y0 : Z) : Z :=
  let y := y0 - 1 in
  y * 365 + y / 4 - y / 100 + y / 400.

Definition _days_in_month (y m : Z) : Z :=
  if (m =? 2) && _is_leap y then 29
  else nth (Z.to_nat m) _DAYS_IN_MONTH (-1).

Definition _days_before_month (y m : Z) : Z :=
  nth (Z.to_nat m) _DAYS_BEFORE_MONTH (-1)
  + (if (2 <? m) && _is_leap y then 1 else 0).

Definition _ymd2ord (y m d : Z) : Z :=
  _days_before_year y + _days_before_month y m + d.

(** [_check_date_fields]: what the constructor [date(y, m, d)] admits. *)
Definition _check_date_fields (y m d : Z) : bool :=
  (MINYEAR <=? y) && (y <=? MAXYEAR)
  && (1 <=? m) && (m <=? 12)
  && (1 <=? d) && (d <=? _days_in_month y m).

Definition date_new (y m d : Z) : res date :=
  if _check_date_fields y m d then Return (mkdate y m d) else Raise ValueError.

(** Every [date] object went through the constructor. *)
Definition valid_date (x : date) : Prop :=
  _check_date_fields (year x) (month x) (day x) = true.

Definition toordinal (x : date) : Z := _ymd2ord (year x) (month x) (day x).

(** [(a - b).days] *)
Definition sub_days (a b : date) : Z := toordinal a - toordinal b.

(** [a < b]: the comparison of the [(year, month, day)] tuples. *)
Definition date_ltb (a b : date) : bool :=
  (year a <? year b)
  || ((year a =? year b)
      && ((month a <? month b)
          || ((month a =? month b) && (day a <? day b)))).

Definition date_leb (a b : date) : bool := negb (date_ltb b a).

Definition date_eqb (a b : date) : bool :=
  (year a =? year b) && (month a =? month b) && (day a =? day b).

(** [isoformat]: ["%04d-%02d-%02d" % (year, month, day)]. *)
Definition isoformat (x : date) : str :=
  zfill 4 (year x) ++ py "-" ++ zfill 2 (month x) ++ py "-" ++ zfill 2 (day x).

Definition ascii_digit (c : char) : bool := (48 <=? c) && (c <=? 57).

Definition ascii_number (s : str) : option Z :=
  if forallb ascii_digit s then digits_value 0 s else None.

(** [date.fromisoformat] on the extended form [YYYY-MM-DD], the form
    [isoformat] writes and the only one the program stores.  The basic and
    week forms that 3.11 also reads are left out: they raise here. *)
Definition fromisoformat (s : str) : res date :=
  match s with
  | [y1; y2; y3; y4; s1; m1; m2; s2; d1; d2] =>
    if (s1 =? 45) && (s2 =? 45) then
      match ascii_number [y1; y2; y3; y4],
            ascii_number [m1; m2], ascii_number [d1; d2] with
      | Some y, Some m, Some d => date_new y m d
      | _, _, _ => Raise ValueError
      end
    else Raise ValueError
  | _ => Raise ValueError
  end.

End Datetime.
Import Datetime.

(** ** [datetime.strptime] and [date.strftime] *)

Module Strptime.

Inductive directive := Dd | Dm | DY.

Inductive fmt_item :=
| Directive (d : directive)
| Literal (c : char).

(** The regular expressions [_strptime.TimeRE] holds for the directives:
    an alternation of sequences of one-character classes, tried from the
    left. *)
Inductive atom :=
| Chr (c : char)
| Rng (lo hi : char)
| Dec.

Definition atom_ok (a : atom) (c : char) : bool :=
  match a with
  | Chr x => c =? x
  | Rng lo hi => (lo <=? c) && (c <=? hi)
  | Dec => isdecimal c
  end.

Definition c0 := 48.
Definition c1 := 49.
Definition c2 := 50.
Definition c3 := 51.
Definition c9 := 57.
Definition cSP := 32.
Definition cDOT := 46.
Definition cDASH := 45.

Definition TimeRE (d : directive) : list (list atom) :=
  match d with
  | Dd => [[Chr c3; Rng c0 c1]; [Rng c1 c2; Dec]; [Chr c0; Rng c1 c9];
           [Rng c1 c9]; [Chr cSP; Rng c1 c9]]
  | Dm => [[Chr c1; Rng c0 c2]; [Chr c0; Rng c1 c9]; [Rng c1 c9]]
  | DY => [[Dec; Dec; Dec; Dec]]
  end.

(** One alternative against a prefix of [s]: the lexeme and what is left. *)
Fixpoint match_atoms (ats : list atom) (s : str) : option (str * str) :=
  match ats with
  | [] => Some ([], s)
  | a :: ats' =>
    match s with
    | [] => None
    | c :: s' =>
      if atom_ok a c then
        match match_atoms ats' s' with
        | Some (lex, r) => Some (c :: lex, r)
        | None => None
        end
      else None
    end
  end.

Definition groups := list (directive * str).

(** A group followed by the rest of the pattern [k]: the first alternative
    after which the rest matches too (backtracking). *)
Fixpoint try_alts (g : directive) (alts : list (list atom))
         (k : str -> option (groups * str)) (s : str) : option (groups * str) :=
  match alts with
  | [] => None
  | a :: alts' =>
    match match_atoms a s with
    | Some (lex, r) =>
      match k r with
      | Some (gs, rest) => Some ((g, lex) :: gs, rest)
      | None => try_alts g alts' k s
      end
    | None => try_alts g alts' k s
    end
  end.

(** [format_regex.match(data_string)]: anchored at the start only; the
    result is the groups and the unconsumed tail. *)
Fixpoint re_match (p : list fmt_item) (s : str) : option (groups * str) :=
  match p with
  | [] => Some ([], s)
  | Literal c :: p' =>
    match s with
    | c' :: s' => if c' =? c then re_match p' s' else None
    | [] => None
    end
  | Directive g :: p' => try_alts g (TimeRE g) (re_match p') s
  end.

Fixpoint group (g : directive) (gs : groups) : option str :=
  match gs with
  | [] => None
  | (g', lex) :: gs' =>
    match g, g' with
    | Dd, Dd | Dm, Dm | DY, DY => Some lex
    | _, _ => group g gs'
    end
  end.

(** A field of the result: [int(found_dict[g])] when the group is there,
    the default otherwise. *)
Definition field (g : directive) (default : Z) (gs : groups) : option Z :=
  match group g gs with
  | Some lex => int lex
  | None => Some default
  end.

(** [datetime.strptime(data_string, format).date()].  [_strptime] raises
    [ValueError] when the expression does not match, when unconverted data
    remains, and when [datetime_date(year, month, day)] refuses the
    fields. *)
Definition strptime (data_string : str) (format : list fmt_item) : res date :=
  match re_match format data_string with
  | None => Raise ValueError
  | Some (found, rest) =>
    match rest with
    | _ :: _ => Raise ValueError
    | [] =>
      match field DY 1900 found, field Dm 1 found, field Dd 1 found with
      | Some y, Some m, Some d => date_new y m d
      | _, _, _ => Raise ValueError
      end
    end
  end.

(** ["%d.%m.%Y"] and ["%Y-%m-%d"] *)
Definition fmt_dmY : list fmt_item :=
  [Directive Dd; Literal cDOT; Directive Dm; Literal cDOT; Directive DY].
Definition fmt_Ymd : list fmt_item :=
  [Directive DY; Literal cDASH; Directive Dm; Literal cDASH; Directive Dd].

(** [date.strftime] hands the format to the C library.  [%d] and [%m] are
    two digits, zero-filled.  [%Y] is the year in decimal; whether a year
    below 1000 is zero-filled to four digits depends on the C library
    (glibc does not fill), which [year_filled] records. *)
Definition strftime_item (year_filled : bool) (x : date) (i : fmt_item) : str :=
  match i with
  | Literal c => [c]
  | Directive Dd => zfill 2 (day x)
  | Directive Dm => zfill 2 (month x)
  | Directive DY => if year_filled then zfill 4 (year x) else str_of_nat (year x)
  end.

Definition strftime (year_filled : bool) (x : date) (format : list fmt_item) : str :=
  List.concat (map (strftime_item year_filled x) format).

End Strptime.
Import Strptime.

(** ** Python [float]: IEEE 754 binary64 *)

Module Float.

Definition float := spec_float.

Definition prec := 53.
Definition emax := 1024.

Definition mul : float -> float -> float := SFmul prec emax.
Definition div : float -> float -> float := SFdiv prec emax.
Definition ltb : float -> float -> bool := SFltb.
Definition leb : float -> float -> bool := SFleb.
Definition eqb : float -> float -> bool := SFeqb.
Definition abs : float -> float := SFabs.

Definition zero : float := S754_zero false.

Definition is_nan (x : float) : bool :=
  match x with S754_nan => true | _ => false end.
Definition is_infinity (x : float) : bool :=
  match x with S754_infinity _ => true | _ => false end.
Definition is_finite (x : float) : bool :=
  match x with S754_zero _ | S754_finite _ _ _ => true | _ => false end.

(** An [int] operand of a float operation is converted first, rounding to
    nearest even; an integer beyond the range raises. *)
Definition float_of_int (n : Z) : res float :=
  let f := binary_normalize prec emax n 0 false in
  if is_infinity f then Raise OverflowError else Return f.

(** [math.pi = 0x1.921fb54442d18p+1] *)
Definition pi : float := S754_finite false 7074237752028440 (-51).

(** The same representation: on valid floats, the same value and sign. *)
Definition same (x y : float) : bool :=
  match x, y with
  | S754_zero s, S754_zero t => Bool.eqb s t
  | S754_infinity s, S754_infinity t => Bool.eqb s t
  | S754_nan, S754_nan => true
  | S754_finite s m e, S754_finite t n f =>
    Bool.eqb s t && Pos.eqb m n && (e =? f)
  | _, _ => false
  end.

(** The correctly rounded binary64 of the fraction [num / den], signed:
    what [_Py_dg_strtod] returns for a decimal string of that value. *)
Definition strtod (s : bool) (num den : Z) : float :=
  match num, den with
  | Zpos n, Zpos d => div (S754_finite s n 0) (S754_finite false d 0)
  | Z0, Zpos _ => S754_zero s
  | _, _ => S754_nan
  end.

(** [a / b] rounded to the nearest integer, ties to even ([0 <= a], [0 < b]). *)
Definition round_half_even (a b : Z) : Z :=
  let q := a / b in
  match 2 * (a mod b) ?= b with
  | Lt => q
  | Gt => q + 1
  | Eq => if Z.even q then q else q + 1
  end.

(** The magnitude of a finite float as an exact fraction. *)
Definition fraction (m : positive) (e : Z) : Z * Z :=
  match e with
  | Zneg p => (Zpos m, 2 ^ Zpos p)
  | _ => (Zpos m * 2 ^ e, 1)
  end.

(** [round(x, ndigits)] for [ndigits >= 0], [float.__round__]: infinities
    and NaN round to themselves; otherwise [_Py_dg_dtoa] in mode 3 rounds
    the exact value to [ndigits] places, ties to even, the sign is kept, and
    the decimal string is read back by [_Py_dg_strtod]; a result out of
    range raises [OverflowError]. *)
Definition round (x : float) (ndigits : Z) : res float :=
  match x with
  | S754_nan | S754_infinity _ => Return x
  | S754_zero s => Return (S754_zero s)
  | S754_finite s m e =>
    let '(a, b) := fraction m e in
    let scale := 10 ^ ndigits in
    let n := round_half_even (a * scale) b in
    let r := strtod s n scale in
    if is_infinity r then Raise OverflowError else Return r
  end.

(** *** [repr(x)], which is also [str(x)] and [format(x, "")]

    [PyOS_double_to_string(x, 'r', 0, Py_DTSF_ADD_DOT_0)]: [_Py_dg_dtoa] in
    mode 0 gives the shortest digit string that reads back as [x], and of
    the strings of that length the one nearest to [x];
    [format_float_short] lays the digits out. *)

(** The decimal exponent of [a / b > 0]: the [p] with
    [10^(p-1) <= a / b < 10^p]. *)
Fixpoint decpt_up (fuel : nat) (a b p : Z) : Z :=
  match fuel with
  | O => p
  | S f => if a <? b * 10 ^ p then p else decpt_up f a b (p + 1)
  end.

Fixpoint decpt_down (fuel : nat) (a b p : Z) : Z :=
  match fuel with
  | O => p
  | S f => if a * 10 ^ (1 - p) <? b then decpt_down f a b (p - 1) else p
  end.

Definition decpt_of (a b : Z) : Z :=
  if a <? b then decpt_down 400 a b 0 else decpt_up 400 a b 1.

(** The decimal [c * 10^(-t)] read back. *)
Definition read_back (s : bool) (c t : Z) : float :=
  if 0 <=? t then strtod s c (10 ^ t) else strtod s (c * 10 ^ (- t)) 1.

(** The [k]-digit decimal for [x = (s, m, e)], when one reads back as [x]:
    the two [k]-digit neighbours of [x] are tried and the nearer one that
    reads back wins (the even one on a tie).  The result is [(c, t)],
    standing for [c * 10^(-t)]. *)
Definition digits_at (s : bool) (m : positive) (e : Z) (k : Z) : option (Z * Z) :=
  let '(a, b) := fraction m e in
  let t := k - decpt_of a b in
  let '(num, den) := if 0 <=? t then (a * 10 ^ t, b) else (a, b * 10 ^ (- t)) in
  let lo := num / den in
  let hi := lo + 1 in
  let x := S754_finite s m e in
  let ok_lo := (0 <? lo) && same (read_back s lo t) x in
  let ok_hi := same (read_back s hi t) x in
  match ok_lo, ok_hi with
  | false, false => None
  | true, false => Some (lo, t)
  | false, true => Some (hi, t)
  | true, true =>
    match 2 * (num mod den) ?= den with
    | Lt => Some (lo, t)
    | Gt => Some (hi, t)
    | Eq => Some (if Z.even lo then lo else hi, t)
    end
  end.

Fixpoint shortest_from (s : bool) (m : positive) (e : Z) (k : Z) (fuel : nat)
  : Z * Z :=
  match fuel with
  | O => (Zpos m, 0)
  | S f =>
    match digits_at s m e k with
    | Some ct => ct
    | None => shortest_from s m e (k + 1) f
    end
  end.

(** Seventeen significant digits always read back. *)
Definition shortest (s : bool) (m : positive) (e : Z) : Z * Z :=
  shortest_from s m e 1 17.

(** Trailing zeros are not digits of the result. *)
Fixpoint strip_zeros (fuel : nat) (c t : Z) : Z * Z :=
  match fuel with
  | O => (c, t)
  | S f => if (c mod 10 =? 0) && (0 <? c) then strip_zeros f (c / 10) (t - 1) else (c, t)
  end.

Definition zeros (n : Z) : str := repeat 48 (Z.to_nat n).

(** [format_float_short] for the code ['r']: [ds] are the digits and the
    value is [0.ds * 10^decpt]. *)
Definition format_float_short (ds : str) (decpt : Z) : str :=
  let nd := Z.of_nat (List.length ds) in
  if (decpt <=? -4) || (16 <? decpt) then
    let ex := decpt - 1 in
    firstn 1 ds
    ++ (if 1 <? nd then 46 :: skipn 1 ds else [])
    ++ [101] ++ (if ex <? 0 then [45] else [43]) ++ zfill 2 (Z.abs ex)
  else if decpt <=? 0 then
    [48; 46] ++ zeros (- decpt) ++ ds
  else if nd <=? decpt then
    ds ++ zeros (decpt - nd) ++ [46; 48]
  else
    firstn (Z.to_nat decpt) ds ++ [46] ++ skipn (Z.to_nat decpt) ds.

Definition sign_str (s : bool) : str := if s then [45] else [].

Definition repr (x : float) : str :=
  match x with
  | S754_nan => py "nan"
  | S754_infinity s => sign_str s ++ py "inf"
  | S754_zero s => sign_str s ++ py "0.0"
  | S754_finite s m e =>
    let '(c, t) := shortest s m e in
    let '(c', t') := strip_zeros 400 c t in
    let ds := str_of_nat c' in
    sign_str s ++ format_float_short ds (Z.of_nat (List.length ds) - t')
  end.

End Float.
Import Float.

(** ** Python [dict] with [str] keys, in insertion order *)

Definition dict (V : Type) := list (str * V).

Fixpoint dict_get {V : Type} (k : str) (d : dict V) : option V :=
  match d with
  | [] => None
  | (k', v) :: d' => if str_eqb k k' then Some v else dict_get k d'
  end.

(** [d[k] = v] *)
Fixpoint dict_set {V : Type} (k : str) (v : V) (d : dict V) : dict V :=
  match d with
  | [] => [(k, v)]
  | (k', v') :: d' =>
    if str_eqb k k' then (k', v) :: d' else (k', v') :: dict_set k v d'
  end.

(** [d[k]], which raises [KeyError] on a missing key. *)
Definition dict_item {V : Type} (k : str) (d : dict V) : res V :=
  match dict_get k d with
  | Some v => Return v
  | None => Raise KeyError
  end.

(** * biorhythm.py *)

Definition ASK_DOB : Z := 1.

(** [ConversationHandler.END] *)
Definition END : Z := -1.

(** [parse_date]: the formats in order; [except ValueError: continue]. *)
Fixpoint parse_date_loop (text : str) (fmts : list (list fmt_item))
  : res (option date) :=
  match fmts with
  | [] => Return None
  | fmt :: rest =>
    match strptime text fmt with
    | Return d => Return (Some d)
    | Raise ValueError => parse_date_loop text rest
    | Raise e => Raise e
    end
  end.

Definition parse_date (text : str) : res (option date) :=
  let text := strip text in
  parse_date_loop text [fmt_dmY; fmt_Ymd].

Definition cycles : dict Z :=
  [(py "physical", 23); (py "emotional", 28); (py "intellectual", 33)].

Section Host.

(** The C library under the interpreter: [sin] of libm, and whether
    [strftime] zero-fills [%Y]. *)
Variable libm_sin : float -> float.
Variable year_filled : bool.

(** The bot's own username, [message.get_bot().username]: Latin letters,
    digits and underscores. *)
Variable username : str.

(** [math.sin]: [math_1] raises [ValueError] when libm answers NaN for a
    number, or an infinity for a finite argument. *)
Definition math_sin (x : float) : res float :=
  let r := libm_sin x in
  if is_nan r && negb (is_nan x) then Raise ValueError
  else if is_infinity r && is_finite x then Raise ValueError
  else Return r.

(** [math.sin(2 * math.pi * days / period) * 100] *)
Definition cycle_value (days period : Z) : res float :=
  two <- float_of_int 2 ;;
  d <- float_of_int days ;;
  p <- float_of_int period ;;
  s <- math_sin (div (mul (mul two pi) d) p) ;;
  hundred <- float_of_int 100 ;;
  Return (mul s hundred).

(** The loop over [cycles.items()]. *)
Fixpoint calc_loop (days : Z) (items : dict Z) (result : dict float)
  : res (dict float) :=
  match items with
  | [] => Return result
  | (name, period) :: rest =>
    value <- cycle_value days period ;;
    r <- round value 2 ;;
    calc_loop days rest (dict_set name r result)
  end.

(** [calc_biorhythm]; [now] is what [date.today()] answers. *)
Definition calc_biorhythm (now : date) (birth_date : date)
           (target_date : option date) : res (dict float) :=
  let target_date :=
    match target_date with
    | None => now
    | Some t => t
    end in
  let days := sub_days target_date birth_date in
  if days <? 0 then Raise ValueError
  else calc_loop days cycles [].

(** [sign] of [format_bio_text] *)
Definition sign (v : float) : str :=
  if ltb zero v then py "+" ++ repr v else repr v.

Definition format_bio_text (target_date : date) (bio : dict float) : res str :=
  physical <- dict_item (py "physical") bio ;;
  emotional <- dict_item (py "emotional") bio ;;
  intellectual <- dict_item (py "intellectual") bio ;;
  Return (py "Биоритмы на " ++ strftime year_filled target_date fmt_dmY ++ nl
          ++ py "Физический: " ++ sign physical ++ py "%" ++ nl
          ++ py "Эмоциональный: " ++ sign emotional ++ py "%" ++ nl
          ++ py "Интеллектуальный: " ++ sign intellectual ++ py "%").

(** *** The handlers

    A handler reads and writes [context.user_data] and sends replies with
    [update.message.reply_text]; an exception it does not catch leaves the
    handler with what was written and sent so far.

    [update.message] is the message of an update that brings a new one.
    For any other update that reaches a handler, an edited message for
    one, it is [None], and what the handler does with it raises
    [AttributeError].  A handler is given [message]: [None], or [Some] of
    what it reads of the message, the text for [set_dob] and nothing for
    the command handlers, which only answer it.  Sending is taken to
    succeed.

    The handlers read the clock with [date.today()] when they come to it:
    [now] is what the first reading of a handler answers and [later] what
    the second answers. *)

Record world := mkworld { user_data : dict str; sent : list str }.

Definition Bot (A : Type) := world -> res A * world.

Definition ret {A : Type} (a : A) : Bot A := fun w => (Return a, w).

Definition bindB {A B : Type} (c : Bot A) (k : A -> Bot B) : Bot B :=
  fun w =>
    match c w with
    | (Return a, w') => k a w'
    | (Raise e, w') => (Raise e, w')
    end.

Notation "x <~ c ;; k" := (bindB c (fun x => k))
  (at level 61, c at next level, right associativity).
Notation "c ;;; k" := (bindB c (fun _ => k))
  (at level 61, right associativity).

Definition lift {A : Type} (r : res A) : Bot A := fun w => (r, w).

(** [update.message.reply_text(text)]: the method is looked up first, then
    the argument is evaluated, then the text is sent. *)
Definition reply_text {M : Type} (message : option M) (text : res str)
  : Bot unit :=
  fun w =>
    match message with
    | None => (Raise AttributeError, w)
    | Some _ =>
      match text with
      | Return t => (Return tt, mkworld (user_data w) (sent w ++ [t]))
      | Raise e => (Raise e, w)
      end
    end.

(** [update.message.text] *)
Definition message_text (message : option str) : Bot str :=
  match message with
  | None => lift (Raise AttributeError)
  | Some text => ret text
  end.

(** [context.user_data.get(k)] *)
Definition user_data_get (k : str) : Bot (option str) :=
  fun w => (Return (dict_get k (user_data w)), w).

(** [context.user_data[k] = v] *)
Definition user_data_set (k v : str) : Bot unit :=
  fun w => (Return tt, mkworld (dict_set k v (user_data w)) (sent w)).

(** [x or default] on an optional string: [None] and [""] are falsy. *)
Definition str_or (x : option str) (default : str) : str :=
  match x with
  | Some (c :: t) => c :: t
  | _ => default
  end.

Definition msg_start (name : str) : str :=
  py "Привет, " ++ name ++ py "! Я бот календаря биоритмов." ++ nl
  ++ py "⚠️ Важно: биоритмы — псевдонаучная теория, пользуемся ими ради интереса, "
  ++ py "а не как медицинским советом." ++ nl ++ nl
  ++ py "Для начала пришли свою дату рождения в формате ДД.ММ.ГГГГ "
  ++ py "(например, 05.03.1990).".

Definition msg_retry : str :=
  py "Не получилось распознать дату 😕" ++ nl
  ++ py "Попробуй ещё раз в формате ДД.ММ.ГГГГ, например 05.03.1990.".

Definition msg_dob_set (dob bio : str) : str :=
  py "Отлично! Я запомнил твою дату рождения: " ++ dob ++ nl ++ nl
  ++ bio ++ nl ++ nl
  ++ py "Команды, которые я понимаю:" ++ nl
  ++ py "/today — биоритмы на сегодня" ++ nl
  ++ py "/on YYYY-MM-DD — биоритмы на конкретную дату (например, /on 2025-12-31)" ++ nl
  ++ py "/help — подсказка по возможностям бота".

Definition msg_no_dob : str :=
  py "Я ещё не знаю твою дату рождения. Отправь /start и введи её.".

Definition msg_usage : str :=
  py "Использование: /on YYYY-MM-DD, например /on 2025-12-31.".

Definition msg_bad_date : str :=
  py "Не получилось распознать дату. Используй формат YYYY-MM-DD, "
  ++ py "например 2025-12-31.".

Definition msg_before_birth : str :=
  py "Дата для расчёта не может быть раньше даты рождения.".

Definition msg_help : str :=
  py "Я показываю твой календарь биоритмов. Основные команды:" ++ nl
  ++ py "/start — заново ввести дату рождения" ++ nl
  ++ py "/today — биоритмы на сегодня" ++ nl
  ++ py "/on YYYY-MM-DD — биоритмы на выбранную дату" ++ nl
  ++ nl ++ py "Помни, что биоритмы — развлечение, а не наука 😉".

Definition msg_cancel : str :=
  py "Окей, отменяем ввод даты рождения. Можешь начать заново командой /start.".

Definition key_dob : str := py "dob".

Definition start (message : option unit) (first_name : option str) : Bot Z :=
  reply_text message (Return (msg_start (str_or first_name (py "друг")))) ;;;
  ret ASK_DOB.

Definition set_dob (now later : date) (message : option str) : Bot Z :=
  text <~ message_text message ;;
  dob <~ lift (parse_date text) ;;
  match dob with
  | None => reply_text message (Return msg_retry) ;;; ret ASK_DOB
  | Some dob =>
    user_data_set key_dob (isoformat dob) ;;;
    bio_today <~ lift (calc_biorhythm now dob None) ;;
    bio <~ lift (format_bio_text later bio_today) ;;
    reply_text message
               (Return (msg_dob_set (strftime year_filled dob fmt_dmY) bio)) ;;;
    ret END
  end.

Definition today (now later : date) (message : option unit) : Bot unit :=
  dob_iso <~ user_data_get key_dob ;;
  match dob_iso with
  | None | Some [] => reply_text message (Return msg_no_dob)
  | Some dob_iso =>
    dob <~ lift (fromisoformat dob_iso) ;;
    bio <~ lift (calc_biorhythm now dob None) ;;
    reply_text message (format_bio_text later bio)
  end.

(** [args] is [context.args].  The target date is given, and [on_date]
    does not read the clock: [now] goes to [calc_biorhythm], which has no
    use for it. *)
Definition on_date (now : date) (message : option unit) (args : list str)
  : Bot unit :=
  dob_iso <~ user_data_get key_dob ;;
  match dob_iso with
  | None | Some [] => reply_text message (Return msg_no_dob)
  | Some dob_iso =>
    match args with
    | [] => reply_text message (Return msg_usage)
    | arg0 :: _ =>
      match strptime arg0 fmt_Ymd with
      | Raise ValueError => reply_text message (Return msg_bad_date)
      | Raise e => lift (Raise e)
      | Return target =>
        dob <~ lift (fromisoformat dob_iso) ;;
        match calc_biorhythm now dob (Some target) with
        | Raise ValueError => reply_text message (Return msg_before_birth)
        | Raise e => lift (Raise e)
        | Return bio => reply_text message (format_bio_text target bio)
        end
      end
    end
  end.

Definition help_cmd (message : option unit) : Bot unit :=
  reply_text message (Return msg_help).

Definition cancel (message : option unit) : Bot Z :=
  reply_text message (Return msg_cancel) ;;;
  ret END.

(** *** [main]: the handlers as the application wires them

    One [ConversationHandler] (entry point [/start], state [ASK_DOB] with
    the text handler [set_dob], fallback [/cancel]) is added first, then the
    command handlers [today], [on] and [help].  An update goes to the first
    handler that accepts it.  The conversation is per user: [conv_state] is
    [None] outside a conversation.

    The handlers are registered with their default filters, which let
    edited messages through as well as new ones.  A [Command] is a new
    message that starts with a command: [name] is the command as typed,
    after the slash and with its [@mention] when it has one, [args] the
    words after it.  A [Text] is a new message of text that starts with no
    command.  [EditedCommand] and [EditedText] are the same, edited. *)

Inductive update :=
| Command (name : str) (args : list str) (first_name : option str)
| Text (text : str)
| EditedCommand (name : str) (args : list str) (first_name : option str)
| EditedText (text : str).

Record session := mksession { conv_state : option Z; stored : dict str }.

(** What one update leaves behind: the session, the replies sent, and the
    exception of a handler that raised. *)
Record outcome := mkoutcome {
  after : session;
  replies : list str;
  raised : option exn
}.

(** A handler of the conversation: its return value is the next state,
    [END] closes the conversation; when it raises the state stays. *)
Definition in_conversation (s : session) (h : Bot Z) : outcome :=
  match h (mkworld (stored s) []) with
  | (Return st, w) =>
    mkoutcome (mksession (if st =? END then None else Some st) (user_data w))
              (sent w) None
  | (Raise e, w) =>
    mkoutcome (mksession (conv_state s) (user_data w)) (sent w) (Some e)
  end.

Definition plain (s : session) (h : Bot unit) : outcome :=
  match h (mkworld (stored s) []) with
  | (Return _, w) => mkoutcome (mksession (conv_state s) (user_data w)) (sent w) None
  | (Raise e, w) => mkoutcome (mksession (conv_state s) (user_data w)) (sent w) (Some e)
  end.

(** [CommandHandler.check_update]: the typed command is split at [@]; the
    part before it, in lower case, is to be the handler's command, and the
    part after it, when there is one, the bot's username, whatever the
    case. *)
Definition command_parts (command : str) : str * str :=
  match split 64 command with
  | p0 :: p1 :: _ => (p0, p1)
  | [p0] => (p0, username)
  | [] => ([], username)
  end.

Definition is_cmd (name : str) (c : string) : bool :=
  let '(p0, p1) := command_parts name in
  str_eqb (lower p0) (lower (py c)) && str_eqb (lower p1) (lower username).

(** The command handlers added after the conversation handler. *)
Definition commands (now later : date) (s : session) (message : option unit)
           (name : str) (args : list str) : outcome :=
  if is_cmd name "today" then plain s (today now later message)
  else if is_cmd name "on" then plain s (on_date now message args)
  else if is_cmd name "help" then plain s (help_cmd message)
  else mkoutcome s [] None.

(** A command, new or edited. *)
Definition on_command (now later : date) (s : session) (message : option unit)
           (name : str) (args : list str) (first_name : option str) : outcome :=
  match conv_state s with
  | None =>
    if is_cmd name "start" then in_conversation s (start message first_name)
    else commands now later s message name args
  | Some _ =>
    if is_cmd name "cancel" then in_conversation s (cancel message)
    else commands now later s message name args
  end.

(** A text that starts with no command, new or edited. *)
Definition on_text (now later : date) (s : session) (message : option str)
  : outcome :=
  match conv_state s with
  | None => mkoutcome s [] None
  | Some st =>
    if st =? ASK_DOB then in_conversation s (set_dob now later message)
    else mkoutcome s [] None
  end.

Definition dispatch (now later : date) (s : session) (u : update) : outcome :=
  match u with
  | Command name args first_name =>
    on_command now later s (Some tt) name args first_name
  | EditedCommand name args first_name =>
    on_command now later s None name args first_name
  | Text text => on_text now later s (Some text)
  | EditedText _ => on_text now later s None
  end.

(** The updates of one user, in the order received, each with what the
    clock answers while it is handled. *)
Fixpoint run (s : session) (us : list (date * date * update))
  : session * list str :=
  match us with
  | [] => (s, [])
  | (now, later, u) :: us' =>
    let o := dispatch now later s u in
    let '(s', out) := run (after o) us' in
    (s', replies o ++ out)
  end.

End Host.

(** * The notions the properties are stated with *)

(** ** What the two formats accept, declaratively

    A day is [1]-[9], [01]-[09], a blank and [1]-[9], [10]-[29] or
    [30]-[31]; a month is [1]-[9], [01]-[09] or [10]-[12]; a year is four
    decimal digits.  Where the expression says [\d] the digit may come from
    any script. *)

Inductive day_text : str -> Z -> Prop :=
| day_1 (c : char) :
    49 <= c <= 57 -> day_text [c] (c - 48)
| day_0 (c : char) :
    49 <= c <= 57 -> day_text [48; c] (c - 48)
| day_blank (c : char) :
    49 <= c <= 57 -> day_text [32; c] (c - 48)
| day_12 (c1 c2 : char) (v : Z) :
    49 <= c1 <= 50 -> decimal c2 = Some v ->
    day_text [c1; c2] (10 * (c1 - 48) + v)
| day_3 (c : char) :
    48 <= c <= 49 -> day_text [51; c] (30 + (c - 48)).

Inductive month_text : str -> Z -> Prop :=
| month_1 (c : char) :
    49 <= c <= 57 -> month_text [c] (c - 48)
| month_0 (c : char) :
    49 <= c <= 57 -> month_text [48; c] (c - 48)
| month_1x (c : char) :
    48 <= c <= 50 -> month_text [49; c] (10 + (c - 48)).

Inductive year_text : str -> Z -> Prop :=
| year_4 (c1 c2 c3 c4 : char) (v1 v2 v3 v4 : Z) :
    decimal c1 = Some v1 -> decimal c2 = Some v2 ->
    decimal c3 = Some v3 -> decimal c4 = Some v4 ->
    year_text [c1; c2; c3; c4] (1000 * v1 + 100 * v2 + 10 * v3 + v4).

(** [s] is, from end to end, the date [x] written as ["%d.%m.%Y"] reads. *)
Definition written_dmY (s : str) (x : date) : Prop :=
  exists ds ms ys,
    s = ds ++ cDOT :: ms ++ cDOT :: ys
    /\ day_text ds (day x) /\ month_text ms (month x) /\ year_text ys (year x)
    /\ valid_date x.

(** [s] is, from end to end, the date [x] written as ["%Y-%m-%d"] reads. *)
Definition written_Ymd (s : str) (x : date) : Prop :=
  exists ys ms ds,
    s = ys ++ cDASH :: ms ++ cDASH :: ds
    /\ year_text ys (year x) /\ month_text ms (month x) /\ day_text ds (day x)
    /\ valid_date x.

(** ** The patterns [DD.MM.YYYY] and [YYYY-MM-DD] taken to the letter:
    two digits, two digits, four digits, the digits being [0]-[9] *)

Definition is_DD_MM_YYYY (s : str) : bool :=
  match s with
  | [d1; d2; p1; m1; m2; p2; y1; y2; y3; y4] =>
    (p1 =? cDOT) && (p2 =? cDOT)
    && forallb ascii_digit [d1; d2; m1; m2; y1; y2; y3; y4]
  | _ => false
  end.

Definition is_YYYY_MM_DD (s : str) : bool :=
  match s with
  | [y1; y2; y3; y4; p1; m1; m2; p2; d1; d2] =>
    (p1 =? cDASH) && (p2 =? cDASH)
    && forallb ascii_digit [y1; y2; y3; y4; m1; m2; d1; d2]
  | _ => false
  end.

Definition digit_of (c : char) : Z := c - 48.

(** The date a [DD.MM.YYYY] string denotes, when it is a date. *)
Definition read_DD_MM_YYYY (s : str) : option date :=
  match s with
  | [d1; d2; _; m1; m2; _; y1; y2; y3; y4] =>
    if is_DD_MM_YYYY s then
      let y := 1000 * digit_of y1 + 100 * digit_of y2
               + 10 * digit_of y3 + digit_of y4 in
      let m := 10 * digit_of m1 + digit_of m2 in
      let d := 10 * digit_of d1 + digit_of d2 in
      if _check_date_fields y m d then Some (mkdate y m d) else None
    else None
  | _ => None
  end.

(** A date written out in the pattern [DD.MM.YYYY]. *)
Definition format_DD_MM_YYYY (x : date) : str :=
  zfill 2 (day x) ++ [cDOT] ++ zfill 2 (month x) ++ [cDOT] ++ zfill 4 (year x).

(** ** Notions about the handlers *)

(** White space only. *)
Definition blank (s : str) : Prop := Forall (fun c => isspace c = true) s.

(** A stored birth date is the ISO text of a valid date. *)
Definition readable (data : dict str) : Prop :=
  forall iso, dict_get key_dob data = Some iso ->
              exists x, valid_date x /\ iso = isoformat x.

(** Started with nothing sent, a handler sends at most one message, and
    none when it raises. *)
Definition one_reply {A : Type} (h : Bot A) : Prop :=
  forall data,
    match h (mkworld data []) with
    | (Return _, w) => (List.length (sent w) <= 1)%nat
    | (Raise _, w) => sent w = []
    end.

(** An outcome with at most one reply, and none beside an exception. *)
Definition quiet_when_raised (o : outcome) : Prop :=
  (List.length (replies o) <= 1)%nat
  /\ (forall e, raised o = Some e -> replies o = []).

(** No conversation open, or one waiting for the birth date. *)
Definition waiting_or_out (s : session) : Prop :=
  conv_state s = None \/ conv_state s = Some ASK_DOB.

(** The outcome leaves stored a birth date that is after [now]. *)
Definition future_birth_date (now : date) (o : outcome) : Prop :=
  exists dob,
    valid_date dob /\ date_ltb now dob = true
    /\ dict_get key_dob (stored (after o)) = Some (isoformat dob).

(** The update brings an edited message, not a new one. *)
Definition edited (u : update) : bool :=
  match u with
  | EditedCommand _ _ _ | EditedText _ => true
  | Command _ _ _ | Text _ => false
  end.

(** * Facts about the calendar *)

Lemma is_leap_cases (y : Z) :
  _is_leap y = true /\ (y mod 4 = 0 /\ (y mod 100 <> 0 \/ y mod 400 = 0))
  \/ _is_leap y = false /\ ~ (y mod 4 = 0 /\ (y mod 100 <> 0 \/ y mod 400 = 0)).
Proof.
  unfold _is_leap.
  destruct (Z.eqb_spec (y mod 4) 0), (Z.eqb_spec (y mod 100) 0),
    (Z.eqb_spec (y mod 400) 0); cbn; intuition lia.
Qed.

Lemma days_before_year_succ (y : Z) :
  _days_before_year (y + 1)
  = _days_before_year y + (if _is_leap y then 366 else 365).
Proof.
  unfold _days_before_year.
  replace (y + 1 - 1) with y by lia.
  destruct (is_leap_cases y) as [[-> H] | [-> H]];
    Z.div_mod_to_equations; lia.
Qed.

Lemma days_before_year_mono (a b : Z) :
  a <= b -> _days_before_year a <= _days_before_year b.
Proof.
  unfold _days_before_year. intros H.
  Z.div_mod_to_equations. lia.
Qed.

Lemma month_cases (m : Z) :
  1 <= m <= 12 ->
  m = 1 \/ m = 2 \/ m = 3 \/ m = 4 \/ m = 5 \/ m = 6
  \/ m = 7 \/ m = 8 \/ m = 9 \/ m = 10 \/ m = 11 \/ m = 12.
Proof. lia. Qed.

Lemma valid_date_bounds (x : date) :
  valid_date x ->
  1 <= year x <= 9999 /\ 1 <= month x <= 12
  /\ 1 <= day x <= _days_in_month (year x) (month x).
Proof.
  unfold valid_date, _check_date_fields, MINYEAR, MAXYEAR.
  rewrite !andb_true_iff, !Z.leb_le. lia.
Qed.

Ltac table_lookup :=
  repeat match goal with
         | |- context [nth ?n ?l ?d] =>
           let v := eval vm_compute in (nth n l d) in
           change (nth n l d) with v
         end.

Ltac closed_tests :=
  repeat match goal with
         | |- context [if ?b then _ else _] =>
           let v := eval vm_compute in b in
           change b with v; cbv iota
         end.

Ltac months m H :=
  destruct (month_cases m H) as [-> | [-> | [-> | [-> | [-> | [-> | [-> | [-> | [-> | [-> | [-> | ->]]]]]]]]]]].

(** The day of the year stays within the year. *)
Lemma day_of_year_bounds (y m d : Z) :
  1 <= m <= 12 -> 1 <= d <= _days_in_month y m ->
  1 <= _days_before_month y m + d <= (if _is_leap y then 366 else 365).
Proof.
  intros Hm. unfold _days_in_month, _days_before_month.
  months m Hm; destruct (_is_leap y); table_lookup; closed_tests; lia.
Qed.

Lemma day_of_year_mono (y m1 d1 m2 d2 : Z) :
  1 <= m1 <= 12 -> 1 <= m2 <= 12 ->
  1 <= d1 <= _days_in_month y m1 -> 1 <= d2 <= _days_in_month y m2 ->
  m1 < m2 ->
  _days_before_month y m1 + d1 < _days_before_month y m2 + d2.
Proof.
  intros H1 H2. unfold _days_in_month, _days_before_month.
  months m1 H1; months m2 H2; destruct (_is_leap y); table_lookup; closed_tests; lia.
Qed.

Lemma toordinal_lt (a b : date) :
  valid_date a -> valid_date b ->
  date_ltb a b = true -> toordinal a < toordinal b.
Proof.
  intros Ha Hb.
  apply valid_date_bounds in Ha, Hb.
  destruct a as [ya ma da], b as [yb mb db]; cbn in *.
  unfold date_ltb, toordinal, _ymd2ord; cbn.
  rewrite orb_true_iff, !andb_true_iff, orb_true_iff, andb_true_iff,
    !Z.ltb_lt, !Z.eqb_eq.
  intros [Hy | [-> [Hm | [-> Hd]]]].
  - pose proof (day_of_year_bounds ya ma da ltac:(lia) ltac:(lia)).
    pose proof (day_of_year_bounds yb mb db ltac:(lia) ltac:(lia)).
    pose proof (days_before_year_succ ya).
    pose proof (days_before_year_mono (ya + 1) yb ltac:(lia)).
    destruct (_is_leap ya), (_is_leap yb); lia.
  - pose proof (day_of_year_mono yb ma da mb db). lia.
  - lia.
Qed.

Lemma date_ltb_total (a b : date) :
  date_ltb a b = true \/ a = b \/ date_ltb b a = true.
Proof.
  destruct a as [ya ma da], b as [yb mb db]. unfold date_ltb; cbn.
  destruct (Z.ltb_spec ya yb); [now left|].
  destruct (Z.ltb_spec yb ya); [now right; right|].
  assert (ya = yb) as -> by lia. rewrite Z.eqb_refl. cbn.
  destruct (Z.ltb_spec ma mb); [now left|].
  destruct (Z.ltb_spec mb ma); [now right; right|].
  assert (ma = mb) as -> by lia. rewrite Z.eqb_refl. cbn.
  destruct (Z.ltb_spec da db); [now left|].
  destruct (Z.ltb_spec db da); [now right; right|].
  right; left. f_equal; lia.
Qed.

(** [toordinal] orders the dates as the comparison of dates does. *)
Lemma toordinal_lt_iff (a b : date) :
  valid_date a -> valid_date b ->
  (date_ltb a b = true <-> toordinal a < toordinal b).
Proof.
  intros Ha Hb. split; [now apply toordinal_lt|].
  intros H.
  destruct (date_ltb_total a b) as [Hl | [-> | Hg]]; [exact Hl | lia |].
  apply toordinal_lt in Hg; [lia | assumption | assumption].
Qed.

(** * Facts about strings and digits *)

Arguments decimal : simpl never.

Lemma ascii_digit_cases (c : char) :
  48 <= c <= 57 ->
  c = 48 \/ c = 49 \/ c = 50 \/ c = 51 \/ c = 52 \/ c = 53
  \/ c = 54 \/ c = 55 \/ c = 56 \/ c = 57.
Proof. lia. Qed.

Ltac digits c H :=
  destruct (ascii_digit_cases c H)
    as [-> | [-> | [-> | [-> | [-> | [-> | [-> | [-> | [-> | ->]]]]]]]]].

Lemma decimal_ascii (c : char) :
  48 <= c <= 57 -> decimal c = Some (c - 48).
Proof. intros H. digits c H; reflexivity. Qed.

Lemma isspace_cases (c : char) :
  isspace c = true ->
  In c [9; 10; 11; 12; 13; 28; 29; 30; 31; 32; 133; 160; 5760;
        8192; 8193; 8194; 8195; 8196; 8197; 8198; 8199; 8200; 8201; 8202;
        8232; 8233; 8239; 8287; 12288].
Proof.
  unfold isspace.
  rewrite !orb_true_iff, !andb_true_iff, !Z.leb_le, !Z.eqb_eq.
  intros H. cbn. lia.
Qed.

(** No decimal digit is white space. *)
Lemma decimal_not_space (c : char) (v : Z) :
  decimal c = Some v -> isspace c = false.
Proof.
  intros H. destruct (isspace c) eqn:E; [|reflexivity].
  apply isspace_cases in E. cbn in E.
  repeat (destruct E as [<- | E]; [vm_compute in H; discriminate|]).
  contradiction.
Qed.

Lemma decimal_range (c : char) (v : Z) :
  decimal c = Some v -> 0 <= v <= 9.
Proof.
  unfold decimal. intros H.
  destruct (find _ Nd_zeros) as [z|] eqn:E; [|discriminate].
  apply find_some in E. destruct E as [_ E].
  rewrite andb_true_iff, !Z.leb_le in E.
  injection H as <-. lia.
Qed.

Lemma separator_not_decimal (c : char) :
  c = cDOT \/ c = cDASH -> decimal c = None.
Proof. intros [-> | ->]; reflexivity. Qed.

(** * The matcher against the declarative reading *)

Lemma match_atoms_app (ats : list atom) (s lex r : str) :
  match_atoms ats s = Some (lex, r) -> s = lex ++ r.
Proof.
  revert s lex r. induction ats as [|a ats IH]; intros s lex r; cbn.
  - intros [= <- <-]. reflexivity.
  - destruct s as [|c s']; [discriminate|].
    destruct (atom_ok a c); [|discriminate].
    destruct (match_atoms ats s') as [[lex' r']|] eqn:E; [|discriminate].
    intros [= <- <-]. cbn. f_equal. now apply IH.
Qed.

Lemma try_alts_inv (g : directive) (alts : list (list atom))
      (k : str -> option (groups * str)) (s : str) (gs : groups) (rest : str) :
  try_alts g alts k s = Some (gs, rest) ->
  exists a lex r gs',
    In a alts /\ match_atoms a s = Some (lex, r)
    /\ k r = Some (gs', rest) /\ gs = (g, lex) :: gs'.
Proof.
  induction alts as [|a alts IH]; cbn; [discriminate|].
  destruct (match_atoms a s) as [[lex r]|] eqn:Em.
  - destruct (k r) as [[gs' rest']|] eqn:Ek.
    + intros [= <- <-]. exists a, lex, r, gs'. auto.
    + intros H. destruct (IH H) as (a' & lex' & r' & gs' & Hin & H').
      exists a', lex', r', gs'. auto.
  - intros H. destruct (IH H) as (a' & lex' & r' & gs' & Hin & H').
    exists a', lex', r', gs'. auto.
Qed.

Lemma strip_two (a b : char) :
  isspace a = false -> isspace b = false -> strip [a; b] = [a; b].
Proof.
  intros Ha Hb. unfold strip, rstrip. cbn. rewrite Ha. cbn. rewrite Hb.
  reflexivity.
Qed.

Lemma strip_four (a b c d : char) :
  isspace a = false -> isspace d = false -> strip [a; b; c; d] = [a; b; c; d].
Proof.
  intros Ha Hd. unfold strip, rstrip. cbn. rewrite Ha. cbn. rewrite Hd.
  reflexivity.
Qed.

(** [int] of a day, a month and a year as the expressions delimit them. *)
Lemma int_day (ds : str) (v : Z) : day_text ds v -> int ds = Some v.
Proof.
  intros H. destruct H as [c H | c H | c H | c1 c2 v H1 H2 | c H].
  - assert (H' : 48 <= c <= 57) by lia. digits c H'; try lia; reflexivity.
  - assert (H' : 48 <= c <= 57) by lia. digits c H'; try lia; reflexivity.
  - assert (H' : 48 <= c <= 57) by lia. digits c H'; try lia; reflexivity.
  - unfold int. rewrite strip_two.
    + cbn [digits_value]. rewrite (decimal_ascii c1) by lia. rewrite H2.
      f_equal; lia.
    + apply (decimal_not_space c1 (c1 - 48)). apply decimal_ascii. lia.
    + now apply (decimal_not_space c2 v).
  - assert (H' : 48 <= c <= 57) by lia. digits c H'; try lia; reflexivity.
Qed.

Lemma int_month (ms : str) (v : Z) : month_text ms v -> int ms = Some v.
Proof.
  intros H. destruct H as [c H | c H | c H];
    (assert (H' : 48 <= c <= 57) by lia); digits c H'; try lia; reflexivity.
Qed.

Lemma int_year (ys : str) (v : Z) : year_text ys v -> int ys = Some v.
Proof.
  intros H. destruct H as [c1 c2 c3 c4 v1 v2 v3 v4 H1 H2 H3 H4].
  unfold int. rewrite strip_four.
  - cbn [digits_value]. rewrite H1, H2, H3, H4. f_equal; lia.
  - now apply (decimal_not_space c1 v1).
  - now apply (decimal_not_space c4 v4).
Qed.

Lemma match_atoms_cons (a : atom) (ats : list atom) (s lex r : str) :
  match_atoms (a :: ats) s = Some (lex, r) ->
  exists c s' lex',
    s = c :: s' /\ lex = c :: lex' /\ atom_ok a c = true
    /\ match_atoms ats s' = Some (lex', r).
Proof.
  cbn. destruct s as [|c s']; [discriminate|].
  destruct (atom_ok a c) eqn:E; [|discriminate].
  destruct (match_atoms ats s') as [[lex' r']|] eqn:Em; [|discriminate].
  intros [= <- <-]. exists c, s', lex'. repeat split; auto.
Qed.

Lemma match_atoms_nil (s lex r : str) :
  match_atoms [] s = Some (lex, r) -> lex = [] /\ r = s.
Proof. cbn. intros [= <- <-]. auto. Qed.

Lemma atom_ok_Chr (x c : char) : atom_ok (Chr x) c = true -> c = x.
Proof. cbn. apply Z.eqb_eq. Qed.

Lemma atom_ok_Rng (lo hi c : char) :
  atom_ok (Rng lo hi) c = true -> lo <= c <= hi.
Proof. cbn. rewrite andb_true_iff, !Z.leb_le. auto. Qed.

Lemma atom_ok_Dec (c : char) :
  atom_ok Dec c = true -> exists v, decimal c = Some v.
Proof.
  cbn. unfold isdecimal. destruct (decimal c) as [v|]; [eauto | discriminate].
Qed.

Ltac invert_atoms :=
  repeat match goal with
         | H : match_atoms (_ :: _) _ = Some _ |- _ =>
           apply match_atoms_cons in H;
           destruct H as (? & ? & ? & -> & -> & ? & H)
         | H : match_atoms [] _ = Some _ |- _ =>
           apply match_atoms_nil in H; destruct H as [-> ->]
         | H : atom_ok (Chr _) _ = true |- _ => apply atom_ok_Chr in H; subst
         | H : atom_ok (Rng _ _) _ = true |- _ => apply atom_ok_Rng in H
         | H : atom_ok Dec _ = true |- _ => apply atom_ok_Dec in H; destruct H
         end.

(** Each alternative of a directive delimits a lexeme of its kind. *)
Lemma day_alternative (a : list atom) (s lex r : str) :
  In a (TimeRE Dd) -> match_atoms a s = Some (lex, r) ->
  exists v, day_text lex v.
Proof.
  cbn. unfold c0, c1, c2, c3, c9, cSP.
  intros [<- | [<- | [<- | [<- | [<- | []]]]]] H; invert_atoms.
  - eexists. apply day_3. lia.
  - eexists. eapply day_12; [lia | eassumption].
  - eexists. apply day_0. lia.
  - eexists. apply day_1. lia.
  - eexists. apply day_blank. lia.
Qed.

Lemma month_alternative (a : list atom) (s lex r : str) :
  In a (TimeRE Dm) -> match_atoms a s = Some (lex, r) ->
  exists v, month_text lex v.
Proof.
  cbn. unfold c0, c1, c2, c9.
  intros [<- | [<- | [<- | []]]] H; invert_atoms.
  - eexists. apply month_1x. lia.
  - eexists. apply month_0. lia.
  - eexists. apply month_1. lia.
Qed.

Lemma year_alternative (a : list atom) (s lex r : str) :
  In a (TimeRE DY) -> match_atoms a s = Some (lex, r) ->
  exists v, year_text lex v.
Proof.
  cbn. intros [<- | []] H; invert_atoms.
  eexists. eapply year_4; eassumption.
Qed.

Arguments isdecimal : simpl never.

Lemma isdecimal_true (c : char) (v : Z) : decimal c = Some v -> isdecimal c = true.
Proof. unfold isdecimal. now intros ->. Qed.

Lemma isdecimal_dot : isdecimal 46 = false.
Proof. reflexivity. Qed.

Lemma isdecimal_dash : isdecimal 45 = false.
Proof. reflexivity. Qed.

(** What may follow a lexeme: the end of the text or a separator. *)
Definition sep_head (r : str) : Prop :=
  match r with
  | [] => True
  | c :: _ => c = cDOT \/ c = cDASH
  end.

Ltac run_alts Hk :=
  cbn; rewrite ?isdecimal_dot, ?isdecimal_dash; cbn; rewrite Hk; reflexivity.

Ltac sep_cases r Hr :=
  destruct r as [|? r]; [|destruct Hr as [-> | ->]].

(** The alternatives are ordered so that the lexeme of the text is the one
    found, whatever was tried before it. *)
Lemma try_year (k : str -> option (groups * str)) (ys : str) (v : Z) (r : str)
      (gs : groups) (rest : str) :
  year_text ys v -> k r = Some (gs, rest) ->
  try_alts DY (TimeRE DY) k (ys ++ r) = Some ((DY, ys) :: gs, rest).
Proof.
  intros H Hk. destruct H as [x1 x2 x3 x4 v1 v2 v3 v4 H1 H2 H3 H4].
  cbn.
  rewrite (isdecimal_true _ _ H1), (isdecimal_true _ _ H2),
    (isdecimal_true _ _ H3), (isdecimal_true _ _ H4).
  rewrite Hk. reflexivity.
Qed.

Lemma try_month (k : str -> option (groups * str)) (ms : str) (v : Z) (r : str)
      (gs : groups) (rest : str) :
  month_text ms v -> sep_head r -> k r = Some (gs, rest) ->
  try_alts Dm (TimeRE Dm) k (ms ++ r) = Some ((Dm, ms) :: gs, rest).
Proof.
  intros H Hr Hk.
  destruct H as [c H | c H | c H];
    (assert (H' : 48 <= c <= 57) by lia); digits c H'; try lia;
    sep_cases r Hr; run_alts Hk.
Qed.

Lemma try_day (k : str -> option (groups * str)) (ds : str) (v : Z) (r : str)
      (gs : groups) (rest : str) :
  day_text ds v -> sep_head r -> k r = Some (gs, rest) ->
  try_alts Dd (TimeRE Dd) k (ds ++ r) = Some ((Dd, ds) :: gs, rest).
Proof.
  intros H Hr Hk.
  destruct H as [c H | c H | c H | x1 x2 w H1 H2 | c H].
  - assert (H' : 48 <= c <= 57) by lia. digits c H'; try lia;
      sep_cases r Hr; run_alts Hk.
  - assert (H' : 48 <= c <= 57) by lia. digits c H'; try lia;
      sep_cases r Hr; run_alts Hk.
  - assert (H' : 48 <= c <= 57) by lia. digits c H'; try lia;
      sep_cases r Hr; run_alts Hk.
  - assert (H' : x1 = 49 \/ x1 = 50) by lia.
    destruct H' as [-> | ->]; cbn; rewrite (isdecimal_true _ _ H2);
      rewrite Hk; reflexivity.
  - assert (H' : 48 <= c <= 57) by lia. digits c H'; try lia;
      sep_cases r Hr; run_alts Hk.
Qed.

Lemma re_match_directive (g : directive) (p : list fmt_item) (s : str) :
  re_match (Directive g :: p) s = try_alts g (TimeRE g) (re_match p) s.
Proof. reflexivity. Qed.

Lemma re_match_literal (c : char) (p : list fmt_item) (s : str) :
  re_match (Literal c :: p) (c :: s) = re_match p s.
Proof. cbn [re_match]. now rewrite Z.eqb_refl. Qed.

Lemma re_match_literal_inv (c : char) (p : list fmt_item) (s : str)
      (gs : groups) (rest : str) :
  re_match (Literal c :: p) s = Some (gs, rest) ->
  exists s', s = c :: s' /\ re_match p s' = Some (gs, rest).
Proof.
  cbn. destruct s as [|c' s']; [discriminate|].
  destruct (Z.eqb_spec c' c) as [-> |]; [|discriminate].
  intros H. exists s'. auto.
Qed.

Lemma re_match_dmY_inv (s : str) (found : groups) (rest : str) :
  re_match fmt_dmY s = Some (found, rest) ->
  exists ds ms ys dv mv yv,
    s = ds ++ cDOT :: ms ++ cDOT :: ys ++ rest
    /\ found = [(Dd, ds); (Dm, ms); (DY, ys)]
    /\ day_text ds dv /\ month_text ms mv /\ year_text ys yv.
Proof.
  unfold fmt_dmY. rewrite re_match_directive. intros H.
  apply try_alts_inv in H. destruct H as (a1 & ds & r1 & g1 & I1 & M1 & K1 & ->).
  apply re_match_literal_inv in K1. destruct K1 as (r1' & -> & K1).
  rewrite re_match_directive in K1.
  apply try_alts_inv in K1. destruct K1 as (a2 & ms & r2 & g2 & I2 & M2 & K2 & ->).
  apply re_match_literal_inv in K2. destruct K2 as (r2' & -> & K2).
  rewrite re_match_directive in K2.
  apply try_alts_inv in K2. destruct K2 as (a3 & ys & r3 & g3 & I3 & M3 & K3 & ->).
  injection K3 as <- <-.
  destruct (day_alternative _ _ _ _ I1 M1) as [dv Hd].
  destruct (month_alternative _ _ _ _ I2 M2) as [mv Hm].
  destruct (year_alternative _ _ _ _ I3 M3) as [yv Hy].
  apply match_atoms_app in M1, M2, M3. subst.
  exists ds, ms, ys, dv, mv, yv. repeat split; auto.
Qed.

Lemma re_match_Ymd_inv (s : str) (found : groups) (rest : str) :
  re_match fmt_Ymd s = Some (found, rest) ->
  exists ys ms ds yv mv dv,
    s = ys ++ cDASH :: ms ++ cDASH :: ds ++ rest
    /\ found = [(DY, ys); (Dm, ms); (Dd, ds)]
    /\ year_text ys yv /\ month_text ms mv /\ day_text ds dv.
Proof.
  unfold fmt_Ymd. rewrite re_match_directive. intros H.
  apply try_alts_inv in H. destruct H as (a1 & ys & r1 & g1 & I1 & M1 & K1 & ->).
  apply re_match_literal_inv in K1. destruct K1 as (r1' & -> & K1).
  rewrite re_match_directive in K1.
  apply try_alts_inv in K1. destruct K1 as (a2 & ms & r2 & g2 & I2 & M2 & K2 & ->).
  apply re_match_literal_inv in K2. destruct K2 as (r2' & -> & K2).
  rewrite re_match_directive in K2.
  apply try_alts_inv in K2. destruct K2 as (a3 & ds & r3 & g3 & I3 & M3 & K3 & ->).
  injection K3 as <- <-.
  destruct (year_alternative _ _ _ _ I1 M1) as [yv Hy].
  destruct (month_alternative _ _ _ _ I2 M2) as [mv Hm].
  destruct (day_alternative _ _ _ _ I3 M3) as [dv Hd].
  apply match_atoms_app in M1, M2, M3. subst.
  exists ys, ms, ds, yv, mv, dv. repeat split; auto.
Qed.

Lemma re_match_dmY_complete (ds ms ys : str) (dv mv yv : Z) :
  day_text ds dv -> month_text ms mv -> year_text ys yv ->
  re_match fmt_dmY (ds ++ cDOT :: ms ++ cDOT :: ys)
  = Some ([(Dd, ds); (Dm, ms); (DY, ys)], []).
Proof.
  intros Hd Hm Hy. unfold fmt_dmY. rewrite re_match_directive.
  apply (try_day _ ds dv); [assumption | cbn; auto |].
  rewrite re_match_literal, re_match_directive.
  apply (try_month _ ms mv); [assumption | cbn; auto |].
  rewrite re_match_literal, re_match_directive.
  rewrite <- (app_nil_r ys) at 1.
  apply (try_year _ ys yv); [assumption | reflexivity].
Qed.

Lemma re_match_Ymd_complete (ys ms ds : str) (yv mv dv : Z) :
  year_text ys yv -> month_text ms mv -> day_text ds dv ->
  re_match fmt_Ymd (ys ++ cDASH :: ms ++ cDASH :: ds)
  = Some ([(DY, ys); (Dm, ms); (Dd, ds)], []).
Proof.
  intros Hy Hm Hd. unfold fmt_Ymd. rewrite re_match_directive.
  apply (try_year _ ys yv); [assumption |].
  rewrite re_match_literal, re_match_directive.
  apply (try_month _ ms mv); [assumption | cbn; auto |].
  rewrite re_match_literal, re_match_directive.
  rewrite <- (app_nil_r ds) at 1.
  apply (try_day _ ds dv); [assumption | exact I | reflexivity].
Qed.

Lemma date_new_Return (y m d : Z) (x : date) :
  date_new y m d = Return x <-> x = mkdate y m d /\ valid_date x.
Proof.
  unfold date_new, valid_date. split.
  - destruct (_check_date_fields y m d) eqn:E; [|discriminate].
    intros [= <-]. cbn. auto.
  - intros [-> H]. cbn in H. now rewrite H.
Qed.

(** [strptime] with ["%d.%m.%Y"] accepts exactly the texts of that form. *)
Lemma strptime_dmY_spec (s : str) (x : date) :
  strptime s fmt_dmY = Return x <-> written_dmY s x.
Proof.
  unfold strptime, written_dmY. split.
  - destruct (re_match fmt_dmY s) as [[found rest]|] eqn:E; [|discriminate].
    destruct rest; [|discriminate].
    apply re_match_dmY_inv in E.
    destruct E as (ds & ms & ys & dv & mv & yv & -> & -> & Hd & Hm & Hy).
    unfold field. cbn [group].
    rewrite (int_year _ _ Hy), (int_month _ _ Hm), (int_day _ _ Hd).
    rewrite date_new_Return. intros [-> Hv].
    exists ds, ms, ys. rewrite app_nil_r. auto.
  - intros (ds & ms & ys & -> & Hd & Hm & Hy & Hv).
    rewrite (re_match_dmY_complete _ _ _ _ _ _ Hd Hm Hy).
    unfold field. cbn [group].
    rewrite (int_year _ _ Hy), (int_month _ _ Hm), (int_day _ _ Hd).
    apply date_new_Return. destruct x; auto.
Qed.

(** [strptime] with ["%Y-%m-%d"] accepts exactly the texts of that form. *)
Lemma strptime_Ymd_spec (s : str) (x : date) :
  strptime s fmt_Ymd = Return x <-> written_Ymd s x.
Proof.
  unfold strptime, written_Ymd. split.
  - destruct (re_match fmt_Ymd s) as [[found rest]|] eqn:E; [|discriminate].
    destruct rest; [|discriminate].
    apply re_match_Ymd_inv in E.
    destruct E as (ys & ms & ds & yv & mv & dv & -> & -> & Hy & Hm & Hd).
    unfold field. cbn [group].
    rewrite (int_year _ _ Hy), (int_month _ _ Hm), (int_day _ _ Hd).
    rewrite date_new_Return. intros [-> Hv].
    exists ys, ms, ds. rewrite app_nil_r. auto.
  - intros (ys & ms & ds & -> & Hy & Hm & Hd & Hv).
    rewrite (re_match_Ymd_complete _ _ _ _ _ _ Hy Hm Hd).
    unfold field. cbn [group].
    rewrite (int_year _ _ Hy), (int_month _ _ Hm), (int_day _ _ Hd).
    apply date_new_Return. destruct x; auto.
Qed.

(** [strptime] raises nothing but [ValueError]. *)
Lemma strptime_raises (s : str) (fmt : list fmt_item) (e : exn) :
  strptime s fmt = Raise e -> e = ValueError.
Proof.
  unfold strptime, date_new.
  destruct (re_match fmt s) as [[found [|? ?]]|]; try congruence.
  destruct (field DY 1900 found), (field Dm 1 found), (field Dd 1 found);
    try congruence.
  destruct (_check_date_fields _ _ _); congruence.
Qed.

(** * [parse_date] *)

Lemma parse_date_unfold (text : str) :
  parse_date text
  = match strptime (strip text) fmt_dmY with
    | Return d => Return (Some d)
    | Raise ValueError =>
      match strptime (strip text) fmt_Ymd with
      | Return d => Return (Some d)
      | Raise ValueError => Return None
      | Raise e => Raise e
      end
    | Raise e => Raise e
    end.
Proof. reflexivity. Qed.

(** No text is of both forms: the fourth character of a year is a digit,
    and a day is followed by a dot after two characters at most. *)
Lemma formats_disjoint (s : str) (x y : date) :
  written_dmY s x -> written_Ymd s y -> False.
Proof.
  intros (ds & ms & ys & E1 & Hd & _) (ys' & ms' & ds' & E2 & Hy & _).
  rewrite E1 in E2. clear E1.
  destruct Hy as [x1 x2 x3 x4 v1 v2 v3 v4 H1 H2 H3 H4].
  unfold cDOT, cDASH in E2.
  destruct Hd; cbn [app] in E2; injection E2; intros; subst;
    match goal with
    | H : decimal 46 = Some _ |- _ =>
      rewrite (separator_not_decimal 46 (or_introl eq_refl)) in H; discriminate
    end.
Qed.

Lemma strptime_cases (s : str) (fmt : list fmt_item) :
  (exists x, strptime s fmt = Return x) \/ strptime s fmt = Raise ValueError.
Proof.
  destruct (strptime s fmt) as [x | e] eqn:E; [eauto|].
  apply strptime_raises in E. subst. auto.
Qed.

Lemma days_in_month_le_31 (y m : Z) : _days_in_month y m <= 31.
Proof.
  unfold _days_in_month.
  destruct ((m =? 2) && _is_leap y); [lia|].
  destruct (Z.to_nat m) as [|[|[|[|[|[|[|[|[|[|[|[|[|n]]]]]]]]]]]]];
    cbn; try lia.
  destruct n; cbn; lia.
Qed.

Lemma str_eqb_eq (a b : str) : str_eqb a b = true -> a = b.
Proof.
  revert b. induction a as [|x a IH]; destruct b as [|y b]; cbn;
    try discriminate; [reflexivity|].
  rewrite andb_true_iff, Z.eqb_eq. intros [-> H]. f_equal. now apply IH.
Qed.

Definition below (n : Z) : list Z := map Z.of_nat (seq 0 (Z.to_nat n)).

Lemma In_below (n z : Z) : 0 <= z < n -> In z (below n).
Proof.
  intros H. unfold below. apply in_map_iff. exists (Z.to_nat z).
  split; [lia|]. apply in_seq. lia.
Qed.

(** A property checked on every number below [n] holds of each of them. *)
Lemma below_all (n : Z) (P : Z -> bool) :
  forallb P (below n) = true -> forall z, 0 <= z < n -> P z = true.
Proof.
  intros H z Hz. rewrite forallb_forall in H. apply H. now apply In_below.
Qed.

Lemma div_digits (q r k : Z) : 0 <= r < k -> (k * q + r) / k = q.
Proof. intros H. symmetry. apply (Z.div_unique _ k q r); lia. Qed.

Lemma mod_digits (q r k : Z) : 0 <= r < k -> (k * q + r) mod k = r.
Proof. intros H. symmetry. apply (Z.mod_unique _ k q r); lia. Qed.

Lemma zfill_2 (a b : Z) :
  0 <= a <= 9 -> 0 <= b <= 9 -> zfill 2 (10 * a + b) = [48 + a; 48 + b].
Proof.
  intros Ha Hb.
  assert (H : forallb (fun n => str_eqb (zfill 2 n) [48 + n / 10; 48 + n mod 10])
                      (below 100) = true) by (vm_compute; reflexivity).
  pose proof (below_all _ _ H (10 * a + b) ltac:(lia)) as E.
  apply str_eqb_eq in E. rewrite E.
  rewrite (div_digits a b 10), (mod_digits a b 10) by lia. reflexivity.
Qed.

Lemma zfill_4 (a b c d : Z) :
  0 <= a <= 9 -> 0 <= b <= 9 -> 0 <= c <= 9 -> 0 <= d <= 9 ->
  zfill 4 (1000 * a + 100 * b + 10 * c + d) = [48 + a; 48 + b; 48 + c; 48 + d].
Proof.
  intros Ha Hb Hc Hd.
  assert (H : forallb (fun n => str_eqb (zfill 4 n)
                                  [48 + n / 1000; 48 + n / 100 mod 10;
                                   48 + n / 10 mod 10; 48 + n mod 10])
                      (below 10000) = true) by (vm_compute; reflexivity).
  pose proof (below_all _ _ H (1000 * a + 100 * b + 10 * c + d)
                        ltac:(lia)) as E.
  apply str_eqb_eq in E. rewrite E.
  set (n := 1000 * a + 100 * b + 10 * c + d).
  assert (E3 : n / 1000 = a).
  { replace n with (1000 * a + (100 * b + 10 * c + d)) by (unfold n; lia).
    apply div_digits. lia. }
  assert (E2 : n / 100 mod 10 = b).
  { replace n with (100 * (10 * a + b) + (10 * c + d)) by (unfold n; lia).
    rewrite div_digits by lia. apply mod_digits. lia. }
  assert (E1 : n / 10 mod 10 = c).
  { replace n with (10 * (10 * (10 * a + b) + c) + d) by (unfold n; lia).
    rewrite div_digits by lia. apply mod_digits. lia. }
  assert (E0 : n mod 10 = d).
  { replace n with (10 * (100 * a + 10 * b + c) + d) by (unfold n; lia).
    apply mod_digits. lia. }
  rewrite E3, E2, E1, E0. reflexivity.
Qed.

(** From a thousand on the year needs no filling. *)
Lemma str_of_nat_4 (y : Z) : 1000 <= y <= 9999 -> str_of_nat y = zfill 4 y.
Proof.
  intros Hy.
  assert (H : forallb (fun n => (n <? 1000) || str_eqb (str_of_nat n) (zfill 4 n))
                      (below 10000) = true) by (vm_compute; reflexivity).
  pose proof (below_all _ _ H y ltac:(lia)) as E.
  apply orb_true_iff in E. destruct E as [E | E].
  - apply Z.ltb_lt in E. lia.
  - apply str_eqb_eq. exact E.
Qed.

Lemma parse_date_Some (text : str) (x : date) :
  parse_date text = Return (Some x)
  <-> written_dmY (strip text) x \/ written_Ymd (strip text) x.
Proof.
  rewrite parse_date_unfold, <- strptime_dmY_spec, <- strptime_Ymd_spec.
  destruct (strptime_cases (strip text) fmt_dmY) as [[a Ha] | ->].
  - rewrite Ha. split.
    + intros [= ->]. auto.
    + intros [[= ->] | H]; [reflexivity|].
      exfalso. apply strptime_Ymd_spec in H. apply strptime_dmY_spec in Ha.
      exact (formats_disjoint (strip text) a x Ha H).
  - destruct (strptime_cases (strip text) fmt_Ymd) as [[b ->] | ->].
    + split.
      * intros [= ->]. auto.
      * intros [H | [= ->]]; [discriminate | reflexivity].
    + split; [discriminate|]. intros [H | H]; discriminate.
Qed.

Lemma parse_date_total (text : str) :
  (exists x, parse_date text = Return (Some x)) \/ parse_date text = Return None.
Proof.
  rewrite parse_date_unfold.
  destruct (strptime_cases (strip text) fmt_dmY) as [[a ->] | ->]; [eauto|].
  destruct (strptime_cases (strip text) fmt_Ymd) as [[b ->] | ->]; eauto.
Qed.

Lemma strip_ten (a b c d e f g h i j : Z) :
  isspace a = false -> isspace j = false ->
  strip [a; b; c; d; e; f; g; h; i; j] = [a; b; c; d; e; f; g; h; i; j].
Proof.
  intros Ha Hj. unfold strip, rstrip. cbn. rewrite Ha. cbn. rewrite Hj.
  reflexivity.
Qed.

Lemma ascii_digit_range (c : Z) : ascii_digit c = true -> 48 <= c <= 57.
Proof. unfold ascii_digit. rewrite andb_true_iff, !Z.leb_le. auto. Qed.

Lemma ascii_digit_not_space (c : Z) : ascii_digit c = true -> isspace c = false.
Proof.
  intros H. apply ascii_digit_range in H.
  apply (decimal_not_space c (c - 48)). now apply decimal_ascii.
Qed.

(** A day of a valid date, written with two digits, is a day lexeme. *)
Lemma two_digit_day (a b : Z) :
  48 <= a <= 57 -> 48 <= b <= 57 ->
  1 <= 10 * (a - 48) + (b - 48) <= 31 ->
  day_text [a; b] (10 * (a - 48) + (b - 48)).
Proof.
  intros Ha Hb H.
  assert (C : a = 48 \/ 49 <= a <= 50 \/ a = 51) by lia.
  destruct C as [-> | [C | ->]].
  - apply (day_0 b). lia.
  - apply day_12; [lia | apply decimal_ascii; lia].
  - replace (10 * (51 - 48) + (b - 48)) with (30 + (b - 48)) by lia.
    apply day_3. lia.
Qed.

Lemma two_digit_month (a b : Z) :
  48 <= a <= 57 -> 48 <= b <= 57 ->
  1 <= 10 * (a - 48) + (b - 48) <= 12 ->
  month_text [a; b] (10 * (a - 48) + (b - 48)).
Proof.
  intros Ha Hb H.
  assert (C : a = 48 \/ a = 49) by lia.
  destruct C as [-> | ->].
  - apply (month_0 b). lia.
  - replace (10 * (49 - 48) + (b - 48)) with (10 + (b - 48)) by lia.
    apply month_1x. lia.
Qed.

Lemma read_DD_MM_YYYY_inv (s : str) (x : date) :
  read_DD_MM_YYYY s = Some x ->
  exists d1 d2 m1 m2 y1 y2 y3 y4,
    s = [d1; d2; cDOT; m1; m2; cDOT; y1; y2; y3; y4]
    /\ Forall (fun c => 48 <= c <= 57) [d1; d2; m1; m2; y1; y2; y3; y4]
    /\ x = mkdate (1000 * (y1 - 48) + 100 * (y2 - 48) + 10 * (y3 - 48) + (y4 - 48))
                  (10 * (m1 - 48) + (m2 - 48)) (10 * (d1 - 48) + (d2 - 48))
    /\ valid_date x.
Proof.
  unfold read_DD_MM_YYYY.
  destruct s as [|d1 [|d2 [|p1 [|m1 [|m2 [|p2 [|y1 [|y2 [|y3 [|y4 [|? ?]]]]]]]]]]];
    try discriminate.
  destruct (is_DD_MM_YYYY _) eqn:E; [|discriminate].
  unfold digit_of.
  destruct (_check_date_fields _ _ _) eqn:V; [|discriminate].
  intros [= <-].
  unfold is_DD_MM_YYYY in E. cbn [forallb] in E.
  rewrite !andb_true_iff, !Z.eqb_eq in E.
  destruct E as [[-> ->] (D1 & D2 & D3 & D4 & D5 & D6 & D7 & D8 & _)].
  exists d1, d2, m1, m2, y1, y2, y3, y4.
  repeat split; [|exact V].
  repeat (apply Forall_cons; [apply ascii_digit_range; assumption|]).
  apply Forall_nil.
Qed.

(** C3, as the code has it.  [parse_date] never raises.  It returns a date
    exactly when the text, white space trimmed, is from end to end a valid
    calendar date written as ["%d.%m.%Y"] or as ["%Y-%m-%d"] read it: a year
    of four digits, a month of one or two digits, a day of one or two
    digits or a blank and a digit.  It returns [None] exactly when the text
    is of neither form.  No text is of both forms, and what the first
    format reads is the result. *)
Theorem parse_date_accepts (text : str) :
  (forall x, parse_date text = Return (Some x)
             <-> written_dmY (strip text) x \/ written_Ymd (strip text) x)
  /\ (parse_date text = Return None
      <-> ~ exists x, written_dmY (strip text) x \/ written_Ymd (strip text) x)
  /\ (forall x y, ~ (written_dmY (strip text) x /\ written_Ymd (strip text) y))
  /\ (forall x, strptime (strip text) fmt_dmY = Return x ->
                parse_date text = Return (Some x)).
Proof.
  split; [|split; [|split]].
  - intros x. apply parse_date_Some.
  - split.
    + intros H [x Hx]. apply parse_date_Some in Hx. congruence.
    + intros H. destruct (parse_date_total text) as [[x Hx] | Hn]; [|exact Hn].
      exfalso. apply H. exists x. now apply parse_date_Some.
  - intros x y [Hx Hy]. exact (formats_disjoint _ _ _ Hx Hy).
  - intros x Hx. apply parse_date_Some. left. now apply strptime_dmY_spec.
Qed.

(** C3 as stated fails: [5.3.1990] is read as the fifth of March 1990,
    and it is neither two digits, a dot, two digits, a dot and four digits
    nor the like with dashes. *)
Lemma parse_date_reads_short_fields :
  parse_date (py "5.3.1990") = Return (Some (mkdate 1990 3 5))
  /\ is_DD_MM_YYYY (strip (py "5.3.1990")) = false
  /\ is_YYYY_MM_DD (strip (py "5.3.1990")) = false.
Proof. repeat split; vm_compute; reflexivity. Qed.

(** C6.  A text that is a valid date in the pattern [DD.MM.YYYY] is read
    by [parse_date] as that date, and the date written back in the pattern
    is the text, character for character; [31.02.2020] is no date and is
    refused. *)
Theorem parse_date_roundtrip :
  (forall (s : str) (x : date),
      read_DD_MM_YYYY s = Some x ->
      parse_date s = Return (Some x) /\ format_DD_MM_YYYY x = s)
  /\ read_DD_MM_YYYY (py "31.02.2020") = None
  /\ parse_date (py "31.02.2020") = Return None.
Proof.
  split; [|split; vm_compute; reflexivity].
  intros s x H. apply read_DD_MM_YYYY_inv in H.
  destruct H as (d1 & d2 & m1 & m2 & y1 & y2 & y3 & y4 & -> & D & -> & V).
  repeat match goal with
         | H : Forall _ (_ :: _) |- _ => inversion_clear H
         end.
  pose proof (valid_date_bounds _ V) as B. cbn [year month day] in B.
  pose proof (days_in_month_le_31
                (1000 * (y1 - 48) + 100 * (y2 - 48) + 10 * (y3 - 48) + (y4 - 48))
                (10 * (m1 - 48) + (m2 - 48))) as B31.
  split.
  - apply parse_date_Some. left.
    rewrite strip_ten
      by (eapply decimal_not_space; apply decimal_ascii; assumption).
    exists [d1; d2], [m1; m2], [y1; y2; y3; y4]. cbn [year month day].
    split; [reflexivity|]. split; [|split; [|split; [|exact V]]].
    + apply two_digit_day; lia.
    + apply two_digit_month; lia.
    + apply year_4; apply decimal_ascii; assumption.
  - unfold format_DD_MM_YYYY. cbn [year month day].
    rewrite !zfill_2, zfill_4 by lia.
    unfold cDOT. cbn [app]. repeat f_equal; lia.
Qed.

Lemma parse_date_roundtrip_witness :
  read_DD_MM_YYYY (py "05.03.1990") = Some (mkdate 1990 3 5)
  /\ parse_date (py "05.03.1990") = Return (Some (mkdate 1990 3 5))
  /\ format_DD_MM_YYYY (mkdate 1990 3 5) = py "05.03.1990".
Proof.
  split; [vm_compute; reflexivity|].
  apply (proj1 parse_date_roundtrip). vm_compute; reflexivity.
Defined.

(** What [strftime('%d.%m.%Y')] writes is the pattern [DD.MM.YYYY] when the
    C library fills the year, and from the year 1000 on in any case. *)
Lemma strftime_dmY_pattern (year_filled : bool) (x : date) :
  year_filled = true \/ 1000 <= year x <= 9999 ->
  strftime year_filled x fmt_dmY = format_DD_MM_YYYY x.
Proof.
  intros H. unfold strftime, format_DD_MM_YYYY, fmt_dmY.
  cbn [map List.concat strftime_item]. rewrite app_nil_r.
  destruct year_filled; [reflexivity|].
  destruct H as [H | H]; [discriminate|].
  now rewrite str_of_nat_4.
Qed.

(** * Facts about binary64 rounding *)

(** Powers of two are atoms for linear arithmetic. *)
Ltac pow_lia :=
  repeat match goal with
         | |- context [2 ^ ?e] =>
           let x := fresh "pw" in set (x := 2 ^ e) in *; clearbody x
         | H : context [2 ^ ?e] |- _ =>
           let x := fresh "pw" in set (x := 2 ^ e) in *; clearbody x
         end;
  lia.

Lemma digits2_bounds (p : positive) :
  2 ^ (Zpos (digits2_pos p) - 1) <= Zpos p < 2 ^ Zpos (digits2_pos p).
Proof.
  induction p as [p IH | p IH |]; cbn [digits2_pos].
  - rewrite Pos2Z.inj_succ. change (Zpos p~1) with (2 * Zpos p + 1).
    replace (Z.succ (Zpos (digits2_pos p)) - 1) with (Z.succ (Zpos (digits2_pos p) - 1)) by lia.
    rewrite !Z.pow_succ_r by lia. pow_lia.
  - rewrite Pos2Z.inj_succ. change (Zpos p~0) with (2 * Zpos p).
    replace (Z.succ (Zpos (digits2_pos p)) - 1) with (Z.succ (Zpos (digits2_pos p) - 1)) by lia.
    rewrite !Z.pow_succ_r by lia. pow_lia.
  - cbn. lia.
Qed.

Lemma Zdigits2_nonneg (m : Z) : 0 <= Zdigits2 m.
Proof. destruct m; cbn; lia. Qed.

(** A number below [2^k] has [k] binary digits at most. *)
Lemma Zdigits2_le (m k : Z) : 0 <= m -> 0 <= k -> m < 2 ^ k -> Zdigits2 m <= k.
Proof.
  intros Hm Hk H. destruct m as [|p|p]; cbn; [lia | | lia].
  pose proof (digits2_bounds p) as [B _].
  destruct (Z_le_gt_dec (Zpos (digits2_pos p)) k) as [|G]; [assumption|].
  exfalso.
  assert (2 ^ k <= 2 ^ (Zpos (digits2_pos p) - 1))
    by (apply Z.pow_le_mono_r; lia).
  lia.
Qed.

Lemma Zdigits2_lt_pow (m : Z) : 0 <= m -> m < 2 ^ Zdigits2 m.
Proof.
  intros Hm. destruct m as [|p|p]; cbn; [lia | | lia].
  apply digits2_bounds.
Qed.

Lemma pow2_pos (k : Z) : 0 <= k -> 0 < 2 ^ k.
Proof. intros. apply Z.pow_pos_nonneg; lia. Qed.

(** Dropping [k] low bits drops [k] digits. *)
Lemma Zdigits2_div (m k : Z) :
  0 <= m -> 0 <= k -> Zdigits2 (m / 2 ^ k) <= Z.max 0 (Zdigits2 m - k).
Proof.
  intros Hm Hk.
  pose proof (pow2_pos k Hk).
  assert (0 <= m / 2 ^ k) by (apply Z.div_pos; lia).
  pose proof (Zdigits2_lt_pow m Hm) as L.
  pose proof (Zdigits2_nonneg m).
  destruct (Z_le_gt_dec (Zdigits2 m) k) as [Le | Gt].
  - assert (m < 2 ^ k).
    { eapply Z.lt_le_trans; [exact L|]. apply Z.pow_le_mono_r; lia. }
    rewrite Z.div_small by lia. cbn. lia.
  - apply Zdigits2_le; [lia | lia |].
    apply Z.div_lt_upper_bound; [lia|].
    rewrite <- Z.pow_add_r by lia.
    replace (k + Z.max 0 (Zdigits2 m - k)) with (Zdigits2 m) by lia. exact L.
Qed.

Lemma Zdigits2_succ (m : Z) : 0 <= m -> Zdigits2 (m + 1) <= Zdigits2 m + 1.
Proof.
  intros Hm. pose proof (Zdigits2_nonneg m).
  apply Zdigits2_le; [lia | lia |].
  pose proof (Zdigits2_lt_pow m Hm).
  rewrite Z.pow_add_r by lia. change (2 ^ 1) with 2. lia.
Qed.

Lemma Zdigits2_mono (a b : Z) : 0 <= a <= b -> Zdigits2 a <= Zdigits2 b.
Proof.
  intros H. pose proof (Zdigits2_nonneg b).
  apply Zdigits2_le; [lia | lia |].
  pose proof (Zdigits2_lt_pow b ltac:(lia)). lia.
Qed.

Lemma Zdigits2_mul (a b : Z) :
  0 <= a -> 0 <= b -> Zdigits2 (a * b) <= Zdigits2 a + Zdigits2 b.
Proof.
  intros Ha Hb.
  pose proof (Zdigits2_nonneg a). pose proof (Zdigits2_nonneg b).
  apply Zdigits2_le; [lia | lia |].
  rewrite Z.pow_add_r by lia.
  pose proof (Zdigits2_lt_pow a Ha). pose proof (Zdigits2_lt_pow b Hb).
  nia.
Qed.

(** *** The shift of the rounding *)

Lemma shr_1_m (r : shr_record) : 0 <= shr_m r -> shr_m (shr_1 r) = shr_m r / 2.
Proof.
  destruct r as [m r s]. cbn [shr_m]. intros H.
  rewrite <- Z.div2_div.
  destruct m as [|[p|p|]|p]; cbn; try reflexivity; lia.
Qed.

Lemma iter_shr_1_m (p : positive) (r : shr_record) :
  0 <= shr_m r -> shr_m (iter_pos shr_1 p r) = shr_m r / 2 ^ Zpos p.
Proof.
  revert r. induction p as [p IH | p IH |]; intros r H; cbn [iter_pos].
  - assert (H1 : 0 <= shr_m (shr_1 r)) by (rewrite shr_1_m by lia; apply Z.div_pos; lia).
    pose proof (pow2_pos (Zpos p) ltac:(lia)).
    rewrite IH, IH, shr_1_m by (try rewrite IH by lia; try apply Z.div_pos; lia).
    rewrite !Z.div_div by lia.
    f_equal. change (Zpos p~1) with (2 * Zpos p + 1).
    replace (2 * Zpos p + 1) with (1 + Zpos p + Zpos p) by lia.
    rewrite !Z.pow_add_r by lia. change (2 ^ 1) with 2. lia.
  - pose proof (pow2_pos (Zpos p) ltac:(lia)).
    rewrite IH, IH by (try rewrite IH by lia; try apply Z.div_pos; lia).
    rewrite !Z.div_div by lia.
    f_equal. change (Zpos p~0) with (2 * Zpos p).
    replace (2 * Zpos p) with (Zpos p + Zpos p) by lia.
    rewrite !Z.pow_add_r by lia. lia.
  - rewrite shr_1_m by lia. reflexivity.
Qed.

Lemma mod_pow2_split (a b m : Z) :
  0 <= a -> 0 <= b -> m mod 2 ^ (a + b) = 0 ->
  m mod 2 ^ a = 0 /\ (m / 2 ^ a) mod 2 ^ b = 0.
Proof.
  intros Ha Hb H.
  pose proof (pow2_pos a Ha). pose proof (pow2_pos b Hb).
  apply Z.mod_divide in H; [|rewrite Z.pow_add_r by lia; lia].
  destruct H as [q ->].
  rewrite Z.pow_add_r by lia.
  replace (q * (2 ^ a * 2 ^ b)) with (q * 2 ^ b * 2 ^ a) by lia.
  rewrite Z.mod_mul, Z.div_mul by lia.
  split; [reflexivity|]. apply Z.mod_mul. lia.
Qed.

Lemma shr_1_exact (r : shr_record) :
  shr_r r = false -> shr_s r = false -> 0 <= shr_m r -> shr_m r mod 2 = 0 ->
  shr_r (shr_1 r) = false /\ shr_s (shr_1 r) = false.
Proof.
  destruct r as [m r s]. cbn [shr_m shr_r shr_s]. intros -> -> Hm He.
  destruct m as [|[p|p|]|p]; cbn; auto; try lia.
  - exfalso. change (Zpos p~1) with (2 * Zpos p + 1) in He.
    rewrite Z.add_comm, Z.mul_comm, Z.mod_add in He by lia. discriminate.
  - discriminate.
Qed.

Lemma iter_shr_1_exact (p : positive) (r : shr_record) :
  shr_r r = false -> shr_s r = false -> 0 <= shr_m r ->
  shr_m r mod 2 ^ Zpos p = 0 ->
  shr_r (iter_pos shr_1 p r) = false /\ shr_s (iter_pos shr_1 p r) = false.
Proof.
  revert r. induction p as [p IH | p IH |]; intros r Hr Hs Hm He; cbn [iter_pos].
  - change (Zpos p~1) with (2 * Zpos p + 1) in He.
    replace (2 * Zpos p + 1) with (1 + (Zpos p + Zpos p)) in He by lia.
    apply mod_pow2_split in He; [|lia|lia]. destruct He as [E1 E2].
    change (2 ^ 1) with 2 in E1, E2.
    apply mod_pow2_split in E2; [|lia|lia]. destruct E2 as [E2 E3].
    destruct (shr_1_exact r Hr Hs Hm E1) as [Hr1 Hs1].
    assert (Hm1 : 0 <= shr_m (shr_1 r))
      by (rewrite shr_1_m by lia; apply Z.div_pos; lia).
    rewrite <- shr_1_m in E2, E3 by lia.
    destruct (IH (shr_1 r) Hr1 Hs1 Hm1 E2) as [Hr2 Hs2].
    pose proof (pow2_pos (Zpos p) ltac:(lia)).
    apply IH; try assumption.
    + rewrite iter_shr_1_m by lia. apply Z.div_pos; lia.
    + rewrite iter_shr_1_m by lia. exact E3.
  - change (Zpos p~0) with (2 * Zpos p) in He.
    replace (2 * Zpos p) with (Zpos p + Zpos p) in He by lia.
    apply mod_pow2_split in He; [|lia|lia]. destruct He as [E2 E3].
    destruct (IH r Hr Hs Hm E2) as [Hr2 Hs2].
    pose proof (pow2_pos (Zpos p) ltac:(lia)).
    apply IH; try assumption.
    + rewrite iter_shr_1_m by lia. apply Z.div_pos; lia.
    + rewrite iter_shr_1_m by lia. exact E3.
  - apply shr_1_exact; assumption.
Qed.

Lemma rne_bounds (m : Z) (l : location) :
  m <= round_nearest_even m l <= m + 1.
Proof. destruct l as [|[]]; cbn; try destruct (Z.even m); lia. Qed.

Lemma shr_record_of_loc_m (m : Z) (l : location) :
  shr_m (shr_record_of_loc m l) = m.
Proof. destruct l as [|[]]; reflexivity. Qed.

Lemma loc_exact (r : shr_record) :
  shr_r r = false -> shr_s r = false -> loc_of_shr_record r = loc_Exact.
Proof. destruct r as [m r s]. cbn. now intros -> ->. Qed.

(** [shr] drops [n] low bits when [n] is positive, and nothing otherwise;
    nothing is lost when the bits dropped are zeros. *)
Lemma shr_spec (m : Z) (l : location) (e n : Z) :
  0 <= m ->
  snd (shr (shr_record_of_loc m l) e n) = e + Z.max 0 n
  /\ shr_m (fst (shr (shr_record_of_loc m l) e n)) = m / 2 ^ Z.max 0 n
  /\ (l = loc_Exact -> m mod 2 ^ Z.max 0 n = 0 ->
      loc_of_shr_record (fst (shr (shr_record_of_loc m l) e n)) = loc_Exact).
Proof.
  intros Hm. destruct n as [|p|p]; cbn [shr fst snd].
  - change (Z.max 0 0) with 0. rewrite Z.add_0_r, shr_record_of_loc_m.
    change (2 ^ 0) with 1. rewrite Z.div_1_r.
    repeat split. now intros ->.
  - replace (Z.max 0 (Zpos p)) with (Zpos p) by lia.
    rewrite iter_shr_1_m by (rewrite shr_record_of_loc_m; lia).
    rewrite shr_record_of_loc_m.
    repeat split. intros -> He.
    apply loc_exact; apply iter_shr_1_exact; cbn; auto.
  - replace (Z.max 0 (Zneg p)) with 0 by lia.
    rewrite Z.add_0_r, shr_record_of_loc_m.
    change (2 ^ 0) with 1. rewrite Z.div_1_r.
    repeat split. now intros ->.
Qed.

Lemma fexp_eq (e : Z) : fexp prec emax e = Z.max (e - 53) (-1074).
Proof. reflexivity. Qed.

(** The second shift of [binary_round_aux], which renormalises after the
    rounding, and the packing of the result. *)
Definition pack (s : bool) (m1 e1 : Z) : float :=
  let k2 := Z.max 0 (fexp prec emax (Zdigits2 m1 + e1) - e1) in
  match m1 / 2 ^ k2 with
  | Z0 => S754_zero s
  | Zpos m =>
    if e1 + k2 <=? emax - prec then S754_finite s m (e1 + k2)
    else S754_infinity s
  | Zneg _ => S754_nan
  end.

(** [binary_round_aux] on a mantissa [mx >= 0]: [k] low bits are dropped,
    the rest is rounded to [m1], which is the quotient or one more, and the
    quotient itself when nothing was lost. *)
Lemma binary_round_aux_spec (s : bool) (mx ex : Z) (lx : location) :
  0 <= mx ->
  let k := Z.max 0 (fexp prec emax (Zdigits2 mx + ex) - ex) in
  exists m1,
    mx / 2 ^ k <= m1 <= mx / 2 ^ k + 1
    /\ (lx = loc_Exact -> mx mod 2 ^ k = 0 -> m1 = mx / 2 ^ k)
    /\ binary_round_aux prec emax s mx ex lx = pack s m1 (ex + k).
Proof.
  intros Hm k.
  unfold binary_round_aux, shr_fexp.
  pose proof (shr_spec mx lx ex (fexp prec emax (Zdigits2 mx + ex) - ex) Hm)
    as (E1 & M1 & X1).
  fold k in E1, M1, X1.
  destruct (shr (shr_record_of_loc mx lx) ex _) as [r1 e1].
  cbn [fst snd] in E1, M1, X1. subst e1.
  set (m1 := round_nearest_even (shr_m r1) (loc_of_shr_record r1)).
  assert (B1 : mx / 2 ^ k <= m1 <= mx / 2 ^ k + 1).
  { rewrite <- M1. apply rne_bounds. }
  assert (P1 : 0 <= m1).
  { assert (0 <= mx / 2 ^ k) by (apply Z.div_pos; [lia | apply pow2_pos; lia]).
    lia. }
  exists m1. split; [exact B1|]. split.
  - intros Hl He. unfold m1. rewrite (X1 Hl He). cbn. exact M1.
  - pose proof (shr_spec m1 loc_Exact (ex + k)
                         (fexp prec emax (Zdigits2 m1 + (ex + k)) - (ex + k)) P1)
      as (E2 & M2 & _).
    destruct (shr (shr_record_of_loc m1 loc_Exact) (ex + k) _) as [r2 e2].
    cbn [fst snd] in E2, M2. subst e2. rewrite M2. reflexivity.
Qed.

(** *** Magnitudes: no overflow on the way to [math.sin] *)

(** [x] is a zero or a number below [2^K] in magnitude. *)
Definition mag (x : float) (K : Z) : Prop :=
  match x with
  | S754_zero _ => True
  | S754_finite _ m e => Zpos (digits2_pos m) + e <= K
  | _ => False
  end.

Lemma mag_finite (x : float) (K : Z) : mag x K -> is_finite x = true.
Proof. destruct x; cbn; auto; contradiction. Qed.

Lemma mag_weaken (x : float) (K K' : Z) : mag x K -> K <= K' -> mag x K'.
Proof. destruct x; cbn; auto. lia. Qed.

Lemma pack_mag (s : bool) (m1 e1 K : Z) :
  0 <= m1 -> Zdigits2 m1 + e1 <= K -> e1 <= K -> -1073 <= K <= 971 ->
  mag (pack s m1 e1) K.
Proof.
  intros Hm Hd He HK. unfold pack. rewrite fexp_eq.
  set (k2 := Z.max 0 (Z.max (Zdigits2 m1 + e1 - 53) (-1074) - e1)).
  assert (Hk2 : 0 <= k2) by lia.
  pose proof (pow2_pos k2 Hk2).
  assert (Hq : 0 <= m1 / 2 ^ k2) by (apply Z.div_pos; lia).
  pose proof (Zdigits2_div m1 k2 Hm Hk2) as Dq.
  destruct (m1 / 2 ^ k2) as [|q|q] eqn:E; [exact I | | lia].
  change (emax - prec) with 971.
  destruct (Z.leb_spec (e1 + k2) 971) as [L | G]; [|lia].
  cbn [mag]. cbn [Zdigits2] in Dq. lia.
Qed.

Lemma binary_round_aux_mag (s : bool) (mx ex : Z) (lx : location) (K : Z) :
  0 <= mx -> Zdigits2 mx + ex <= K -> ex <= K -> -1074 <= K <= 970 ->
  mag (binary_round_aux prec emax s mx ex lx) (K + 1).
Proof.
  intros Hm Hd He HK.
  destruct (binary_round_aux_spec s mx ex lx Hm) as (m1 & B & _ & ->).
  rewrite fexp_eq in *.
  set (k := Z.max 0 (Z.max (Zdigits2 mx + ex - 53) (-1074) - ex)) in *.
  assert (Hk : 0 <= k) by lia.
  pose proof (pow2_pos k Hk).
  assert (Hq : 0 <= mx / 2 ^ k) by (apply Z.div_pos; lia).
  pose proof (Zdigits2_div mx k Hm Hk) as Dq.
  pose proof (Zdigits2_succ (mx / 2 ^ k) Hq) as Ds.
  pose proof (Zdigits2_mono m1 (mx / 2 ^ k + 1) ltac:(lia)) as Dm.
  apply pack_mag; lia.
Qed.

Lemma mul_mag (x y : float) (Kx Ky : Z) :
  mag x Kx -> mag y Ky -> -1074 <= Kx + Ky <= 970 ->
  mag (mul x y) (Kx + Ky + 1).
Proof.
  destruct x as [sx | sx | | sx mx ex], y as [sy | sy | | sy my ey];
    cbn [mag]; try contradiction; try (intros; exact I).
  intros Hx Hy HK. unfold mul. cbn [SFmul].
  apply binary_round_aux_mag; try lia.
  pose proof (Zdigits2_mul (Zpos mx) (Zpos my) ltac:(lia) ltac:(lia)) as D.
  cbn [Zdigits2 Z.mul] in D. cbn [Zdigits2]. lia.
Qed.

Lemma digits2_iter_xO (m d : positive) :
  Zpos (digits2_pos (Pos.iter xO m d)) = Zpos (digits2_pos m) + Zpos d.
Proof.
  induction d as [|d IH] using Pos.peano_ind.
  - cbn. lia.
  - rewrite Pos.iter_succ. cbn [digits2_pos]. lia.
Qed.

Lemma shl_align_spec (mx : positive) (ex ex' : Z) :
  Zpos (digits2_pos (fst (shl_align mx ex ex'))) + snd (shl_align mx ex ex')
  = Zpos (digits2_pos mx) + ex
  /\ snd (shl_align mx ex ex') <= ex.
Proof.
  unfold shl_align. destruct (ex' - ex) as [|d|d] eqn:E; cbn [fst snd]; try lia.
  rewrite digits2_iter_xO. lia.
Qed.

Lemma binary_round_mag (s : bool) (mx : positive) (ex K : Z) :
  Zpos (digits2_pos mx) + ex <= K -> -1074 <= K <= 970 ->
  mag (binary_round prec emax s mx ex) (K + 1).
Proof.
  intros Hd HK. unfold binary_round.
  pose proof (shl_align_spec mx ex (fexp prec emax (Zpos (digits2_pos mx) + ex)))
    as [E L].
  destruct (shl_align mx ex _) as [mz ez]. cbn [fst snd] in E, L.
  apply binary_round_aux_mag; cbn [Zdigits2]; lia.
Qed.

(** A day count or a period converts without overflow. *)
Lemma float_of_int_mag (n K : Z) :
  0 <= n < 2 ^ K -> 0 <= K <= 970 ->
  exists f, float_of_int n = Return f /\ mag f (K + 1).
Proof.
  intros Hn HK. unfold float_of_int, binary_normalize.
  destruct n as [|p|p]; [| |lia].
  - exists (S754_zero false). split; [reflexivity | exact I].
  - pose proof (Zdigits2_le (Zpos p) K ltac:(lia) ltac:(lia) ltac:(lia)) as D.
    cbn [Zdigits2] in D.
    pose proof (binary_round_mag false p 0 K ltac:(lia) ltac:(lia)) as M.
    exists (binary_round prec emax false p 0). split; [|exact M].
    destruct (binary_round prec emax false p 0); cbn in M |- *;
      try contradiction; reflexivity.
Qed.

Lemma div_core_spec (mx : positive) (ex : Z) (my : positive) (ey : Z) :
  let '(q, e', l) := SFdiv_core_binary prec emax (Zpos mx) ex (Zpos my) ey in
  0 <= q /\ e' <= ex - ey
  /\ Zdigits2 q + e'
     <= Z.max (ex - ey)
              (Zpos (digits2_pos mx) + ex - (Zpos (digits2_pos my) + ey) + 1).
Proof.
  unfold SFdiv_core_binary. cbn [Zdigits2].
  set (d1 := Zpos (digits2_pos mx)). set (d2 := Zpos (digits2_pos my)).
  set (e' := Z.min (fexp prec emax (d1 + ex - (d2 + ey))) (ex - ey)).
  set (s := ex - ey - e').
  assert (Hs : 0 <= s) by (unfold s, e'; lia).
  set (m' := match s with
             | 0 => Zpos mx
             | Zpos _ => Z.shiftl (Zpos mx) s
             | Zneg _ => 0
             end).
  assert (Em : m' = Zpos mx * 2 ^ s).
  { unfold m'. destruct s as [|p|p] eqn:Es; [cbn; lia | | lia].
    apply Z.shiftl_mul_pow2. lia. }
  destruct (Z.div_eucl m' (Zpos my)) as [q r] eqn:E.
  assert (Eq : q = m' / Zpos my) by (unfold Z.div; now rewrite E).
  pose proof (pow2_pos s Hs).
  assert (Hq : 0 <= q) by (subst q; apply Z.div_pos; nia).
  split; [exact Hq|]. split; [unfold e'; lia|].
  set (k := Z.max 0 (d1 + s - d2 + 1)).
  assert (Dq : Zdigits2 q <= k).
  { apply Zdigits2_le; [exact Hq | unfold k; lia |].
    subst q. apply Z.div_lt_upper_bound; [lia|].
    pose proof (digits2_bounds mx) as [_ U1]. fold d1 in U1.
    pose proof (digits2_bounds my) as [L2 _]. fold d2 in L2.
    assert (P : 2 ^ (d1 + s) <= 2 ^ (d2 - 1) * 2 ^ k).
    { rewrite <- Z.pow_add_r by (unfold d2, k; lia).
      apply Z.pow_le_mono_r; unfold k; lia. }
    pose proof (pow2_pos k ltac:(unfold k; lia)).
    rewrite Em. rewrite Z.pow_add_r in P by (unfold d1; lia).
    nia. }
  unfold k in Dq. unfold s in *. lia.
Qed.

Lemma div_mag (x : float) (sy : bool) (my : positive) (ey Kx : Z) :
  mag x Kx -> -1074 <= Kx - ey <= 970 ->
  mag (div x (S754_finite sy my ey)) (Kx - ey + 1).
Proof.
  destruct x as [sx | sx | | sx mx ex]; cbn [mag]; try contradiction.
  - intros _ _. exact I.
  - intros Hx HK. unfold div. cbn [SFdiv].
    pose proof (div_core_spec mx ex my ey) as S.
    destruct (SFdiv_core_binary prec emax (Zpos mx) ex (Zpos my) ey)
      as [[q e'] l].
    destruct S as (Hq & He & Hd).
    pose proof (Pos2Z.is_pos (digits2_pos mx)).
    pose proof (Pos2Z.is_pos (digits2_pos my)).
    apply binary_round_aux_mag; lia.
Qed.

(** *** Values: a product with [100.0] does not leave [[-100, 100]] *)

(** [|x| <= N], on the exact value of [x]. *)
Definition value_le (x : float) (N : Z) : Prop :=
  match x with
  | S754_zero _ => True
  | S754_finite _ m e => e <= 0 /\ Zpos m <= N * 2 ^ (- e)
  | _ => False
  end.

Lemma below_pow_digits (m N c j : Z) :
  0 <= m -> 0 <= j -> 0 <= c -> 0 < N < 2 ^ c -> m <= N * 2 ^ j ->
  Zdigits2 m <= c + j.
Proof.
  intros Hm Hj Hc HN H.
  apply Zdigits2_le; [lia | lia |].
  rewrite Z.pow_add_r by lia.
  pose proof (pow2_pos j Hj). nia.
Qed.

Lemma pack_le (s : bool) (m1 e1 N c : Z) :
  0 <= m1 -> e1 <= 0 -> m1 <= N * 2 ^ (- e1) ->
  0 < N < 2 ^ c -> 0 <= c <= 53 ->
  value_le (pack s m1 e1) N.
Proof.
  intros Hm He Hb HN Hc. unfold pack. rewrite fexp_eq.
  pose proof (below_pow_digits m1 N c (- e1) Hm ltac:(lia) ltac:(lia) HN Hb) as D.
  set (k2 := Z.max 0 (Z.max (Zdigits2 m1 + e1 - 53) (-1074) - e1)).
  assert (Hk2 : 0 <= k2 <= - e1) by lia.
  pose proof (pow2_pos k2 ltac:(lia)).
  assert (Hq : 0 <= m1 / 2 ^ k2) by (apply Z.div_pos; lia).
  assert (Uq : m1 / 2 ^ k2 <= N * 2 ^ (- (e1 + k2))).
  { apply Z.div_le_upper_bound; [lia|].
    replace (- e1) with (k2 + - (e1 + k2)) in Hb by lia.
    rewrite Z.pow_add_r in Hb by lia. lia. }
  destruct (m1 / 2 ^ k2) as [|q|q] eqn:E; [exact I | | lia].
  change (emax - prec) with 971.
  destruct (Z.leb_spec (e1 + k2) 971) as [L | G]; [|lia].
  cbn [value_le]. split; [lia | exact Uq].
Qed.

(** Rounding to nearest does not step over a bound that is itself
    representable. *)
Lemma binary_round_aux_le (s : bool) (mx ex N c : Z) :
  0 <= mx -> ex <= 0 -> mx <= N * 2 ^ (- ex) ->
  0 < N < 2 ^ c -> 0 <= c <= 53 ->
  value_le (binary_round_aux prec emax s mx ex loc_Exact) N.
Proof.
  intros Hm He Hb HN Hc.
  destruct (binary_round_aux_spec s mx ex loc_Exact Hm) as (m1 & B & X & ->).
  rewrite fexp_eq in *.
  pose proof (below_pow_digits mx N c (- ex) Hm ltac:(lia) ltac:(lia) HN Hb) as D.
  set (k := Z.max 0 (Z.max (Zdigits2 mx + ex - 53) (-1074) - ex)) in *.
  assert (Hk : 0 <= k <= - ex) by lia.
  pose proof (pow2_pos k ltac:(lia)).
  assert (Hq : 0 <= mx / 2 ^ k) by (apply Z.div_pos; lia).
  set (b := N * 2 ^ (- (ex + k))).
  assert (Eb : N * 2 ^ (- ex) = b * 2 ^ k).
  { unfold b. replace (- ex) with (- (ex + k) + k) by lia.
    rewrite Z.pow_add_r by lia. lia. }
  assert (Uq : mx / 2 ^ k <= b).
  { apply Z.div_le_upper_bound; lia. }
  assert (U1 : m1 <= b).
  { destruct (Z.eq_dec (mx / 2 ^ k) b) as [Eq | Ne]; [|lia].
    rewrite X; [lia | reflexivity |].
    assert (b * 2 ^ k <= mx).
    { rewrite <- Eq. rewrite Z.mul_comm. apply Z.mul_div_le. lia. }
    replace mx with (b * 2 ^ k) by lia. apply Z.mod_mul. lia. }
  apply (pack_le s m1 (ex + k) N c); try lia.
Qed.

Definition one : float := S754_finite false 4503599627370496 (-52).
Definition hundred : float := S754_finite false 7036874417766400 (-46).

Lemma valid_digits (s : bool) (m : positive) (e : Z) :
  valid_binary prec emax (S754_finite s m e) = true ->
  Zpos (digits2_pos m) <= 53.
Proof.
  cbn [valid_binary]. unfold bounded, canonical_mantissa.
  rewrite andb_true_iff, Z.eqb_eq, fexp_eq. lia.
Qed.

(** A valid float not above one in magnitude, as an inequality. *)
Lemma le_one_value (s : bool) (m : positive) (e : Z) :
  valid_binary prec emax (S754_finite s m e) = true ->
  leb (abs (S754_finite s m e)) one = true ->
  e <= -52 /\ Zpos m <= 2 ^ (- e).
Proof.
  intros V L. apply valid_digits in V.
  unfold leb, SFleb, abs, SFabs, one, SFcompare in L.
  destruct (Z.compare_spec e (-52)) as [E | E | E].
  - subst e. split; [apply Z.le_refl|].
    change (2 ^ (- -52)) with (Zpos 4503599627370496).
    rewrite Pos.compare_cont_spec in L.
    destruct (Pos.compare_spec m 4503599627370496) as [C | C | C];
      cbn [Pos.switch_Eq] in L.
    + rewrite C. apply Z.le_refl.
    + apply Z.lt_le_incl. exact C.
    + discriminate L.
  - split; [apply Z.lt_le_incl; exact E|].
    pose proof (digits2_bounds m) as [_ U].
    assert (P : 2 ^ Zpos (digits2_pos m) <= 2 ^ (- e)).
    { apply Z.pow_le_mono_r; [reflexivity|]. clear U L. lia. }
    apply Z.lt_le_incl. eapply Z.lt_le_trans; [exact U | exact P].
  - discriminate L.
Qed.

Lemma mul_hundred_le (x : float) :
  valid_binary prec emax x = true -> leb (abs x) one = true ->
  value_le (mul x hundred) 100.
Proof.
  destruct x as [s | s | | s m e]; try discriminate.
  - intros _ _. exact I.
  - intros V L. destruct (le_one_value s m e V L) as [He Hm].
    unfold mul, hundred. cbn [SFmul].
    apply (binary_round_aux_le _ _ _ 100 7); try lia.
    change (Zpos (m * 7036874417766400)) with (Zpos m * (100 * 2 ^ 46)).
    replace (- (e + -46)) with (- e + 46) by lia.
    rewrite Z.pow_add_r by lia. nia.
Qed.

Lemma round_half_even_le (a b N : Z) :
  0 <= a -> 0 < b -> a <= N * b -> 0 <= round_half_even a b <= N.
Proof.
  intros Ha Hb H. unfold round_half_even.
  assert (Hq : 0 <= a / b) by (apply Z.div_pos; lia).
  assert (Uq : a / b <= N) by (apply Z.div_le_upper_bound; lia).
  pose proof (Z.mod_pos_bound a b Hb) as R.
  pose proof (Z.div_mod a b ltac:(lia)) as E.
  destruct (Z.compare_spec (2 * (a mod b)) b) as [C | C | C].
  - destruct (Z.even (a / b)); [lia|]. nia.
  - lia.
  - nia.
Qed.

(** *** The hundredths: what [round(v, 2)] can answer for [|v| <= 100] *)

(** The binary64 nearest to [n / 100], signed. *)
Definition centi (s : bool) (n : Z) : float := strtod s n 100.

Definition minus_hundred : float := S754_finite true 7036874417766400 (-46).

(** [-100 <= r <= 100] *)
Definition in_range (r : float) : bool := leb minus_hundred r && leb r hundred.

(** [round(r, 2)] is [r] itself. *)
Definition rounded2 (r : float) : bool :=
  match round r 2 with
  | Return r' => same r' r
  | Raise _ => false
  end.

Definition centi_ok (n : Z) : bool :=
  forallb (fun s => let r := centi s n in
                    negb (is_infinity r) && in_range r && rounded2 r)
          [false; true].

(** Every hundredth from [-100.00] to [100.00] is finite, in range and its
    own rounding: checked one by one. *)
Lemma centi_table : forallb centi_ok (below 10001) = true.
Proof. vm_compute. reflexivity. Qed.

Lemma same_eq (x y : float) : same x y = true -> x = y.
Proof.
  destruct x as [s | s | | s m e], y as [t | t | | t n f]; cbn;
    try discriminate; try reflexivity.
  - intros H. apply Bool.eqb_prop in H. now subst.
  - intros H. apply Bool.eqb_prop in H. now subst.
  - rewrite !andb_true_iff, Pos.eqb_eq, Z.eqb_eq.
    intros [[H ->] ->]. apply Bool.eqb_prop in H. now subst.
Qed.

Lemma centi_facts (s : bool) (n : Z) :
  0 <= n <= 10000 ->
  is_infinity (centi s n) = false
  /\ in_range (centi s n) = true
  /\ round (centi s n) 2 = Return (centi s n).
Proof.
  intros Hn.
  pose proof (below_all _ _ centi_table n ltac:(lia)) as T.
  unfold centi_ok in T. cbn [forallb] in T.
  rewrite !andb_true_iff in T.
  assert (H : negb (is_infinity (centi s n)) = true
              /\ in_range (centi s n) = true /\ rounded2 (centi s n) = true).
  { destruct s; tauto. }
  destruct H as (I & R & D).
  split; [now apply negb_true_iff in I|]. split; [exact R|].
  unfold rounded2 in D.
  destruct (round (centi s n) 2) as [r' | e]; [|discriminate].
  apply same_eq in D. now subst.
Qed.

(** [round(v, 2)] of a number within [[-100, 100]] is a hundredth of the
    table, and it is an answer, not an exception. *)
Lemma round_value_le (v : float) :
  value_le v 100 ->
  exists s n, 0 <= n <= 10000 /\ round v 2 = Return (centi s n).
Proof.
  destruct v as [s | s | | s m e]; cbn [value_le]; try contradiction.
  - intros _. exists s, 0. split; [lia | reflexivity].
  - intros [He Hm].
    assert (F : exists a b, fraction m e = (a, b) /\ 0 <= a /\ 0 < b /\ a <= 100 * b).
    { unfold fraction. destruct e as [|p|p]; [| lia |].
      - exists (Zpos m * 2 ^ 0), 1. change (2 ^ (- 0)) with 1 in Hm.
        change (2 ^ 0) with 1. repeat split; lia.
      - exists (Zpos m), (2 ^ Zpos p). change (- Zneg p) with (Zpos p) in Hm.
        pose proof (pow2_pos (Zpos p) ltac:(lia)). repeat split; lia. }
    destruct F as (a & b & Ef & Ha & Hb & Hab).
    unfold round. rewrite Ef. change (10 ^ 2) with 100.
    pose proof (round_half_even_le (a * 100) b 10000 ltac:(lia) Hb ltac:(lia)) as Hn.
    set (n := round_half_even (a * 100) b) in *.
    exists s, n. split; [exact Hn|].
    destruct (centi_facts s n Hn) as (I & _ & _).
    fold (centi s n). now rewrite I.
Qed.

(** * [calc_biorhythm] *)

Lemma toordinal_bounds (x : date) :
  valid_date x -> 1 <= toordinal x <= 3652060.
Proof.
  intros V. apply valid_date_bounds in V. destruct V as (Hy & Hm & Hd).
  unfold toordinal, _ymd2ord.
  pose proof (day_of_year_bounds (year x) (month x) (day x) Hm Hd) as B.
  pose proof (days_before_year_mono 1 (year x) ltac:(lia)) as L.
  pose proof (days_before_year_mono (year x) 9999 ltac:(lia)) as U.
  change (_days_before_year 1) with 0 in L.
  change (_days_before_year 9999) with 3651694 in U.
  destruct (_is_leap (year x)); lia.
Qed.

Lemma sub_days_bounds (a b : date) :
  valid_date a -> valid_date b -> sub_days a b < 2 ^ 22.
Proof.
  intros Ha Hb. unfold sub_days.
  pose proof (toordinal_bounds a Ha). pose proof (toordinal_bounds b Hb).
  change (2 ^ 22) with 4194304. lia.
Qed.

(** The day count is negative exactly when the target is before the birth
    date. *)
Lemma sub_days_neg (target birth : date) :
  valid_date target -> valid_date birth ->
  (sub_days target birth <? 0) = date_ltb target birth.
Proof.
  intros Ht Hb. unfold sub_days.
  pose proof (toordinal_lt_iff target birth Ht Hb) as E.
  destruct (date_ltb target birth).
  - apply Z.ltb_lt. assert (toordinal target < toordinal birth) by now apply E.
    lia.
  - apply Z.ltb_ge.
    destruct (Z_lt_ge_dec (toordinal target) (toordinal birth)) as [L | G];
      [|lia].
    apply E in L. discriminate.
Qed.

Lemma dict_set_cycles (a b c : float) :
  dict_set (py "intellectual") c
           (dict_set (py "emotional") b (dict_set (py "physical") a []))
  = [(py "physical", a); (py "emotional", b); (py "intellectual", c)].
Proof. reflexivity. Qed.

Definition two_pi : float := S754_finite false 7074237752028440 (-50).

Lemma two_pi_eq : float_of_int 2 = Return (S754_finite false 4503599627370496 (-51))
                  /\ mul (S754_finite false 4503599627370496 (-51)) pi = two_pi.
Proof. split; vm_compute; reflexivity. Qed.

Lemma hundred_eq : float_of_int 100 = Return hundred.
Proof. vm_compute. reflexivity. Qed.

Section Calc.

Variable libm_sin : float -> float.

(** What is assumed of libm: [sin] answers a binary64, and for a finite
    argument a number between minus one and one. *)
Hypothesis sin_valid : forall x, valid_binary prec emax (libm_sin x) = true.
Hypothesis sin_range :
  forall x, is_finite x = true -> leb (abs (libm_sin x)) one = true.

Lemma math_sin_finite (x : float) :
  is_finite x = true -> math_sin libm_sin x = Return (libm_sin x).
Proof.
  intros F. unfold math_sin. pose proof (sin_range x F) as R.
  destruct (libm_sin x) as [s | s | | s m e]; try reflexivity;
    cbn in R; discriminate.
Qed.

(** One cycle: no step overflows, [math.sin] answers, and the product with
    [100] stays within [[-100, 100]]. *)
Lemma cycle_value_le (days period : Z) :
  0 <= days < 2 ^ 22 -> period = 23 \/ period = 28 \/ period = 33 ->
  exists v, cycle_value libm_sin days period = Return v /\ value_le v 100.
Proof.
  intros Hd Hp. unfold cycle_value.
  destruct two_pi_eq as [E2 Epi]. rewrite E2. cbn [bind]. rewrite Epi.
  destruct (float_of_int_mag days 22 Hd ltac:(lia)) as (d & Ed & Md).
  rewrite Ed. cbn [bind].
  assert (M2 : mag two_pi 3) by (cbn; lia).
  pose proof (mul_mag two_pi d 3 (22 + 1) M2 Md ltac:(lia)) as Mm.
  assert (P : exists sp mp ep, float_of_int period = Return (S754_finite sp mp ep)
                               /\ -100 <= ep <= 0).
  { destruct Hp as [-> | [-> | ->]]; vm_compute; do 3 eexists;
      (split; [reflexivity | split; discriminate]). }
  destruct P as (sp & mp & ep & Ep & Bp). rewrite Ep. cbn [bind].
  pose proof (div_mag _ sp mp ep _ Mm ltac:(lia)) as Mq.
  apply mag_finite in Mq.
  rewrite (math_sin_finite _ Mq). cbn [bind].
  rewrite hundred_eq. cbn [bind].
  eexists. split; [reflexivity|].
  apply mul_hundred_le; [apply sin_valid | apply sin_range; exact Mq].
Qed.

Lemma cycle_rounded (days period : Z) :
  0 <= days < 2 ^ 22 -> period = 23 \/ period = 28 \/ period = 33 ->
  exists v r, cycle_value libm_sin days period = Return v
              /\ round v 2 = Return r
              /\ in_range r = true /\ round r 2 = Return r.
Proof.
  intros Hd Hp.
  destruct (cycle_value_le days period Hd Hp) as (v & Ev & Hv).
  destruct (round_value_le v Hv) as (s & n & Hn & Er).
  destruct (centi_facts s n Hn) as (_ & R & D).
  exists v, (centi s n). auto.
Qed.

(** The reading for a day count that is not negative. *)
Lemma calc_loop_cycles (days : Z) :
  0 <= days < 2 ^ 22 ->
  exists p e i,
    calc_loop libm_sin days cycles []
    = Return [(py "physical", p); (py "emotional", e); (py "intellectual", i)]
    /\ Forall (fun r => in_range r = true /\ round r 2 = Return r) [p; e; i].
Proof.
  intros Hd.
  destruct (cycle_rounded days 23 Hd ltac:(auto)) as (v1 & r1 & A1 & B1 & C1).
  destruct (cycle_rounded days 28 Hd ltac:(auto)) as (v2 & r2 & A2 & B2 & C2).
  destruct (cycle_rounded days 33 Hd ltac:(auto)) as (v3 & r3 & A3 & B3 & C3).
  exists r1, r2, r3. split.
  - unfold cycles. cbn [calc_loop].
    rewrite A1. cbn [bind]. rewrite B1. cbn [bind].
    rewrite A2. cbn [bind]. rewrite B2. cbn [bind].
    rewrite A3. cbn [bind]. rewrite B3. cbn [bind].
    now rewrite dict_set_cycles.
  - repeat constructor; tauto.
Qed.

(** C1.  With valid dates, [calc_biorhythm] raises [ValueError] exactly when
    the day count [target - birth] is negative, which is exactly when the
    target date is before the birth date; it raises nothing else, and for a
    target on or after the birth date it returns a reading.  ([target] is
    today's date when none is given.) *)
Theorem calc_biorhythm_error (now birth : date) (target : option date) :
  valid_date now -> valid_date birth ->
  (forall t, target = Some t -> valid_date t) ->
  let t := match target with None => now | Some t => t end in
  (sub_days t birth < 0 <-> date_ltb t birth = true)
  /\ (calc_biorhythm libm_sin now birth target = Raise ValueError
      <-> sub_days t birth < 0)
  /\ (forall e, calc_biorhythm libm_sin now birth target = Raise e ->
                e = ValueError /\ sub_days t birth < 0)
  /\ (date_ltb t birth = false ->
      exists bio, calc_biorhythm libm_sin now birth target = Return bio).
Proof.
  intros Vn Vb Vt t.
  assert (V : valid_date t) by (unfold t; destruct target; auto).
  pose proof (sub_days_neg t birth V Vb) as N.
  pose proof (sub_days_bounds t birth V Vb) as B.
  assert (C : calc_biorhythm libm_sin now birth target
              = if sub_days t birth <? 0 then Raise ValueError
                else calc_loop libm_sin (sub_days t birth) cycles [])
    by reflexivity.
  rewrite C. clear C.
  destruct (Z.ltb_spec (sub_days t birth) 0) as [L | G].
  - repeat split; auto; congruence.
  - destruct (calc_loop_cycles (sub_days t birth) ltac:(lia))
      as (p & e & i & E & _).
    rewrite E. repeat split; try congruence; try lia; eauto.
Qed.

(** C2.  With valid dates and a target on or after the birth date,
    [calc_biorhythm] returns the three values physical, emotional and
    intellectual, each between -100 and 100 and each equal to itself
    rounded to two decimals. *)
Theorem calc_biorhythm_reading (now birth : date) (target : option date) :
  valid_date now -> valid_date birth ->
  (forall t, target = Some t -> valid_date t) ->
  date_ltb (match target with None => now | Some t => t end) birth = false ->
  exists p e i,
    calc_biorhythm libm_sin now birth target
    = Return [(py "physical", p); (py "emotional", e); (py "intellectual", i)]
    /\ Forall (fun r => in_range r = true /\ round r 2 = Return r) [p; e; i].
Proof.
  intros Vn Vb Vt. set (t := match target with None => now | Some t => t end).
  intros G.
  assert (V : valid_date t) by (unfold t; destruct target; auto).
  pose proof (sub_days_neg t birth V Vb) as N. rewrite G in N.
  pose proof (sub_days_bounds t birth V Vb) as B.
  apply Z.ltb_ge in N.
  destruct (calc_loop_cycles (sub_days t birth) ltac:(lia))
    as (p & e & i & E & F).
  exists p, e, i. split; [|exact F].
  assert (C : calc_biorhythm libm_sin now birth target
              = if sub_days t birth <? 0 then Raise ValueError
                else calc_loop libm_sin (sub_days t birth) cycles [])
    by reflexivity.
  rewrite C. destruct (Z.ltb_spec (sub_days t birth) 0); [lia | exact E].
Qed.

End Calc.

Section Birthday.

Variable libm_sin : float -> float.

(** [sin(+0.0)] is [+0.0], as the C standard has it. *)
Hypothesis sin_zero : libm_sin zero = zero.

Lemma cycle_value_zero (period : Z) :
  period = 23 \/ period = 28 \/ period = 33 ->
  cycle_value libm_sin 0 period = Return zero.
Proof.
  intros Hp. unfold cycle_value.
  assert (P : exists fp, float_of_int period = Return fp
                         /\ div (mul (mul (S754_finite false 4503599627370496 (-51)) pi)
                                      zero) fp = zero).
  { destruct Hp as [-> | [-> | ->]]; eexists; split;
      vm_compute; reflexivity. }
  destruct P as (fp & Ep & Ez).
  rewrite (proj1 two_pi_eq). cbn [bind].
  change (float_of_int 0) with (Return zero). cbn [bind].
  rewrite Ep. cbn [bind]. rewrite Ez.
  unfold math_sin. rewrite sin_zero. cbn [is_nan is_infinity andb zero bind].
  rewrite hundred_eq. reflexivity.
Qed.

(** C5.  On the birth date itself the day count is zero and, [sin(0)]
    being [0], the reading is [0.0] for each of the three cycles. *)
Theorem calc_biorhythm_birthday (now birth : date) :
  calc_biorhythm libm_sin now birth (Some birth)
  = Return [(py "physical", zero); (py "emotional", zero);
            (py "intellectual", zero)].
Proof.
  unfold calc_biorhythm, sub_days. rewrite Z.sub_diag.
  change (0 <? 0) with false. cbv iota.
  unfold cycles. cbn [calc_loop].
  rewrite !cycle_value_zero by auto. cbn [bind].
  change (round zero 2) with (Return zero). cbn [bind].
  apply f_equal, dict_set_cycles.
Qed.

End Birthday.

(** A function that meets what is assumed of [sin]: the identity on
    [[-1, 1]], zero elsewhere. *)
Definition unit_clip (x : float) : float :=
  if valid_binary prec emax x && leb (abs x) one then x else zero.

Lemma unit_clip_valid (x : float) : valid_binary prec emax (unit_clip x) = true.
Proof.
  unfold unit_clip.
  destruct (valid_binary prec emax x) eqn:V; [|reflexivity].
  destruct (leb (abs x) one); [exact V | reflexivity].
Qed.

Lemma unit_clip_range (x : float) :
  is_finite x = true -> leb (abs (unit_clip x)) one = true.
Proof.
  intros _. unfold unit_clip.
  destruct (valid_binary prec emax x); [|reflexivity].
  destruct (leb (abs x) one) eqn:L; [exact L | reflexivity].
Qed.

Lemma unit_clip_zero : unit_clip zero = zero.
Proof. reflexivity. Qed.

Lemma calc_biorhythm_error_witness :
  calc_biorhythm unit_clip (mkdate 2025 12 31) (mkdate 1990 3 5)
                 (Some (mkdate 1980 1 1)) = Raise ValueError
  <-> sub_days (mkdate 1980 1 1) (mkdate 1990 3 5) < 0.
Proof.
  apply (calc_biorhythm_error unit_clip unit_clip_valid unit_clip_range
           (mkdate 2025 12 31) (mkdate 1990 3 5) (Some (mkdate 1980 1 1)));
    try reflexivity.
  intros t [= <-]. reflexivity.
Defined.

Lemma calc_biorhythm_reading_witness :
  exists p e i,
    calc_biorhythm unit_clip (mkdate 2025 12 31) (mkdate 1990 3 5) None
    = Return [(py "physical", p); (py "emotional", e); (py "intellectual", i)]
    /\ Forall (fun r => in_range r = true /\ round r 2 = Return r) [p; e; i].
Proof.
  apply (calc_biorhythm_reading unit_clip unit_clip_valid unit_clip_range
           (mkdate 2025 12 31) (mkdate 1990 3 5) None);
    try reflexivity.
  intros t H. discriminate H.
Defined.

Lemma calc_biorhythm_birthday_witness :
  calc_biorhythm unit_clip (mkdate 2025 12 31) (mkdate 1990 3 5)
                 (Some (mkdate 1990 3 5))
  = Return [(py "physical", zero); (py "emotional", zero);
            (py "intellectual", zero)].
Proof.
  apply (calc_biorhythm_birthday unit_clip unit_clip_zero).
Defined.

(** * [format_bio_text] *)

Lemma dec_digits_head (fuel : nat) (n : Z) (acc : str) :
  exists c t, dec_digits (S fuel) n acc = c :: t /\ 48 <= c <= 57.
Proof.
  revert n acc. induction fuel as [|f IH]; intros n acc.
  - cbn [dec_digits]. exists (48 + n mod 10), acc.
    pose proof (Z.mod_pos_bound n 10 ltac:(lia)).
    destruct (n <? 10); split; try reflexivity; lia.
  - remember (S f) as g. cbn [dec_digits].
    destruct (n <? 10).
    + exists (48 + n mod 10), acc.
      pose proof (Z.mod_pos_bound n 10 ltac:(lia)). split; [reflexivity | lia].
    + subst g. apply IH.
Qed.

Lemma str_of_nat_head (n : Z) :
  exists c t, str_of_nat n = c :: t /\ 48 <= c <= 57.
Proof. apply dec_digits_head. Qed.

(** The digits laid out start with a digit. *)
Lemma format_float_short_head (c : Z) (t : str) (decpt : Z) :
  48 <= c <= 57 ->
  exists c' t', format_float_short (c :: t) decpt = c' :: t' /\ 48 <= c' <= 57.
Proof.
  intros Hc. unfold format_float_short.
  destruct ((decpt <=? -4) || (16 <? decpt)).
  - cbn [firstn app]. eauto.
  - destruct (Z.leb_spec decpt 0).
    + cbn [app]. exists 48. eexists. split; [reflexivity | lia].
    + destruct (Z.of_nat (List.length (c :: t)) <=? decpt).
      * cbn [app]. eauto.
      * destruct (Z.to_nat decpt) as [|k] eqn:E; [lia|].
        cbn [firstn app]. eauto.
Qed.

(** [repr] of a float: a minus sign when the sign bit is set, then [nan],
    [inf] or text that starts with a digit. *)
Lemma repr_shape (x : float) :
  exists c t,
    repr x = (if match x with
                 | S754_zero s | S754_infinity s | S754_finite s _ _ => s
                 | S754_nan => false
                 end then [45] else []) ++ c :: t
    /\ (48 <= c <= 57 \/ c = 105 \/ c = 110).
Proof.
  destruct x as [s | s | | s m e]; unfold repr.
  - exists 48. eexists. split; [reflexivity | lia].
  - exists 105. eexists. split; [reflexivity | lia].
  - exists 110. eexists. split; [reflexivity | lia].
  - destruct (shortest s m e) as [c t].
    destruct (strip_zeros 400 c t) as [c' t'].
    destruct (str_of_nat_head c') as (d & ds & -> & Hd).
    destruct (format_float_short_head d ds
                (Z.of_nat (List.length (d :: ds)) - t') Hd) as (d' & r & -> & Hd').
    exists d', r. split; [reflexivity | lia].
Qed.

(** [repr] never writes a plus sign in front. *)
Lemma repr_no_plus (x : float) (r : str) : repr x <> 43 :: r.
Proof.
  destruct (repr_shape x) as (c & t & E & Hc). rewrite E.
  destruct (match x with
            | S754_zero s | S754_infinity s | S754_finite s _ _ => s
            | S754_nan => false
            end); cbn [app]; intros [= H]; lia.
Qed.

(** A number below zero is written with a minus sign in front. *)
Lemma repr_negative (x : float) :
  ltb x zero = true -> exists r, repr x = 45 :: r.
Proof.
  intros L. destruct (repr_shape x) as (c & t & E & _). rewrite E.
  destruct x as [s | [] | | [] m e]; cbn in L; try discriminate;
    cbn [app]; eauto.
Qed.

(** [sign]: a plus sign exactly in front of a number above zero, and the
    number as [repr] writes it otherwise. *)
Lemma sign_spec (v : float) :
  (ltb zero v = true -> sign v = 43 :: repr v)
  /\ (ltb zero v = false -> sign v = repr v)
  /\ ((exists r, sign v = 43 :: r) <-> ltb zero v = true)
  /\ (ltb v zero = true -> exists r, sign v = 45 :: r).
Proof.
  unfold sign. change (py "+") with [43].
  destruct (ltb zero v) eqn:P; cbn [app].
  - repeat split; eauto; try discriminate.
    intros N. exfalso.
    destruct v as [s | [] | | [] m e]; cbn in P, N; discriminate.
  - repeat split; try discriminate.
    + intros [r H]. exfalso. exact (repr_no_plus v r H).
    + apply repr_negative.
Qed.

Lemma strftime_dmY_parts (year_filled : bool) (x : date) :
  strftime year_filled x fmt_dmY
  = zfill 2 (day x) ++ [46] ++ zfill 2 (month x) ++ [46]
    ++ (if year_filled then zfill 4 (year x) else str_of_nat (year x)).
Proof.
  unfold strftime, fmt_dmY. cbn [map List.concat strftime_item].
  rewrite app_nil_r. reflexivity.
Qed.

Lemma format_bio_text_Return (year_filled : bool) (target_date : date)
      (bio : dict float) (p e i : float) :
  dict_get (py "physical") bio = Some p ->
  dict_get (py "emotional") bio = Some e ->
  dict_get (py "intellectual") bio = Some i ->
  format_bio_text year_filled target_date bio
  = Return (py "Биоритмы на " ++ strftime year_filled target_date fmt_dmY ++ nl
            ++ py "Физический: " ++ sign p ++ py "%" ++ nl
            ++ py "Эмоциональный: " ++ sign e ++ py "%" ++ nl
            ++ py "Интеллектуальный: " ++ sign i ++ py "%").
Proof.
  intros Hp He Hi. unfold format_bio_text, dict_item.
  rewrite Hp, He, Hi. reflexivity.
Qed.

(** C7.  For a reading with the three values, [format_bio_text] returns
    the header with the target date as day.month.year, then one line per
    cycle; each value has a plus sign in front exactly when it is above
    zero, and is otherwise written as it is, with its minus sign when it is
    below zero.  The text depends on the date and the reading alone. *)
Theorem format_bio_text_layout (year_filled : bool) (target_date : date)
        (bio : dict float) (p e i : float) :
  dict_get (py "physical") bio = Some p ->
  dict_get (py "emotional") bio = Some e ->
  dict_get (py "intellectual") bio = Some i ->
  format_bio_text year_filled target_date bio
  = Return (py "Биоритмы на "
            ++ (zfill 2 (day target_date) ++ [46]
                ++ zfill 2 (month target_date) ++ [46]
                ++ (if year_filled then zfill 4 (year target_date)
                    else str_of_nat (year target_date))) ++ nl
            ++ py "Физический: " ++ sign p ++ py "%" ++ nl
            ++ py "Эмоциональный: " ++ sign e ++ py "%" ++ nl
            ++ py "Интеллектуальный: " ++ sign i ++ py "%")
  /\ Forall (fun v =>
               (ltb zero v = true -> sign v = 43 :: repr v)
               /\ (ltb zero v = false -> sign v = repr v)
               /\ ((exists r, sign v = 43 :: r) <-> ltb zero v = true)
               /\ (ltb v zero = true -> exists r, sign v = 45 :: r))
            [p; e; i].
Proof.
  intros Hp He Hi. split.
  - rewrite (format_bio_text_Return _ _ _ _ _ _ Hp He Hi).
    now rewrite strftime_dmY_parts.
  - repeat constructor; apply sign_spec.
Qed.

Definition f25_5 : float := S754_finite false 7177611906121728 (-48).

Lemma format_bio_text_layout_witness :
  exists text,
    format_bio_text false (mkdate 2025 12 31)
                    [(py "physical", zero); (py "emotional", f25_5);
                     (py "intellectual", minus_hundred)]
    = Return text.
Proof.
  eexists.
  apply (format_bio_text_layout false (mkdate 2025 12 31)
           [(py "physical", zero); (py "emotional", f25_5);
            (py "intellectual", minus_hundred)] zero f25_5 minus_hundred);
    reflexivity.
Defined.

(** C10.  The values are written as [repr] writes a float, the shortest
    digits that read back, not with two decimals: the reading 0.0, 25.5,
    -100.0, each of which is its own rounding to two decimals, is shown as
    [0.0%], [+25.5%] and [-100.0%]. *)
Theorem format_bio_text_shortest (year_filled : bool) :
  Forall (fun v => round v 2 = Return v) [zero; f25_5; minus_hundred]
  /\ format_bio_text year_filled (mkdate 2025 12 31)
                     [(py "physical", zero); (py "emotional", f25_5);
                      (py "intellectual", minus_hundred)]
     = Return (py "Биоритмы на 31.12.2025" ++ nl
               ++ py "Физический: 0.0%" ++ nl
               ++ py "Эмоциональный: +25.5%" ++ nl
               ++ py "Интеллектуальный: -100.0%").
Proof.
  split.
  - repeat constructor; vm_compute; reflexivity.
  - destruct year_filled; vm_compute; reflexivity.
Qed.

(** * The handlers *)

Lemma date_new_valid (y m d : Z) (x : date) :
  date_new y m d = Return x -> valid_date x.
Proof. intros H. now apply date_new_Return in H. Qed.

Lemma strptime_valid (s : str) (fmt : list fmt_item) (x : date) :
  strptime s fmt = Return x -> valid_date x.
Proof.
  unfold strptime.
  destruct (re_match fmt s) as [[found [|? ?]]|]; try discriminate.
  destruct (field DY 1900 found), (field Dm 1 found), (field Dd 1 found);
    try discriminate.
  apply date_new_valid.
Qed.

Lemma fromisoformat_valid (s : str) (x : date) :
  fromisoformat s = Return x -> valid_date x.
Proof.
  unfold fromisoformat.
  destruct s as [|y1 [|y2 [|y3 [|y4 [|s1 [|m1 [|m2 [|s2 [|d1 [|d2 [|? ?]]]]]]]]]]];
    try discriminate.
  destruct ((s1 =? 45) && (s2 =? 45)); [|discriminate].
  destruct (ascii_number [y1; y2; y3; y4]), (ascii_number [m1; m2]),
    (ascii_number [d1; d2]); try discriminate.
  apply date_new_valid.
Qed.

Lemma distinct_replies :
  NoDup [msg_no_dob; msg_usage; msg_bad_date; msg_before_birth].
Proof.
  repeat constructor; cbn [In]; intros H;
    repeat (destruct H as [H | H]; [vm_compute in H; discriminate|]);
    exact H.
Qed.

Section Handlers.

Variable libm_sin : float -> float.
Variable year_filled : bool.

Hypothesis sin_valid : forall x, valid_binary prec emax (libm_sin x) = true.
Hypothesis sin_range :
  forall x, is_finite x = true -> leb (abs (libm_sin x)) one = true.

(** [calc_biorhythm] with a target date, by the order of the two dates. *)
Lemma calc_biorhythm_Some (now birth target : date) :
  valid_date birth -> valid_date target ->
  (date_ltb target birth = true ->
   calc_biorhythm libm_sin now birth (Some target) = Raise ValueError)
  /\ (date_ltb target birth = false ->
      exists p e i,
        calc_biorhythm libm_sin now birth (Some target)
        = Return [(py "physical", p); (py "emotional", e);
                  (py "intellectual", i)]).
Proof.
  intros Vb Vt.
  pose proof (sub_days_neg target birth Vt Vb) as N.
  pose proof (sub_days_bounds target birth Vt Vb) as B.
  unfold calc_biorhythm. split; intros G; rewrite G in N; rewrite N.
  - reflexivity.
  - apply Z.ltb_ge in N.
    destruct (calc_loop_cycles libm_sin sin_valid sin_range
                               (sub_days target birth) ltac:(lia))
      as (p & e & i & E & _).
    eauto.
Qed.

Lemma reply_text_frame {M : Type} (message : option M) (text : res str)
      (w : world) :
  user_data (snd (reply_text message text w)) = user_data w.
Proof. unfold reply_text. destruct message, text; reflexivity. Qed.

Lemma on_date_frame (now : date) (message : option unit) (args : list str)
      (w : world) :
  user_data (snd (on_date libm_sin year_filled now message args w))
  = user_data w.
Proof.
  unfold on_date, bindB, user_data_get, lift.
  destruct (dict_get key_dob (user_data w)) as [[|c iso]|];
    try apply reply_text_frame.
  destruct args as [|arg rest]; [apply reply_text_frame|].
  destruct (strptime arg fmt_Ymd) as [target | []];
    try reflexivity; try apply reply_text_frame.
  destruct (fromisoformat (c :: iso)) as [birth | e]; [|reflexivity].
  destruct (calc_biorhythm libm_sin now birth (Some target)) as [bio | []];
    try reflexivity; apply reply_text_frame.
Qed.

(** C8, as the code has it, for an update that brings a new message.
    [on_date] never changes the stored data, and
    it answers by the first of these that applies: no birth date stored,
    the prompt to run /start (whatever the arguments); no argument, the
    usage hint; a first argument that [strptime] does not read as
    ["%Y-%m-%d"], the hint on the date format; a date before the birth
    date, the explanation; otherwise the rendered reading for that date.
    The four fixed replies differ from each other and from a rendered
    reading. *)
Theorem on_date_outcomes (now : date) (args : list str) (w : world) :
  let out := on_date libm_sin year_filled now (Some tt) args w in
  let said text := (Return tt, mkworld (user_data w) (sent w ++ [text])) in
  user_data (snd out) = user_data w
  /\ (dict_get key_dob (user_data w) = None
      \/ dict_get key_dob (user_data w) = Some [] -> out = said msg_no_dob)
  /\ (forall c iso,
         dict_get key_dob (user_data w) = Some (c :: iso) ->
         (args = [] -> out = said msg_usage)
         /\ (forall arg rest,
                args = arg :: rest ->
                (strptime arg fmt_Ymd = Raise ValueError ->
                 out = said msg_bad_date)
                /\ (forall target birth,
                       strptime arg fmt_Ymd = Return target ->
                       fromisoformat (c :: iso) = Return birth ->
                       (date_ltb target birth = true ->
                        out = said msg_before_birth)
                       /\ (date_ltb target birth = false ->
                           exists bio rest',
                             calc_biorhythm libm_sin now birth (Some target)
                             = Return bio
                             /\ format_bio_text year_filled target bio
                                = Return (py "Биоритмы на " ++ rest')
                             /\ out = said (py "Биоритмы на " ++ rest')))))
  /\ NoDup [msg_no_dob; msg_usage; msg_bad_date; msg_before_birth]
  /\ (forall rest', ~ In (py "Биоритмы на " ++ rest')
                         [msg_no_dob; msg_usage; msg_bad_date; msg_before_birth]).
Proof.
  intros out said. split; [apply on_date_frame|].
  split; [|split; [|split; [exact distinct_replies|]]].
  - unfold out, said, on_date, bindB, user_data_get, reply_text.
    intros [-> | ->]; reflexivity.
  - intros c iso Hd.
    unfold out, said, on_date, bindB, user_data_get, reply_text, lift.
    rewrite Hd. split; [intros ->; reflexivity|].
    intros arg rest ->. split; [intros ->; reflexivity|].
    intros target birth Ht Hb.
    pose proof (strptime_valid _ _ _ Ht) as Vt.
    pose proof (fromisoformat_valid _ _ Hb) as Vb.
    rewrite Ht, Hb.
    destruct (calc_biorhythm_Some now birth target Vb Vt) as [Lt Ge].
    split; intros G.
    + rewrite (Lt G). reflexivity.
    + destruct (Ge G) as (p & e & i & E). rewrite E.
      rewrite (format_bio_text_Return year_filled target _ p e i)
        by reflexivity.
      eexists. eexists. split; [reflexivity|]. split; reflexivity.
  - intros rest' H. cbn [In] in H.
    repeat (destruct H as [H | H]; [vm_compute in H; discriminate|]).
    exact H.
Qed.

End Handlers.

Lemma on_date_outcomes_witness :
  user_data (snd (on_date unit_clip false (mkdate 2025 12 31) (Some tt)
                          [py "2025-12-31"]
                          (mkworld [(key_dob, py "1990-03-05")] [])))
  = [(key_dob, py "1990-03-05")].
Proof.
  exact (proj1 (on_date_outcomes unit_clip false unit_clip_valid unit_clip_range
                  (mkdate 2025 12 31) [py "2025-12-31"]
                  (mkworld [(key_dob, py "1990-03-05")] []))).
Defined.

(** C8 as stated fails: with no birth date stored and no argument the
    reply is the prompt to run /start, not the usage hint. *)
Lemma on_date_checks_birth_date_first :
  on_date unit_clip false (mkdate 2025 12 31) (Some tt) [] (mkworld [] [])
  = (Return tt, mkworld [] [msg_no_dob])
  /\ str_eqb msg_no_dob msg_usage = false.
Proof. split; vm_compute; reflexivity. Qed.

Lemma str_eqb_refl (a : str) : str_eqb a a = true.
Proof.
  induction a as [|x a IH]; [reflexivity|].
  cbn [str_eqb]. now rewrite Z.eqb_refl, IH.
Qed.

(** What a command with no mention is taken for does not depend on the
    bot's username. *)
Lemma is_cmd_plain (username name : str) (c : string) :
  split 64 name = [name] ->
  is_cmd username name c = str_eqb (lower name) (lower (py c)).
Proof.
  intros H. unfold is_cmd, command_parts. rewrite H.
  now rewrite str_eqb_refl, andb_true_r.
Qed.

(** C9.  [cancel] sends its confirmation, ends the conversation and leaves
    the stored data as it was.  Since /start does not touch the stored data
    either, a birth date stored by an earlier conversation is still there
    after /start and /cancel, and the session is out of the conversation
    again. *)
Theorem cancel_keeps_birth_date (libm_sin : float -> float) (year_filled : bool)
        (username : str) (now later : date) (data : dict str) (said : list str)
        (args : list str) (first_name : option str) :
  cancel (Some tt) (mkworld data said)
  = (Return END, mkworld data (said ++ [msg_cancel]))
  /\ dispatch libm_sin year_filled username now later
              (mksession (Some ASK_DOB) data)
              (Command (py "cancel") args first_name)
     = mkoutcome (mksession None data) [msg_cancel] None
  /\ dispatch libm_sin year_filled username now later (mksession None data)
              (Command (py "start") args first_name)
     = mkoutcome (mksession (Some ASK_DOB) data)
                 [msg_start (str_or first_name (py "друг"))] None
  /\ run libm_sin year_filled username (mksession None data)
         [(now, later, Command (py "start") args first_name);
          (now, later, Command (py "cancel") args first_name)]
     = (mksession None data,
        [msg_start (str_or first_name (py "друг")); msg_cancel]).
Proof.
  assert (C : is_cmd username (py "cancel") "cancel" = true)
    by (rewrite is_cmd_plain; vm_compute; reflexivity).
  assert (S : is_cmd username (py "start") "start" = true)
    by (rewrite is_cmd_plain; vm_compute; reflexivity).
  split; [reflexivity|].
  assert (D1 : dispatch libm_sin year_filled username now later
                        (mksession (Some ASK_DOB) data)
                        (Command (py "cancel") args first_name)
               = mkoutcome (mksession None data) [msg_cancel] None).
  { unfold dispatch, on_command. cbn [conv_state]. rewrite C. reflexivity. }
  assert (D2 : dispatch libm_sin year_filled username now later
                        (mksession None data)
                        (Command (py "start") args first_name)
               = mkoutcome (mksession (Some ASK_DOB) data)
                           [msg_start (str_or first_name (py "друг"))] None).
  { unfold dispatch, on_command. cbn [conv_state]. rewrite S. reflexivity. }
  split; [exact D1|]. split; [exact D2|].
  cbn [run]. rewrite D2. cbn [after replies]. rewrite D1. reflexivity.
Qed.

(** * Further properties of the handlers and of [parse_date] *)

(** ** White space around a date *)

Lemma lstrip_blank (pre s : str) : blank pre -> lstrip (pre ++ s) = lstrip s.
Proof.
  induction 1 as [|c pre Hc _ IH]; [reflexivity|].
  cbn [app lstrip]. now rewrite Hc.
Qed.

Lemma rstrip_blank (s post : str) : blank post -> rstrip (s ++ post) = rstrip s.
Proof.
  intros H. unfold rstrip. rewrite rev_app_distr.
  rewrite lstrip_blank; [reflexivity|].
  apply Forall_rev. exact H.
Qed.

Lemma strip_blank (pre s post : str) :
  blank pre -> blank post -> strip (pre ++ s ++ post) = strip s.
Proof.
  intros Hpre Hpost. unfold strip. rewrite lstrip_blank by exact Hpre.
  induction s as [|c t IH].
  - cbn [app]. rewrite <- (app_nil_r post) at 1.
    rewrite lstrip_blank by exact Hpost. reflexivity.
  - cbn [app lstrip]. destruct (isspace c); [exact IH|].
    apply (rstrip_blank (c :: t) post Hpost).
Qed.

(** White space before and after the text does not change what
    [parse_date] answers. *)
Theorem parse_date_trims (pre s post : str) :
  blank pre -> blank post -> parse_date (pre ++ s ++ post) = parse_date s.
Proof.
  intros Hpre Hpost. unfold parse_date.
  now rewrite strip_blank.
Qed.

Lemma parse_date_trims_witness :
  parse_date (py "  " ++ py "05.03.1990" ++ nl) = parse_date (py "05.03.1990").
Proof.
  apply parse_date_trims; repeat constructor.
Defined.

(** ** What [isoformat] writes, [fromisoformat] reads *)

Lemma four_digits (y : Z) :
  0 <= y <= 9999 ->
  exists a b c d,
    y = 1000 * a + 100 * b + 10 * c + d
    /\ 0 <= a <= 9 /\ 0 <= b <= 9 /\ 0 <= c <= 9 /\ 0 <= d <= 9.
Proof.
  intros Hy.
  pose proof (Z.div_mod y 10 ltac:(lia)) as E1.
  pose proof (Z.mod_pos_bound y 10 ltac:(lia)) as B1.
  pose proof (Z.div_mod (y / 10) 10 ltac:(lia)) as E2.
  pose proof (Z.mod_pos_bound (y / 10) 10 ltac:(lia)) as B2.
  pose proof (Z.div_mod (y / 10 / 10) 10 ltac:(lia)) as E3.
  pose proof (Z.mod_pos_bound (y / 10 / 10) 10 ltac:(lia)) as B3.
  exists (y / 10 / 10 / 10), ((y / 10 / 10) mod 10), ((y / 10) mod 10), (y mod 10).
  set (q1 := y / 10) in *. set (q2 := q1 / 10) in *. set (q3 := q2 / 10) in *.
  set (r1 := y mod 10) in *. set (r2 := q1 mod 10) in *. set (r3 := q2 mod 10) in *.
  clearbody q1 q2 q3 r1 r2 r3. lia.
Qed.

Lemma two_digits (m : Z) :
  0 <= m <= 99 ->
  exists a b, m = 10 * a + b /\ 0 <= a <= 9 /\ 0 <= b <= 9.
Proof.
  intros Hm.
  pose proof (Z.div_mod m 10 ltac:(lia)) as E1.
  pose proof (Z.mod_pos_bound m 10 ltac:(lia)) as B1.
  exists (m / 10), (m mod 10).
  set (q := m / 10) in *. set (r := m mod 10) in *. clearbody q r. lia.
Qed.

Lemma ascii_digit_shift (a : Z) : 0 <= a <= 9 -> ascii_digit (48 + a) = true.
Proof. intros H. unfold ascii_digit. apply andb_true_iff. lia. Qed.

Lemma decimal_shift (a : Z) : 0 <= a <= 9 -> decimal (48 + a) = Some a.
Proof.
  intros H. rewrite decimal_ascii by lia. f_equal. lia.
Qed.

Lemma ascii_number_4 (a b c d : Z) :
  0 <= a <= 9 -> 0 <= b <= 9 -> 0 <= c <= 9 -> 0 <= d <= 9 ->
  ascii_number [48 + a; 48 + b; 48 + c; 48 + d]
  = Some (1000 * a + 100 * b + 10 * c + d).
Proof.
  intros Ha Hb Hc Hd. unfold ascii_number. cbn [forallb].
  rewrite !ascii_digit_shift by assumption. cbn [andb digits_value].
  rewrite !decimal_shift by assumption. f_equal; lia.
Qed.

Lemma ascii_number_2 (a b : Z) :
  0 <= a <= 9 -> 0 <= b <= 9 ->
  ascii_number [48 + a; 48 + b] = Some (10 * a + b).
Proof.
  intros Ha Hb. unfold ascii_number. cbn [forallb].
  rewrite !ascii_digit_shift by assumption. cbn [andb digits_value].
  rewrite !decimal_shift by assumption. f_equal; lia.
Qed.

Lemma isoformat_shape (x : date) :
  valid_date x ->
  exists y1 y2 y3 y4 m1 m2 d1 d2,
    isoformat x = [48 + y1; 48 + y2; 48 + y3; 48 + y4; 45;
                   48 + m1; 48 + m2; 45; 48 + d1; 48 + d2]
    /\ year x = 1000 * y1 + 100 * y2 + 10 * y3 + y4
    /\ month x = 10 * m1 + m2 /\ day x = 10 * d1 + d2
    /\ Forall (fun v => 0 <= v <= 9) [y1; y2; y3; y4; m1; m2; d1; d2].
Proof.
  intros V. pose proof (valid_date_bounds x V) as (Hy & Hm & Hd).
  pose proof (days_in_month_le_31 (year x) (month x)) as H31.
  destruct (four_digits (year x) ltac:(lia))
    as (y1 & y2 & y3 & y4 & Ey & B1 & B2 & B3 & B4).
  destruct (two_digits (month x) ltac:(lia)) as (m1 & m2 & Em & B5 & B6).
  destruct (two_digits (day x) ltac:(lia)) as (d1 & d2 & Ed & B7 & B8).
  exists y1, y2, y3, y4, m1, m2, d1, d2.
  split; [|split; [exact Ey|split; [exact Em|split; [exact Ed|]]]].
  - unfold isoformat. rewrite Ey, Em, Ed.
    rewrite zfill_4, !zfill_2 by assumption. reflexivity.
  - repeat constructor; lia.
Qed.

(** The text [set_dob] stores is read back by [today] and [on_date] as the
    same date. *)
Lemma fromisoformat_isoformat (x : date) :
  valid_date x -> fromisoformat (isoformat x) = Return x.
Proof.
  intros V.
  destruct (isoformat_shape x V)
    as (y1 & y2 & y3 & y4 & m1 & m2 & d1 & d2 & -> & Ey & Em & Ed & F).
  repeat match goal with
         | H : Forall _ (_ :: _) |- _ => inversion_clear H
         end.
  unfold fromisoformat. rewrite Z.eqb_refl. cbn [andb].
  rewrite ascii_number_4, !ascii_number_2 by assumption.
  rewrite <- Ey, <- Em, <- Ed.
  apply date_new_Return. destruct x; auto.
Qed.

Lemma isoformat_nonempty (x : date) :
  valid_date x -> exists c t, isoformat x = c :: t.
Proof.
  intros V.
  destruct (isoformat_shape x V)
    as (y1 & y2 & y3 & y4 & m1 & m2 & d1 & d2 & -> & _).
  eauto.
Qed.

(** ** The stored data *)

Lemma dict_get_set {V : Type} (k : str) (v : V) (d : dict V) :
  dict_get k (dict_set k v d) = Some v.
Proof.
  induction d as [|[k' v'] d IH]; cbn [dict_set dict_get].
  - now rewrite str_eqb_refl.
  - destruct (str_eqb k k') eqn:E; cbn [dict_get]; rewrite E; auto.
Qed.

Lemma parse_date_valid (text : str) (x : date) :
  parse_date text = Return (Some x) -> valid_date x.
Proof.
  rewrite parse_date_unfold.
  destruct (strptime (strip text) fmt_dmY) as [a | []] eqn:E1;
    try discriminate.
  - intros [= <-]. exact (strptime_valid _ _ _ E1).
  - destruct (strptime (strip text) fmt_Ymd) as [b | []] eqn:E2;
      try discriminate.
    intros [= <-]. exact (strptime_valid _ _ _ E2).
Qed.

Section Sessions.

Variable libm_sin : float -> float.
Variable year_filled : bool.
Variable username : str.

Lemma today_frame (now later : date) (message : option unit) (w : world) :
  user_data (snd (today libm_sin year_filled now later message w))
  = user_data w.
Proof.
  unfold today, bindB, user_data_get, lift.
  destruct (dict_get key_dob (user_data w)) as [[|c iso]|];
    try apply reply_text_frame.
  destruct (fromisoformat (c :: iso)) as [birth | e]; [|reflexivity].
  destruct (calc_biorhythm libm_sin now birth None) as [bio | e];
    [|reflexivity].
  apply reply_text_frame.
Qed.

(** The only data [set_dob] writes is the ISO text of the date it read. *)
Lemma set_dob_user_data (now later : date) (message : option str) (w : world) :
  user_data (snd (set_dob libm_sin year_filled now later message w))
  = match message with
    | Some text =>
      match parse_date text with
      | Return (Some dob) => dict_set key_dob (isoformat dob) (user_data w)
      | _ => user_data w
      end
    | None => user_data w
    end.
Proof.
  destruct message as [text|]; [|reflexivity].
  unfold set_dob, message_text, bindB, lift, user_data_set, reply_text, ret.
  destruct (parse_date text) as [[dob|] | e]; try reflexivity.
  cbn [user_data sent].
  destruct (calc_biorhythm libm_sin now dob None) as [bio | e];
    [|reflexivity].
  destruct (format_bio_text year_filled later bio); reflexivity.
Qed.

Lemma in_conversation_stored (s : session) (h : Bot Z) :
  stored (after (in_conversation s h))
  = user_data (snd (h (mkworld (stored s) []))).
Proof.
  unfold in_conversation.
  destruct (h (mkworld (stored s) [])) as [[st | e] w]; reflexivity.
Qed.

Lemma plain_after (s : session) (h : Bot unit) :
  after (plain s h)
  = mksession (conv_state s) (user_data (snd (h (mkworld (stored s) [])))).
Proof.
  unfold plain.
  destruct (h (mkworld (stored s) [])) as [[u | e] w]; reflexivity.
Qed.

Lemma commands_after (now later : date) (s : session) (message : option unit)
      (name : str) (args : list str) :
  after (commands libm_sin year_filled username now later s message name args)
  = s.
Proof.
  unfold commands.
  destruct (is_cmd username name "today").
  { rewrite plain_after, today_frame. now destruct s. }
  destruct (is_cmd username name "on").
  { rewrite plain_after, on_date_frame. now destruct s. }
  destruct (is_cmd username name "help"); [|reflexivity].
  rewrite plain_after. unfold help_cmd. rewrite reply_text_frame.
  now destruct s.
Qed.

(** A command that [CommandHandler] takes neither for /start nor for
    /cancel (so /today, /on, /help in any case of the letters, a command
    the bot does not know, a command addressed to another bot) leaves the
    session as it was, in or out of a conversation, whatever is answered. *)
Theorem queries_leave_session (now later : date) (s : session)
        (name : str) (args : list str) (first_name : option str) :
  is_cmd username name "start" = false ->
  is_cmd username name "cancel" = false ->
  after (dispatch libm_sin year_filled username now later s
                  (Command name args first_name)) = s.
Proof.
  intros Hs Hc. unfold dispatch, on_command.
  destruct (conv_state s); [rewrite Hc | rewrite Hs]; apply commands_after.
Qed.

Lemma dispatch_readable (now later : date) (s : session) (u : update) :
  readable (stored s) ->
  readable (stored (after (dispatch libm_sin year_filled username
                                    now later s u))).
Proof.
  intros R.
  assert (C : forall message name args first_name,
             readable (stored (after (on_command libm_sin year_filled username
                                        now later s message name args
                                        first_name)))).
  { intros message name args first_name. unfold on_command.
    destruct (conv_state s) as [st|].
    - destruct (is_cmd username name "cancel").
      + rewrite in_conversation_stored. unfold cancel, bindB, ret.
        destruct message; exact R.
      + now rewrite commands_after.
    - destruct (is_cmd username name "start").
      + rewrite in_conversation_stored. unfold start, bindB, ret.
        destruct message; exact R.
      + now rewrite commands_after. }
  assert (T : forall message,
             readable (stored (after (on_text libm_sin year_filled
                                        now later s message)))).
  { intros message. unfold on_text.
    destruct (conv_state s) as [st|]; [|exact R].
    destruct (st =? ASK_DOB); [|exact R].
    rewrite in_conversation_stored, set_dob_user_data. cbn [user_data].
    destruct message as [text|]; [|exact R].
    destruct (parse_date text) as [[dob|] | e] eqn:P; try exact R.
    intros iso. rewrite dict_get_set. intros [= <-].
    exists dob. split; [exact (parse_date_valid _ _ P) | reflexivity]. }
  destruct u; cbn [dispatch]; auto.
Qed.

Lemma run_fst (s : session) (now later : date) (u : update)
      (us : list (date * date * update)) :
  fst (run libm_sin year_filled username s ((now, later, u) :: us))
  = fst (run libm_sin year_filled username
             (after (dispatch libm_sin year_filled username now later s u)) us).
Proof.
  cbn [run].
  destruct (run libm_sin year_filled username
                (after (dispatch libm_sin year_filled username now later s u))
                us).
  reflexivity.
Qed.

Lemma run_readable (us : list (date * date * update)) (s : session) :
  readable (stored s) ->
  readable (stored (fst (run libm_sin year_filled username s us))).
Proof.
  revert s. induction us as [|[[now later] u] us IH]; intros s R; [exact R|].
  rewrite run_fst. apply IH. now apply dispatch_readable.
Qed.

(** Whatever a new user sends, and whenever, a birth date found in the
    stored data is the ISO text of a valid date, and [fromisoformat], with
    which /today and /on read it, gives that date back. *)
Theorem stored_birth_date_readable
        (us : list (date * date * update)) (iso : str) :
  dict_get key_dob
           (stored (fst (run libm_sin year_filled username
                             (mksession None []) us)))
  = Some iso ->
  exists x, valid_date x /\ iso = isoformat x /\ fromisoformat iso = Return x.
Proof.
  intros H.
  assert (R : readable (stored (mksession None []))) by (intros i; discriminate).
  destruct (run_readable us _ R iso H) as (x & V & ->).
  exists x. split; [exact V|]. split; [reflexivity|].
  now apply fromisoformat_isoformat.
Qed.

End Sessions.

Lemma queries_leave_session_witness :
  after (dispatch unit_clip false (py "biorhythm_bot")
                  (mkdate 2025 12 31) (mkdate 2025 12 31)
                  (mksession (Some ASK_DOB) [(key_dob, py "1990-03-05")])
                  (Command (py "Today@Biorhythm_Bot") [] None))
  = mksession (Some ASK_DOB) [(key_dob, py "1990-03-05")].
Proof.
  apply queries_leave_session; vm_compute; reflexivity.
Defined.

Lemma stored_birth_date_readable_witness :
  exists x, valid_date x /\ py "1990-03-05" = isoformat x
            /\ fromisoformat (py "1990-03-05") = Return x.
Proof.
  apply (stored_birth_date_readable unit_clip false (py "biorhythm_bot")
           [(mkdate 2025 12 30, mkdate 2025 12 30,
             Command (py "start") [] None);
            (mkdate 2025 12 31, mkdate 2026 1 1, Text (py "05.03.1990"))]).
  vm_compute. reflexivity.
Defined.

(** ** [set_dob] and [today] *)

Section Onboarding.

Variable libm_sin : float -> float.
Variable year_filled : bool.
Variable username : str.

Hypothesis sin_valid : forall x, valid_binary prec emax (libm_sin x) = true.
Hypothesis sin_range :
  forall x, is_finite x = true -> leb (abs (libm_sin x)) one = true.

(** A text that is a date in neither form: the retry prompt, the
    conversation still waiting, nothing stored. *)
Theorem set_dob_retry (now later : date) (data : dict str) (text : str) :
  (forall x, ~ (written_dmY (strip text) x \/ written_Ymd (strip text) x)) ->
  dispatch libm_sin year_filled username now later
           (mksession (Some ASK_DOB) data) (Text text)
  = mkoutcome (mksession (Some ASK_DOB) data) [msg_retry] None.
Proof.
  intros H.
  assert (P : parse_date text = Return None).
  { destruct (parse_date_total text) as [[x Hx] | Hn]; [|exact Hn].
    apply parse_date_Some in Hx. destruct (H x Hx). }
  unfold dispatch, on_text. cbn [conv_state]. rewrite Z.eqb_refl.
  unfold in_conversation, set_dob, message_text, bindB, lift, reply_text, ret.
  rewrite P. reflexivity.
Qed.

(** The reading of a birth date not after [now], the day the clock gave
    first, under the heading of [later], the day it gave next. *)
Lemma reading_today (now later dob : date) :
  valid_date now -> valid_date dob -> date_ltb now dob = false ->
  exists bio rendering,
    calc_biorhythm libm_sin now dob None = Return bio
    /\ format_bio_text year_filled later bio = Return rendering.
Proof.
  intros Vn Vd G.
  destruct (calc_biorhythm_Some libm_sin sin_valid sin_range now dob now Vd Vn)
    as [_ Ge].
  destruct (Ge G) as (p & e & i & E).
  change (calc_biorhythm libm_sin now dob None)
    with (calc_biorhythm libm_sin now dob (Some now)).
  rewrite E. eexists. eexists. split; [reflexivity|].
  apply (format_bio_text_Return year_filled later _ p e i); reflexivity.
Qed.

Lemma future_birth_date_raises (now dob : date) :
  valid_date now -> valid_date dob -> date_ltb now dob = true ->
  calc_biorhythm libm_sin now dob None = Raise ValueError.
Proof.
  intros Vn Vd G.
  destruct (calc_biorhythm_Some libm_sin sin_valid sin_range now dob now Vd Vn)
    as [Lt _].
  exact (Lt G).
Qed.

(** A text read as a date that is not after the day the clock gives when
    [calc_biorhythm] reads it: the date is stored as ISO text, the
    conversation is over, and the reply confirms the date as
    day.month.year with the reading [calc_biorhythm] returned for that
    day, rendered by [format_bio_text] under the day the clock gives when
    [set_dob] reads it again. *)
Theorem set_dob_accepts (now later : date) (data : dict str) (text : str)
        (dob : date) :
  parse_date text = Return (Some dob) ->
  valid_date now -> date_ltb now dob = false ->
  exists bio rendering,
    calc_biorhythm libm_sin now dob None = Return bio
    /\ format_bio_text year_filled later bio = Return rendering
    /\ dispatch libm_sin year_filled username now later
                (mksession (Some ASK_DOB) data) (Text text)
       = mkoutcome (mksession None (dict_set key_dob (isoformat dob) data))
                   [msg_dob_set (strftime year_filled dob fmt_dmY) rendering]
                   None.
Proof.
  intros P Vn G.
  pose proof (parse_date_valid _ _ P) as Vd.
  destruct (reading_today now later dob Vn Vd G) as (bio & rendering & E & F).
  exists bio, rendering. split; [exact E|]. split; [exact F|].
  unfold dispatch, on_text. cbn [conv_state]. rewrite Z.eqb_refl.
  unfold in_conversation, set_dob, message_text, bindB, lift, user_data_set,
    reply_text, ret.
  rewrite P. cbn [user_data sent stored]. rewrite E, F. reflexivity.
Qed.

(** A text read as a date after today: the date is stored all the same,
    then [calc_biorhythm] raises [ValueError], which [set_dob] does not
    catch; no reply is sent and the conversation goes on waiting.  From
    then on /today raises the same way, with no reply. *)
Theorem set_dob_future_date (now later : date) (data : dict str) (text : str)
        (dob : date) :
  parse_date text = Return (Some dob) ->
  valid_date now -> date_ltb now dob = true ->
  let s' := mksession (Some ASK_DOB) (dict_set key_dob (isoformat dob) data) in
  dispatch libm_sin year_filled username now later
           (mksession (Some ASK_DOB) data) (Text text)
  = mkoutcome s' [] (Some ValueError)
  /\ dispatch libm_sin year_filled username now later s'
              (Command (py "today") [] None)
     = mkoutcome s' [] (Some ValueError).
Proof.
  intros P Vn G s'.
  pose proof (parse_date_valid _ _ P) as Vd.
  pose proof (future_birth_date_raises now dob Vn Vd G) as E.
  split.
  - unfold dispatch, on_text. cbn [conv_state]. rewrite Z.eqb_refl.
    unfold in_conversation, set_dob, message_text, bindB, lift, user_data_set,
      reply_text, ret.
    rewrite P. cbn [user_data sent stored]. rewrite E. reflexivity.
  - assert (C : is_cmd username (py "today") "cancel" = false)
      by (rewrite is_cmd_plain; vm_compute; reflexivity).
    assert (T : is_cmd username (py "today") "today" = true)
      by (rewrite is_cmd_plain; vm_compute; reflexivity).
    unfold dispatch, on_command, s'. cbn [conv_state]. rewrite C.
    unfold commands. rewrite T.
    unfold plain, today, bindB, user_data_get, lift.
    cbn [user_data stored]. rewrite dict_get_set.
    destruct (isoformat_nonempty dob Vd) as (c & t & Ei).
    rewrite Ei, <- Ei. rewrite (fromisoformat_isoformat dob Vd), E.
    reflexivity.
Qed.

(** [today], for an update that brings a new message, by what is stored.
    It never changes the stored data.  With no birth date it replies with
    the prompt to run /start.  With the ISO text of a date it reads the
    clock, twice: when the date is after the day read first,
    [calc_biorhythm] raises [ValueError] and nothing is sent; otherwise the
    reply is the reading for the day read first, rendered under the day
    read second. *)
Theorem today_outcomes (now later : date) (w : world) :
  let out := today libm_sin year_filled now later (Some tt) w in
  user_data (snd out) = user_data w
  /\ (dict_get key_dob (user_data w) = None
      \/ dict_get key_dob (user_data w) = Some [] ->
      out = (Return tt, mkworld (user_data w) (sent w ++ [msg_no_dob])))
  /\ (forall dob,
         valid_date now -> valid_date dob ->
         dict_get key_dob (user_data w) = Some (isoformat dob) ->
         (date_ltb now dob = true -> out = (Raise ValueError, w))
         /\ (date_ltb now dob = false ->
             exists bio rendering,
               calc_biorhythm libm_sin now dob None = Return bio
               /\ format_bio_text year_filled later bio = Return rendering
               /\ out = (Return tt,
                         mkworld (user_data w) (sent w ++ [rendering])))).
Proof.
  intros out. split; [apply today_frame|]. split.
  - unfold out, today, bindB, user_data_get, reply_text.
    intros [-> | ->]; reflexivity.
  - intros dob Vn Vd Hd.
    destruct (isoformat_nonempty dob Vd) as (c & t & Ei).
    unfold out, today, bindB, user_data_get, lift, reply_text.
    rewrite Hd, Ei, <- Ei, (fromisoformat_isoformat dob Vd).
    split; intros G.
    + rewrite (future_birth_date_raises now dob Vn Vd G). now destruct w.
    + destruct (reading_today now later dob Vn Vd G)
        as (bio & rendering & E & F).
      exists bio, rendering. rewrite E, F. auto.
Qed.

End Onboarding.

Lemma set_dob_retry_witness :
  dispatch unit_clip false (py "biorhythm_bot")
           (mkdate 2025 12 31) (mkdate 2026 1 1)
           (mksession (Some ASK_DOB) []) (Text (py "not a date"))
  = mkoutcome (mksession (Some ASK_DOB) []) [msg_retry] None.
Proof.
  apply set_dob_retry.
  intros x H.
  apply parse_date_Some in H. vm_compute in H. discriminate H.
Defined.

Lemma set_dob_accepts_witness :
  exists bio rendering,
    calc_biorhythm unit_clip (mkdate 2025 12 31) (mkdate 1990 3 5) None
    = Return bio
    /\ format_bio_text false (mkdate 2026 1 1) bio = Return rendering
    /\ dispatch unit_clip false (py "biorhythm_bot")
                (mkdate 2025 12 31) (mkdate 2026 1 1)
                (mksession (Some ASK_DOB) []) (Text (py "05.03.1990"))
       = mkoutcome (mksession None [(key_dob, py "1990-03-05")])
                   [msg_dob_set (py "05.03.1990") rendering] None.
Proof.
  apply (set_dob_accepts unit_clip false (py "biorhythm_bot")
           unit_clip_valid unit_clip_range
           (mkdate 2025 12 31) (mkdate 2026 1 1) [] (py "05.03.1990")
           (mkdate 1990 3 5));
    vm_compute; reflexivity.
Defined.

Lemma set_dob_future_date_witness :
  dispatch unit_clip false (py "biorhythm_bot")
           (mkdate 2025 12 31) (mkdate 2025 12 31)
           (mksession (Some ASK_DOB) []) (Text (py "01.01.2030"))
  = mkoutcome (mksession (Some ASK_DOB) [(key_dob, py "2030-01-01")])
              [] (Some ValueError).
Proof.
  apply (set_dob_future_date unit_clip false (py "biorhythm_bot")
           unit_clip_valid unit_clip_range
           (mkdate 2025 12 31) (mkdate 2025 12 31) [] (py "01.01.2030")
           (mkdate 2030 1 1));
    vm_compute; reflexivity.
Defined.

Lemma today_outcomes_witness :
  today unit_clip false (mkdate 2025 12 31) (mkdate 2026 1 1) (Some tt)
        (mkworld [(key_dob, py "2030-01-01")] [])
  = (Raise ValueError, mkworld [(key_dob, py "2030-01-01")] []).
Proof.
  destruct (today_outcomes unit_clip false unit_clip_valid unit_clip_range
              (mkdate 2025 12 31) (mkdate 2026 1 1)
              (mkworld [(key_dob, py "2030-01-01")] []))
    as (_ & _ & H).
  destruct (H (mkdate 2030 1 1)) as [L _];
    [vm_compute; intuition discriminate ..| reflexivity |].
  apply L. reflexivity.
Defined.

(** ** A date written by the program and read by the program *)

Lemma digit_shift_not_space (a : Z) : 0 <= a <= 9 -> isspace (48 + a) = false.
Proof.
  intros H. apply (decimal_not_space (48 + a) a). now apply decimal_shift.
Qed.

Lemma day_text_shift (a b : Z) :
  0 <= a <= 9 -> 0 <= b <= 9 -> 1 <= 10 * a + b <= 31 ->
  day_text [48 + a; 48 + b] (10 * a + b).
Proof.
  intros Ha Hb H.
  replace (10 * a + b) with (10 * (48 + a - 48) + (48 + b - 48)) by lia.
  apply two_digit_day; lia.
Qed.

Lemma month_text_shift (a b : Z) :
  0 <= a <= 9 -> 0 <= b <= 9 -> 1 <= 10 * a + b <= 12 ->
  month_text [48 + a; 48 + b] (10 * a + b).
Proof.
  intros Ha Hb H.
  replace (10 * a + b) with (10 * (48 + a - 48) + (48 + b - 48)) by lia.
  apply two_digit_month; lia.
Qed.

Lemma year_text_shift (a b c d : Z) :
  0 <= a <= 9 -> 0 <= b <= 9 -> 0 <= c <= 9 -> 0 <= d <= 9 ->
  year_text [48 + a; 48 + b; 48 + c; 48 + d] (1000 * a + 100 * b + 10 * c + d).
Proof.
  intros Ha Hb Hc Hd. apply year_4; now apply decimal_shift.
Qed.

(** The digits of a valid date. *)
Lemma date_digits (x : date) :
  valid_date x ->
  exists y1 y2 y3 y4 m1 m2 d1 d2,
    year x = 1000 * y1 + 100 * y2 + 10 * y3 + y4
    /\ month x = 10 * m1 + m2 /\ day x = 10 * d1 + d2
    /\ (0 <= y1 <= 9 /\ 0 <= y2 <= 9 /\ 0 <= y3 <= 9 /\ 0 <= y4 <= 9)
    /\ (0 <= m1 <= 9 /\ 0 <= m2 <= 9) /\ (0 <= d1 <= 9 /\ 0 <= d2 <= 9)
    /\ year_text [48 + y1; 48 + y2; 48 + y3; 48 + y4] (year x)
    /\ month_text [48 + m1; 48 + m2] (month x)
    /\ day_text [48 + d1; 48 + d2] (day x).
Proof.
  intros V. pose proof (valid_date_bounds x V) as (Hy & Hm & Hd).
  pose proof (days_in_month_le_31 (year x) (month x)) as H31.
  destruct (four_digits (year x) ltac:(lia))
    as (y1 & y2 & y3 & y4 & Ey & B1 & B2 & B3 & B4).
  destruct (two_digits (month x) ltac:(lia)) as (m1 & m2 & Em & B5 & B6).
  destruct (two_digits (day x) ltac:(lia)) as (d1 & d2 & Ed & B7 & B8).
  exists y1, y2, y3, y4, m1, m2, d1, d2.
  split; [exact Ey|]. split; [exact Em|]. split; [exact Ed|].
  split; [auto|]. split; [auto|]. split; [auto|].
  rewrite Ey, Em, Ed. split; [|split].
  - now apply year_text_shift.
  - apply month_text_shift; lia.
  - apply day_text_shift; lia.
Qed.

Lemma written_Ymd_isoformat (x : date) :
  valid_date x -> strip (isoformat x) = isoformat x /\ written_Ymd (isoformat x) x.
Proof.
  intros V.
  destruct (date_digits x V)
    as (y1 & y2 & y3 & y4 & m1 & m2 & d1 & d2 & Ey & Em & Ed
        & (B1 & B2 & B3 & B4) & (B5 & B6) & (B7 & B8) & Ty & Tm & Td).
  assert (E : isoformat x = [48 + y1; 48 + y2; 48 + y3; 48 + y4; 45;
                             48 + m1; 48 + m2; 45; 48 + d1; 48 + d2]).
  { unfold isoformat. rewrite Ey, Em, Ed.
    rewrite zfill_4, !zfill_2 by assumption. reflexivity. }
  rewrite E. split.
  - apply strip_ten; now apply digit_shift_not_space.
  - exists [48 + y1; 48 + y2; 48 + y3; 48 + y4], [48 + m1; 48 + m2],
      [48 + d1; 48 + d2].
    split; [reflexivity|]. auto.
Qed.

Lemma written_dmY_pattern (x : date) :
  valid_date x ->
  strip (format_DD_MM_YYYY x) = format_DD_MM_YYYY x
  /\ written_dmY (format_DD_MM_YYYY x) x.
Proof.
  intros V.
  destruct (date_digits x V)
    as (y1 & y2 & y3 & y4 & m1 & m2 & d1 & d2 & Ey & Em & Ed
        & (B1 & B2 & B3 & B4) & (B5 & B6) & (B7 & B8) & Ty & Tm & Td).
  assert (E : format_DD_MM_YYYY x
              = [48 + d1; 48 + d2; 46; 48 + m1; 48 + m2; 46;
                 48 + y1; 48 + y2; 48 + y3; 48 + y4]).
  { unfold format_DD_MM_YYYY. rewrite Ey, Em, Ed.
    rewrite zfill_4, !zfill_2 by assumption. reflexivity. }
  rewrite E. split.
  - apply strip_ten; now apply digit_shift_not_space.
  - exists [48 + d1; 48 + d2], [48 + m1; 48 + m2],
      [48 + y1; 48 + y2; 48 + y3; 48 + y4].
    split; [reflexivity|]. auto.
Qed.

Lemma strptime_isoformat (x : date) :
  valid_date x -> strptime (isoformat x) fmt_Ymd = Return x.
Proof.
  intros V. apply strptime_Ymd_spec. now apply written_Ymd_isoformat.
Qed.

(** The ISO text that [set_dob] stores for a date is read as that date by
    each of the program's three readers: [date.fromisoformat], with which
    /today and /on read the stored text, [strptime] with ["%Y-%m-%d"], with
    which /on reads its argument, and [parse_date]. *)
Theorem isoformat_read_back (x : date) :
  valid_date x ->
  fromisoformat (isoformat x) = Return x
  /\ strptime (isoformat x) fmt_Ymd = Return x
  /\ parse_date (isoformat x) = Return (Some x).
Proof.
  intros V. split; [now apply fromisoformat_isoformat|].
  split; [now apply strptime_isoformat|].
  apply parse_date_Some. right.
  destruct (written_Ymd_isoformat x V) as [-> W]. exact W.
Qed.

Lemma isoformat_read_back_witness :
  fromisoformat (isoformat (mkdate 1990 3 5)) = Return (mkdate 1990 3 5)
  /\ strptime (isoformat (mkdate 1990 3 5)) fmt_Ymd = Return (mkdate 1990 3 5)
  /\ parse_date (isoformat (mkdate 1990 3 5)) = Return (Some (mkdate 1990 3 5)).
Proof.
  apply isoformat_read_back. vm_compute. intuition discriminate.
Defined.

(** The digits of a year below 1000, as [%Y] writes them unfilled. *)
Lemma str_of_nat_short (y : Z) :
  0 <= y < 1000 ->
  exists c t, str_of_nat y = c :: t /\ (List.length t <= 2)%nat
              /\ isspace (last t c) = false.
Proof.
  intros Hy.
  assert (H : forallb (fun n => match str_of_nat n with
                                | [] => false
                                | c :: t => (List.length t <=? 2)%nat
                                            && negb (isspace (last t c))
                                end)
                      (below 1000) = true) by (vm_compute; reflexivity).
  pose proof (below_all _ _ H y ltac:(lia)) as E. cbv beta in E.
  destruct (str_of_nat y) as [|c t]; [discriminate E|].
  apply andb_true_iff in E. destruct E as [E1 E2].
  exists c, t. split; [reflexivity|]. split.
  - apply Nat.leb_le. exact E1.
  - apply negb_true_iff. exact E2.
Qed.

Lemma lstrip_head (c : Z) (s : str) :
  isspace c = false -> lstrip (c :: s) = c :: s.
Proof. intros H. cbn [lstrip]. now rewrite H. Qed.

(** A text whose first and last characters are not white space is what
    [strip] returns for it. *)
Lemma strip_ends (a : Z) (m : str) (z : Z) :
  isspace a = false -> isspace z = false ->
  strip (a :: m ++ [z]) = a :: m ++ [z].
Proof.
  intros Ha Hz. unfold strip. rewrite lstrip_head by exact Ha.
  unfold rstrip. change (a :: m ++ [z]) with ((a :: m) ++ [z]).
  rewrite rev_app_distr. cbn [rev app].
  rewrite lstrip_head by exact Hz.
  change (z :: rev m ++ [a]) with ([z] ++ rev (a :: m)).
  rewrite rev_app_distr, rev_involutive. reflexivity.
Qed.

(** Day, month and fewer than four characters of year: neither format
    reads it. *)
Lemma short_year_refused (a b c d y : Z) (t : str) (z : date) :
  48 <= b -> 48 <= d -> (List.length t <= 2)%nat ->
  written_dmY ([a; b; 46; c; d; 46] ++ y :: t) z
  \/ written_Ymd ([a; b; 46; c; d; 46] ++ y :: t) z ->
  False.
Proof.
  intros Hb Hd L [(ds & ms & ys & E & Hds & Hms & Hys & _)
                 | (ys & ms & ds & E & Hys & _)].
  - destruct Hds, Hms, Hys; unfold cDOT in E; cbn [app] in E;
      injection E; intros; subst; try lia;
        cbn [List.length] in L; lia.
  - destruct Hys as [c1 c2 c3 c4 v1 v2 v3 v4 H1 H2 H3 H4].
    cbn [app] in E. injection E; intros; subst.
    rewrite (separator_not_decimal 46 (or_introl eq_refl)) in H3.
    discriminate.
Qed.

(** What [set_dob] echoes in its confirmation, [strftime('%d.%m.%Y')] of
    the date, is read by [parse_date] as that date when [%Y] has four
    digits: on a platform that zero-fills it, and for a year from 1000 on.
    Where [%Y] is not filled, a year below 1000 gives a text [parse_date]
    refuses. *)
Theorem echo_read_back (year_filled : bool) (x : date) :
  valid_date x ->
  (year_filled = true \/ 1000 <= year x ->
   parse_date (strftime year_filled x fmt_dmY) = Return (Some x))
  /\ (year_filled = false -> year x < 1000 ->
      parse_date (strftime year_filled x fmt_dmY) = Return None).
Proof.
  intros V. split.
  - intros H. pose proof (valid_date_bounds x V) as (Hy & _).
    rewrite strftime_dmY_pattern by (destruct H; [auto | right; lia]).
    apply parse_date_Some. left.
    destruct (written_dmY_pattern x V) as [-> W]. exact W.
  - intros -> Hy. pose proof (valid_date_bounds x V) as (By & _).
    destruct (date_digits x V)
      as (y1 & y2 & y3 & y4 & m1 & m2 & d1 & d2 & Ey & Em & Ed
          & (B1 & B2 & B3 & B4) & (B5 & B6) & (B7 & B8) & _).
    destruct (str_of_nat_short (year x) ltac:(lia)) as (c & t & Et & L & S).
    assert (E : strftime false x fmt_dmY
                = [48 + d1; 48 + d2; 46; 48 + m1; 48 + m2; 46] ++ c :: t).
    { rewrite strftime_dmY_parts, Em, Ed, Et.
      rewrite !zfill_2 by assumption. reflexivity. }
    destruct (parse_date_total (strftime false x fmt_dmY)) as [[z Hz] | Hn];
      [exfalso | exact Hn].
    apply parse_date_Some in Hz. rewrite E in Hz. clear E Et.
    assert (St : strip ([48 + d1; 48 + d2; 46; 48 + m1; 48 + m2; 46] ++ c :: t)
                 = [48 + d1; 48 + d2; 46; 48 + m1; 48 + m2; 46] ++ c :: t).
    { pose proof (digit_shift_not_space d1 B7) as Sd.
      destruct t as [|t1 [|t2 [|t3 t]]]; cbn [last] in S; cbn [app].
      - exact (strip_ends _ [48 + d2; 46; 48 + m1; 48 + m2; 46] c Sd S).
      - exact (strip_ends _ [48 + d2; 46; 48 + m1; 48 + m2; 46; c] t1 Sd S).
      - exact (strip_ends _ [48 + d2; 46; 48 + m1; 48 + m2; 46; c; t1] t2 Sd S).
      - cbn [List.length] in L. lia. }
    rewrite St in Hz.
    refine (short_year_refused (48 + d1) (48 + d2) (48 + m1) (48 + m2) c t z
                               _ _ L Hz); lia.
Qed.

Lemma echo_read_back_witness :
  parse_date (strftime false (mkdate 1990 3 5) fmt_dmY)
  = Return (Some (mkdate 1990 3 5)).
Proof.
  apply echo_read_back; [vm_compute; intuition discriminate|].
  right. vm_compute. discriminate.
Defined.

(** ** One update, at most one reply *)

Section Replies.

Variable libm_sin : float -> float.
Variable year_filled : bool.
Variable username : str.

Ltac count_sent := cbn [List.length app sent user_data]; lia.

Lemma reply_text_one_reply {M : Type} (message : option M) (text : res str) :
  one_reply (reply_text message text).
Proof.
  intros data. unfold reply_text.
  destruct message, text; try reflexivity.
Qed.

Lemma start_one_reply (message : option unit) (first_name : option str) :
  one_reply (start message first_name).
Proof.
  intros data. unfold start, bindB, reply_text, ret.
  destruct message; [count_sent | reflexivity].
Qed.

Lemma cancel_one_reply (message : option unit) : one_reply (cancel message).
Proof.
  intros data. unfold cancel, bindB, reply_text, ret.
  destruct message; [count_sent | reflexivity].
Qed.

Lemma help_cmd_one_reply (message : option unit) : one_reply (help_cmd message).
Proof. apply reply_text_one_reply. Qed.

Lemma set_dob_one_reply (now later : date) (message : option str) :
  one_reply (set_dob libm_sin year_filled now later message).
Proof.
  intros data. destruct message as [text|]; [|reflexivity].
  unfold set_dob, message_text, bindB, lift, user_data_set, reply_text, ret.
  destruct (parse_date text) as [[dob|] | e]; cbn [user_data sent app];
    [|count_sent | reflexivity].
  destruct (calc_biorhythm libm_sin now dob None) as [bio | e];
    [|reflexivity].
  destruct (format_bio_text year_filled later bio);
    [count_sent | reflexivity].
Qed.

Lemma today_one_reply (now later : date) (message : option unit) :
  one_reply (today libm_sin year_filled now later message).
Proof.
  intros data.
  unfold today, bindB, user_data_get, lift. cbn [user_data sent].
  destruct (dict_get key_dob data) as [[|c iso]|];
    try apply (reply_text_one_reply message _ data).
  destruct (fromisoformat (c :: iso)) as [birth | e]; [|reflexivity].
  destruct (calc_biorhythm libm_sin now birth None) as [bio | e];
    [|reflexivity].
  apply (reply_text_one_reply message _ data).
Qed.

Lemma on_date_one_reply (now : date) (message : option unit)
      (args : list str) :
  one_reply (on_date libm_sin year_filled now message args).
Proof.
  intros data.
  unfold on_date, bindB, user_data_get, lift. cbn [user_data sent].
  destruct (dict_get key_dob data) as [[|c iso]|];
    try apply (reply_text_one_reply message _ data).
  destruct args as [|arg rest]; [apply (reply_text_one_reply message _ data)|].
  destruct (strptime arg fmt_Ymd) as [target | []];
    try reflexivity; try apply (reply_text_one_reply message _ data).
  destruct (fromisoformat (c :: iso)) as [birth | e]; [|reflexivity].
  destruct (calc_biorhythm libm_sin now birth (Some target)) as [bio | []];
    try reflexivity; apply (reply_text_one_reply message _ data).
Qed.

Lemma in_conversation_quiet (s : session) (h : Bot Z) :
  one_reply h -> quiet_when_raised (in_conversation s h).
Proof.
  intros H. specialize (H (stored s)). unfold in_conversation.
  destruct (h (mkworld (stored s) [])) as [[st | e] w]; split;
    cbn [replies raised]; try discriminate; auto.
  rewrite H. cbn [List.length]. lia.
Qed.

Lemma plain_quiet (s : session) (h : Bot unit) :
  one_reply h -> quiet_when_raised (plain s h).
Proof.
  intros H. specialize (H (stored s)). unfold plain.
  destruct (h (mkworld (stored s) [])) as [[u | e] w]; split;
    cbn [replies raised]; try discriminate; auto.
  rewrite H. cbn [List.length]. lia.
Qed.

Lemma ignored_quiet (s : session) : quiet_when_raised (mkoutcome s [] None).
Proof. split; [cbn [replies List.length]; lia | discriminate]. Qed.

Lemma commands_quiet (now later : date) (s : session) (message : option unit)
      (name : str) (args : list str) :
  quiet_when_raised
    (commands libm_sin year_filled username now later s message name args).
Proof.
  unfold commands.
  destruct (is_cmd username name "today");
    [apply plain_quiet, today_one_reply|].
  destruct (is_cmd username name "on");
    [apply plain_quiet, on_date_one_reply|].
  destruct (is_cmd username name "help");
    [apply plain_quiet, help_cmd_one_reply|].
  apply ignored_quiet.
Qed.

Lemma on_command_quiet (now later : date) (s : session)
      (message : option unit) (name : str) (args : list str)
      (first_name : option str) :
  quiet_when_raised
    (on_command libm_sin year_filled username now later s message name args
                first_name).
Proof.
  unfold on_command. destruct (conv_state s) as [st|].
  - destruct (is_cmd username name "cancel");
      [apply in_conversation_quiet, cancel_one_reply | apply commands_quiet].
  - destruct (is_cmd username name "start");
      [apply in_conversation_quiet, start_one_reply | apply commands_quiet].
Qed.

Lemma on_text_quiet (now later : date) (s : session) (message : option str) :
  quiet_when_raised (on_text libm_sin year_filled now later s message).
Proof.
  unfold on_text. destruct (conv_state s) as [st|]; [|apply ignored_quiet].
  destruct (st =? ASK_DOB);
    [apply in_conversation_quiet, set_dob_one_reply | apply ignored_quiet].
Qed.

(** Whatever the update and the session, the bot sends at most one message
    in answer, and none at all when the handler raises: every handler sends
    its message as its last step. *)
Theorem one_update_one_reply (now later : date) (s : session) (u : update) :
  (List.length (replies (dispatch libm_sin year_filled username now later s u))
   <= 1)%nat
  /\ (forall e,
         raised (dispatch libm_sin year_filled username now later s u) = Some e ->
         replies (dispatch libm_sin year_filled username now later s u) = []).
Proof.
  change (quiet_when_raised
            (dispatch libm_sin year_filled username now later s u)).
  destruct u; cbn [dispatch]; first [apply on_command_quiet | apply on_text_quiet].
Qed.

(** ** The state of the conversation *)

Lemma dispatch_waiting_or_out (now later : date) (s : session) (u : update) :
  waiting_or_out s ->
  waiting_or_out (after (dispatch libm_sin year_filled username now later s u)).
Proof.
  intros W.
  assert (C : forall message name args first_name,
             waiting_or_out
               (after (on_command libm_sin year_filled username now later s
                                  message name args first_name))).
  { intros message name args first_name. unfold on_command.
    destruct (conv_state s) as [st|] eqn:Es.
    - destruct (is_cmd username name "cancel");
        [|now rewrite commands_after].
      unfold in_conversation, cancel, bindB, reply_text, ret.
      destruct message; [left; reflexivity | exact W].
    - destruct (is_cmd username name "start");
        [|now rewrite commands_after].
      unfold in_conversation, start, bindB, reply_text, ret.
      destruct message; [right; reflexivity | left; exact Es]. }
  assert (T : forall message,
             waiting_or_out
               (after (on_text libm_sin year_filled now later s message))).
  { intros message. unfold on_text.
    destruct (conv_state s) as [st|] eqn:Es; [|exact W].
    destruct (st =? ASK_DOB); [|exact W].
    destruct message as [text|]; [|exact W].
    unfold in_conversation, set_dob, message_text, bindB, lift, user_data_set,
      reply_text, ret.
    destruct (parse_date text) as [[dob|] | e]; cbn [user_data sent stored];
      [|right; reflexivity | exact W].
    destruct (calc_biorhythm libm_sin now dob None) as [bio | e];
      [|exact W].
    destruct (format_bio_text year_filled later bio);
      [left; reflexivity | exact W]. }
  destruct u; cbn [dispatch]; auto.
Qed.

(** Whatever a user sends, a conversation is either not open or waiting
    for the birth date: [ASK_DOB] is the only state the handlers return
    besides [END], and a handler that raises leaves the state as it was. *)
Theorem conversation_waits_for_birth_date
        (data : dict str) (us : list (date * date * update)) :
  conv_state (fst (run libm_sin year_filled username (mksession None data) us))
  = None
  \/ conv_state (fst (run libm_sin year_filled username
                          (mksession None data) us))
     = Some ASK_DOB.
Proof.
  assert (G : forall s, waiting_or_out s ->
                        waiting_or_out
                          (fst (run libm_sin year_filled username s us))).
  { induction us as [|[[now later] u] us IH]; intros s W; [exact W|].
    rewrite run_fst. apply IH. now apply dispatch_waiting_or_out. }
  apply (G (mksession None data)). left. reflexivity.
Qed.

End Replies.

(** ** A reading without one of its values *)

(** [format_bio_text] returns a text exactly when the reading has the three
    values; when one is missing the subscript raises [KeyError], and
    nothing else is ever raised. *)
Theorem format_bio_text_missing_value
        (year_filled : bool) (target_date : date) (bio : dict float) :
  ((exists text, format_bio_text year_filled target_date bio = Return text)
   <-> (exists p e i,
          dict_get (py "physical") bio = Some p
          /\ dict_get (py "emotional") bio = Some e
          /\ dict_get (py "intellectual") bio = Some i))
  /\ (forall e, format_bio_text year_filled target_date bio = Raise e ->
                e = KeyError).
Proof.
  split; [split|].
  - intros [text H]. unfold format_bio_text, dict_item in H.
    destruct (dict_get (py "physical") bio) as [p|]; [|discriminate H].
    destruct (dict_get (py "emotional") bio) as [e|]; [|discriminate H].
    destruct (dict_get (py "intellectual") bio) as [i|]; [|discriminate H].
    exists p, e, i. auto.
  - intros (p & e & i & H1 & H2 & H3). eexists.
    apply (format_bio_text_Return _ _ _ p e i); assumption.
  - intros e. unfold format_bio_text, dict_item.
    destruct (dict_get (py "physical") bio) as [p|]; [|cbn [bind]; congruence].
    destruct (dict_get (py "emotional") bio) as [e'|]; [|cbn [bind]; congruence].
    destruct (dict_get (py "intellectual") bio) as [i|];
      cbn [bind]; congruence.
Qed.

(** ** What can go wrong, and what /on and /today have in common *)

Section Crashes.

Variable libm_sin : float -> float.
Variable year_filled : bool.
Variable username : str.

Hypothesis sin_valid : forall x, valid_binary prec emax (libm_sin x) = true.
Hypothesis sin_range :
  forall x, is_finite x = true -> leb (abs (libm_sin x)) one = true.

(** With a readable birth date stored or none, [on_date] comes to its
    reply whatever the arguments: it answers a new message, and raises
    [AttributeError] where there is none to answer. *)
Lemma on_date_replies (now : date) (message : option unit) (args : list str)
      (w : world) :
  readable (user_data w) ->
  exists text,
    on_date libm_sin year_filled now message args w
    = reply_text message (Return text) w.
Proof.
  intros R. unfold on_date, bindB, user_data_get, lift.
  destruct (dict_get key_dob (user_data w)) as [[|c iso]|] eqn:Hd; eauto.
  destruct (R _ Hd) as (dob & Vd & Ei).
  destruct args as [|arg rest]; eauto.
  destruct (strptime_cases arg fmt_Ymd) as [[target Ht] | Ht]; rewrite Ht;
    eauto.
  rewrite Ei, (fromisoformat_isoformat dob Vd).
  pose proof (strptime_valid _ _ _ Ht) as Vt.
  destruct (calc_biorhythm_Some libm_sin sin_valid sin_range
                                now dob target Vd Vt) as [Lt Ge].
  destruct (date_ltb target dob).
  - rewrite (Lt eq_refl). eauto.
  - destruct (Ge eq_refl) as (p & e & i & E). rewrite E.
    rewrite (format_bio_text_Return year_filled target _ p e i)
      by reflexivity.
    eauto.
Qed.

(** [today] comes to its reply, or the stored birth date is after the day
    the clock gives and [calc_biorhythm] raises [ValueError]. *)
Lemma today_cases (now later : date) (message : option unit) (w : world) :
  valid_date now -> readable (user_data w) ->
  (exists text,
      today libm_sin year_filled now later message w
      = reply_text message (Return text) w)
  \/ (exists dob,
         valid_date dob /\ date_ltb now dob = true
         /\ dict_get key_dob (user_data w) = Some (isoformat dob)
         /\ today libm_sin year_filled now later message w
            = (Raise ValueError, w)).
Proof.
  intros Vn R. unfold today, bindB, user_data_get, lift.
  destruct (dict_get key_dob (user_data w)) as [[|c iso]|] eqn:Hd; eauto.
  destruct (R _ Hd) as (dob & Vd & Ei).
  rewrite Ei, (fromisoformat_isoformat dob Vd).
  destruct (date_ltb now dob) eqn:G.
  - right. exists dob.
    rewrite (future_birth_date_raises libm_sin sin_valid sin_range
                                      now dob Vn Vd G).
    auto.
  - left.
    destruct (reading_today libm_sin year_filled sin_valid sin_range
                            now later dob Vn Vd G) as (bio & rendering & E & F).
    rewrite E, F. eauto.
Qed.

(** [set_dob] on a new message asks again, confirms, or has read a date
    after the day the clock gives: then it has stored the date and raises
    [ValueError]. *)
Lemma set_dob_cases (now later : date) (text : str) (w : world) :
  valid_date now ->
  (exists st w',
      set_dob libm_sin year_filled now later (Some text) w = (Return st, w'))
  \/ (exists dob,
         valid_date dob /\ date_ltb now dob = true
         /\ set_dob libm_sin year_filled now later (Some text) w
            = (Raise ValueError,
               mkworld (dict_set key_dob (isoformat dob) (user_data w))
                       (sent w))).
Proof.
  intros Vn.
  unfold set_dob, message_text, bindB, lift, user_data_set, reply_text, ret.
  destruct (parse_date_total text) as [[dob P] | P]; rewrite P;
    [|left; eauto].
  pose proof (parse_date_valid _ _ P) as Vd.
  cbn [user_data sent].
  destruct (date_ltb now dob) eqn:G.
  - right. exists dob.
    rewrite (future_birth_date_raises libm_sin sin_valid sin_range
                                      now dob Vn Vd G).
    auto.
  - left.
    destruct (reading_today libm_sin year_filled sin_valid sin_range
                            now later dob Vn Vd G) as (bio & rendering & E & F).
    rewrite E, F. eauto.
Qed.

Lemma commands_raise (now later : date) (s : session) (message : option unit)
      (name : str) (args : list str) (e : exn) :
  valid_date now -> readable (stored s) ->
  raised (commands libm_sin year_filled username now later s message name args)
  = Some e ->
  (e = ValueError
   /\ future_birth_date
        now (commands libm_sin year_filled username now later s message
                      name args))
  \/ (e = AttributeError /\ message = None).
Proof.
  intros Vn R. unfold commands.
  destruct (is_cmd username name "today").
  { unfold plain.
    destruct (today_cases now later message (mkworld (stored s) []) Vn R)
      as [[text ->] | (dob & Vd & G & Hd & ->)].
    - unfold reply_text. destruct message; [discriminate|].
      intros [= <-]. auto.
    - unfold future_birth_date. cbn [raised after stored user_data].
      intros [= <-]. left. split; [reflexivity|]. exists dob. auto. }
  destruct (is_cmd username name "on").
  { unfold plain.
    destruct (on_date_replies now message args (mkworld (stored s) []) R)
      as [text ->].
    unfold reply_text. destruct message; [discriminate|].
    intros [= <-]. auto. }
  destruct (is_cmd username name "help"); [|discriminate].
  unfold plain, help_cmd, reply_text. destruct message; [discriminate|].
  intros [= <-]. auto.
Qed.

Lemma dispatch_raise (now later : date) (s : session) (u : update) (e : exn) :
  valid_date now -> readable (stored s) ->
  raised (dispatch libm_sin year_filled username now later s u) = Some e ->
  (e = ValueError
   /\ future_birth_date
        now (dispatch libm_sin year_filled username now later s u))
  \/ (e = AttributeError /\ edited u = true).
Proof.
  intros Vn R.
  assert (C : forall message name args first_name,
             raised (on_command libm_sin year_filled username now later s
                                message name args first_name) = Some e ->
             (e = ValueError
              /\ future_birth_date
                   now (on_command libm_sin year_filled username now later s
                                   message name args first_name))
             \/ (e = AttributeError /\ message = None)).
  { intros message name args first_name. unfold on_command.
    destruct (conv_state s) as [st|].
    - destruct (is_cmd username name "cancel");
        [|now apply commands_raise].
      unfold in_conversation, cancel, bindB, reply_text, ret.
      destruct message; [discriminate|]. intros [= <-]. auto.
    - destruct (is_cmd username name "start");
        [|now apply commands_raise].
      unfold in_conversation, start, bindB, reply_text, ret.
      destruct message; [discriminate|]. intros [= <-]. auto. }
  assert (T : forall text,
             raised (on_text libm_sin year_filled now later s (Some text))
             = Some e ->
             e = ValueError
             /\ future_birth_date
                  now (on_text libm_sin year_filled now later s (Some text))).
  { intros text. unfold on_text.
    destruct (conv_state s) as [st|]; [|discriminate].
    destruct (st =? ASK_DOB); [|discriminate].
    unfold in_conversation.
    destruct (set_dob_cases now later text (mkworld (stored s) []) Vn)
      as [(st' & w' & ->) | (dob & Vd & G & ->)]; [discriminate|].
    unfold future_birth_date. cbn [raised after stored user_data].
    intros [= <-]. split; [reflexivity|]. exists dob.
    rewrite dict_get_set. auto. }
  destruct u as [name args fn | text | name args fn | text];
    cbn [dispatch edited].
  - intros H. destruct (C _ _ _ _ H) as [L | [_ N]]; [auto | discriminate].
  - intros H. left. exact (T text H).
  - intros H. destruct (C _ _ _ _ H) as [L | [-> _]]; auto.
  - unfold on_text. destruct (conv_state s) as [st|]; [|discriminate].
    destruct (st =? ASK_DOB); [|discriminate].
    cbn. intros [= <-]. auto.
Qed.

(** After whatever a new user has sent, a handler lets an exception out in
    two cases only.  One is the [ValueError] of [calc_biorhythm], raised
    with a stored birth date that is after the day the clock gives: out of
    [set_dob] when it has just stored one, out of [today] when it reads
    one; [on_date] catches it.  The other is the [AttributeError] of a
    handler that is given an edited message and finds no [update.message]
    to read or to answer.  (Sending a reply is taken to succeed.) *)
Theorem what_a_handler_raises
        (us : list (date * date * update)) (now later : date) (u : update)
        (e : exn) :
  valid_date now ->
  raised (dispatch libm_sin year_filled username now later
                   (fst (run libm_sin year_filled username
                             (mksession None []) us))
                   u) = Some e ->
  (e = ValueError
   /\ exists dob,
       valid_date dob /\ date_ltb now dob = true
       /\ dict_get key_dob
            (stored (after
               (dispatch libm_sin year_filled username now later
                  (fst (run libm_sin year_filled username
                            (mksession None []) us))
                  u)))
          = Some (isoformat dob))
  \/ (e = AttributeError /\ edited u = true).
Proof.
  intros Vn H.
  apply (dispatch_raise now later _ u e Vn); [|exact H].
  apply run_readable. intros iso. discriminate.
Qed.

(** /on with a day in ISO form as its first argument does what /today
    does when the clock gives that day at both of its readings, provided
    the stored birth date is not after that day. *)
Theorem on_today_is_today (now dob : date) (message : option unit)
        (rest : list str) (w : world) :
  valid_date now -> valid_date dob ->
  dict_get key_dob (user_data w) = Some (isoformat dob) ->
  date_ltb now dob = false ->
  on_date libm_sin year_filled now message (isoformat now :: rest) w
  = today libm_sin year_filled now now message w.
Proof.
  intros Vn Vd Hd G.
  destruct (isoformat_nonempty dob Vd) as (c & t & Ei).
  destruct (reading_today libm_sin year_filled sin_valid sin_range
                          now now dob Vn Vd G) as (bio & rendering & E & F).
  unfold on_date, today, bindB, user_data_get, lift.
  rewrite Hd, Ei, <- Ei.
  rewrite (strptime_isoformat now Vn), (fromisoformat_isoformat dob Vd).
  change (calc_biorhythm libm_sin now dob (Some now))
    with (calc_biorhythm libm_sin now dob None).
  rewrite E. reflexivity.
Qed.

End Crashes.

(** An edited message changes nothing and gets no answer, whichever
    handler it reaches: [set_dob] stops at [update.message.text] before it
    stores anything, and the command handlers write nothing and stop at
    [update.message.reply_text] at the latest. *)
Theorem edited_message_changes_nothing
        (libm_sin : float -> float) (year_filled : bool) (username : str)
        (now later : date) (s : session) :
  (forall name args first_name,
      after (dispatch libm_sin year_filled username now later s
                      (EditedCommand name args first_name)) = s
      /\ replies (dispatch libm_sin year_filled username now later s
                           (EditedCommand name args first_name)) = [])
  /\ (forall text,
         dispatch libm_sin year_filled username now later s (EditedText text)
         = mkoutcome s [] (match conv_state s with
                           | Some st =>
                             if st =? ASK_DOB then Some AttributeError else None
                           | None => None
                           end)).
Proof.
  split.
  - intros name args first_name. cbn [dispatch]. unfold on_command.
    assert (C : after (commands libm_sin year_filled username now later s None
                                name args) = s
                /\ replies (commands libm_sin year_filled username now later s
                                     None name args) = []).
    { split; [apply commands_after|].
      unfold commands.
      destruct (is_cmd username name "today").
      { unfold plain, today, bindB, user_data_get, lift, reply_text.
        cbn [user_data].
        destruct (dict_get key_dob (stored s)) as [[|c iso]|];
          try reflexivity.
        destruct (fromisoformat (c :: iso)) as [birth | e]; [|reflexivity].
        destruct (calc_biorhythm libm_sin now birth None); reflexivity. }
      destruct (is_cmd username name "on").
      { unfold plain, on_date, bindB, user_data_get, lift, reply_text.
        cbn [user_data].
        destruct (dict_get key_dob (stored s)) as [[|c iso]|];
          try reflexivity.
        destruct args as [|arg rest]; [reflexivity|].
        destruct (strptime arg fmt_Ymd) as [target | []]; try reflexivity.
        destruct (fromisoformat (c :: iso)) as [birth | e]; [|reflexivity].
        destruct (calc_biorhythm libm_sin now birth (Some target))
          as [bio | []]; reflexivity. }
      destruct (is_cmd username name "help"); reflexivity. }
    destruct (conv_state s) as [st|] eqn:Es.
    + destruct (is_cmd username name "cancel"); [|exact C].
      unfold in_conversation, cancel, bindB, reply_text, ret.
      cbn [after replies user_data sent stored].
      split; [now destruct s | reflexivity].
    + destruct (is_cmd username name "start"); [|exact C].
      unfold in_conversation, start, bindB, reply_text, ret.
      cbn [after replies user_data sent stored].
      split; [now destruct s | reflexivity].
  - intros text. cbn [dispatch]. unfold on_text.
    destruct (conv_state s) as [st|] eqn:Es; [|reflexivity].
    destruct (st =? ASK_DOB); [|reflexivity].
    unfold in_conversation, set_dob, message_text, bindB, lift.
    cbn [user_data sent stored]. clear Es. now destruct s.
Qed.

Lemma what_a_handler_raises_witness :
  (ValueError = ValueError
   /\ exists dob,
       valid_date dob /\ date_ltb (mkdate 2025 12 31) dob = true
       /\ dict_get key_dob
            (stored (after
               (dispatch unit_clip false (py "biorhythm_bot")
                  (mkdate 2025 12 31) (mkdate 2025 12 31)
                  (fst (run unit_clip false (py "biorhythm_bot")
                            (mksession None [])
                            [(mkdate 2025 12 30, mkdate 2025 12 30,
                              Command (py "start") [] None);
                             (mkdate 2025 12 30, mkdate 2025 12 30,
                              Text (py "01.01.2030"))]))
                  (Command (py "today") [] None))))
          = Some (isoformat dob))
  \/ (ValueError = AttributeError
      /\ edited (Command (py "today") [] None) = true).
Proof.
  apply (what_a_handler_raises
           unit_clip false (py "biorhythm_bot")
           unit_clip_valid unit_clip_range);
    vm_compute; reflexivity.
Defined.

Lemma on_today_is_today_witness :
  on_date unit_clip false (mkdate 2025 12 31) (Some tt)
          [isoformat (mkdate 2025 12 31)]
          (mkworld [(key_dob, isoformat (mkdate 1990 3 5))] [])
  = today unit_clip false (mkdate 2025 12 31) (mkdate 2025 12 31) (Some tt)
          (mkworld [(key_dob, isoformat (mkdate 1990 3 5))] []).
Proof.
  apply (on_today_is_today unit_clip false unit_clip_valid unit_clip_range
           (mkdate 2025 12 31) (mkdate 1990 3 5));
    vm_compute; reflexivity.
Defined.

(** ** The day of birth *)

Section DayOfBirth.

Variable libm_sin : float -> float.
Variable year_filled : bool.

Hypothesis sin_zero : libm_sin zero = zero.

Lemma calc_loop_zero :
  calc_loop libm_sin 0 cycles []
  = Return [(py "physical", zero); (py "emotional", zero);
            (py "intellectual", zero)].
Proof.
  unfold cycles. cbn [calc_loop].
  rewrite !(cycle_value_zero libm_sin sin_zero) by auto. cbn [bind].
  change (round zero 2) with (Return zero). cbn [bind].
  apply f_equal, dict_set_cycles.
Qed.

(** /on with the stored birth date itself, in a new message: each of the
    three lines reads [0.0%], without a sign. *)
Theorem on_birth_date (now dob : date) (rest : list str) (w : world) :
  valid_date dob ->
  dict_get key_dob (user_data w) = Some (isoformat dob) ->
  on_date libm_sin year_filled now (Some tt) (isoformat dob :: rest) w
  = (Return tt,
     mkworld (user_data w)
             (sent w ++ [py "Биоритмы на " ++ strftime year_filled dob fmt_dmY
                         ++ nl ++ py "Физический: 0.0%"
                         ++ nl ++ py "Эмоциональный: 0.0%"
                         ++ nl ++ py "Интеллектуальный: 0.0%"])).
Proof.
  intros Vd Hd.
  destruct (isoformat_nonempty dob Vd) as (c & t & Ei).
  unfold on_date, bindB, user_data_get, lift, reply_text.
  rewrite Hd, Ei, <- Ei.
  rewrite (strptime_isoformat dob Vd), (fromisoformat_isoformat dob Vd).
  unfold calc_biorhythm, sub_days. rewrite Z.sub_diag.
  change (0 <? 0) with false. cbv iota.
  rewrite calc_loop_zero.
  rewrite (format_bio_text_Return year_filled dob _ zero zero zero)
    by reflexivity.
  assert (S : sign zero = py "0.0") by (vm_compute; reflexivity).
  rewrite S.
  repeat (rewrite <- app_assoc || f_equal).
Qed.

End DayOfBirth.

Lemma on_birth_date_witness :
  on_date unit_clip false (mkdate 2025 12 31) (Some tt)
          [isoformat (mkdate 1990 3 5)]
          (mkworld [(key_dob, isoformat (mkdate 1990 3 5))] [])
  = (Return tt,
     mkworld [(key_dob, isoformat (mkdate 1990 3 5))]
             [py "Биоритмы на " ++ strftime false (mkdate 1990 3 5) fmt_dmY
              ++ nl ++ py "Физический: 0.0%"
              ++ nl ++ py "Эмоциональный: 0.0%"
              ++ nl ++ py "Интеллектуальный: 0.0%"]).
Proof.
  apply (on_birth_date unit_clip false unit_clip_zero (mkdate 2025 12 31)
           (mkdate 1990 3 5) []
           (mkworld [(key_dob, isoformat (mkdate 1990 3 5))] []));
    vm_compute; reflexivity.
Defined.

(** ** From /start to /today *)

Section Scenario.

Variable libm_sin : float -> float.
Variable year_filled : bool.
Variable username : str.

Hypothesis sin_valid : forall x, valid_binary prec emax (libm_sin x) = true.
Hypothesis sin_range :
  forall x, is_finite x = true -> leb (abs (libm_sin x)) one = true.

(** A user sends /start, then a birth date, then /today, and the clock
    gives [now] and then [later] while the date is handled and the same
    again while /today is: with a birth date not after [now], the bot
    greets, confirms the date with the reading [calc_biorhythm] returns
    for [now], rendered by [format_bio_text] under [later], and answers
    /today with that same text, computed from the date it stored; the
    conversation is closed and the date is kept. *)
Theorem today_after_onboarding
        (before before' now later : date) (data : dict str) (text : str)
        (dob : date) (first_name : option str) (args : list str) :
  parse_date text = Return (Some dob) ->
  valid_date now -> date_ltb now dob = false ->
  exists bio rendering,
    calc_biorhythm libm_sin now dob None = Return bio
    /\ format_bio_text year_filled later bio = Return rendering
    /\ run libm_sin year_filled username (mksession None data)
           [(before, before', Command (py "start") args first_name);
            (now, later, Text text);
            (now, later, Command (py "today") args first_name)]
       = (mksession None (dict_set key_dob (isoformat dob) data),
          [msg_start (str_or first_name (py "друг"));
           msg_dob_set (strftime year_filled dob fmt_dmY) rendering;
           rendering]).
Proof.
  intros P Vn G.
  pose proof (parse_date_valid _ _ P) as Vd.
  destruct (reading_today libm_sin year_filled sin_valid sin_range
                          now later dob Vn Vd G) as (bio & rendering & E & F).
  destruct (isoformat_nonempty dob Vd) as (c & t & Ei).
  exists bio, rendering. split; [exact E|]. split; [exact F|].
  assert (S : is_cmd username (py "start") "start" = true)
    by (rewrite is_cmd_plain; vm_compute; reflexivity).
  assert (T1 : is_cmd username (py "today") "start" = false)
    by (rewrite is_cmd_plain; vm_compute; reflexivity).
  assert (T2 : is_cmd username (py "today") "today" = true)
    by (rewrite is_cmd_plain; vm_compute; reflexivity).
  assert (D1 : dispatch libm_sin year_filled username before before'
                        (mksession None data)
                        (Command (py "start") args first_name)
               = mkoutcome (mksession (Some ASK_DOB) data)
                           [msg_start (str_or first_name (py "друг"))] None).
  { unfold dispatch, on_command. cbn [conv_state]. rewrite S. reflexivity. }
  assert (D2 : dispatch libm_sin year_filled username now later
                        (mksession (Some ASK_DOB) data) (Text text)
               = mkoutcome
                   (mksession None (dict_set key_dob (isoformat dob) data))
                   [msg_dob_set (strftime year_filled dob fmt_dmY) rendering]
                   None).
  { unfold dispatch, on_text. cbn [conv_state]. rewrite Z.eqb_refl.
    unfold in_conversation, set_dob, message_text, bindB, lift, user_data_set,
      reply_text, ret.
    rewrite P. cbn [user_data sent stored]. rewrite E, F. reflexivity. }
  assert (D3 : dispatch libm_sin year_filled username now later
                        (mksession None (dict_set key_dob (isoformat dob) data))
                        (Command (py "today") args first_name)
               = mkoutcome
                   (mksession None (dict_set key_dob (isoformat dob) data))
                   [rendering] None).
  { unfold dispatch, on_command. cbn [conv_state]. rewrite T1.
    unfold commands. rewrite T2.
    unfold plain, today, bindB, user_data_get, lift, reply_text.
    cbn [user_data stored]. rewrite dict_get_set.
    rewrite Ei, <- Ei. rewrite (fromisoformat_isoformat dob Vd), E, F.
    reflexivity. }
  cbn [run]. rewrite D1. cbn [after replies].
  rewrite D2. cbn [after replies]. rewrite D3. reflexivity.
Qed.

End Scenario.

Lemma today_after_onboarding_witness :
  exists bio rendering,
    calc_biorhythm unit_clip (mkdate 2025 12 31) (mkdate 1990 3 5) None
    = Return bio
    /\ format_bio_text false (mkdate 2026 1 1) bio = Return rendering
    /\ run unit_clip false (py "biorhythm_bot") (mksession None [])
           [(mkdate 2025 12 30, mkdate 2025 12 30,
             Command (py "start") [] None);
            (mkdate 2025 12 31, mkdate 2026 1 1, Text (py "05.03.1990"));
            (mkdate 2025 12 31, mkdate 2026 1 1,
             Command (py "today") [] None)]
       = (mksession None (dict_set key_dob (isoformat (mkdate 1990 3 5)) []),
          [msg_start (str_or None (py "друг"));
           msg_dob_set (strftime false (mkdate 1990 3 5) fmt_dmY) rendering;
           rendering]).
Proof.
  apply (today_after_onboarding unit_clip false (py "biorhythm_bot")
           unit_clip_valid unit_clip_range);
    vm_compute; reflexivity.
Defined.

(** ** How a command is typed *)

Lemma lower_char_idem (c : Z) : lower_char (lower_char c) = lower_char c.
Proof.
  unfold lower_char.
  destruct ((65 <=? c) && (c <=? 90)) eqn:A.
  - apply andb_true_iff in A. destruct A as [A1 A2].
    apply Z.leb_le in A1, A2.
    destruct (Z.leb_spec 65 (c + 32)); [|lia].
    destruct (Z.leb_spec (c + 32) 90); [lia|]. cbn [andb].
    destruct (Z.eqb_spec (c + 32) 8490); [lia | reflexivity].
  - destruct (Z.eqb_spec c 8490) as [-> | N]; [reflexivity|].
    rewrite A. destruct (Z.eqb_spec c 8490); [contradiction | reflexivity].
Qed.

Lemma lower_idem (s : str) : lower (lower s) = lower s.
Proof.
  unfold lower. rewrite map_map. apply map_ext. exact lower_char_idem.
Qed.

Lemma lower_char_at (c : Z) : (lower_char c =? 64) = (c =? 64).
Proof.
  unfold lower_char.
  destruct (Z.leb_spec 65 c), (Z.leb_spec c 90); cbn [andb];
    destruct (Z.eqb_spec c 8490);
    repeat match goal with |- context [?a =? ?b] =>
                             destruct (Z.eqb_spec a b) end;
    try reflexivity; lia.
Qed.

Lemma split_lower (s : str) : split 64 (lower s) = map lower (split 64 s).
Proof.
  induction s as [|c t IH]; [reflexivity|].
  cbn [lower map split]. fold (lower t). rewrite lower_char_at.
  destruct (c =? 64); cbn [map]; [now rewrite IH|].
  rewrite IH. destruct (split 64 t) as [|part parts]; reflexivity.
Qed.

(** The case of the letters in a command, as it is typed, does not
    matter: [CommandHandler] lowers the command and its mention before it
    compares them, so /TODAY, /Today and /today@Bot are all /today. *)
Theorem commands_in_any_case
        (libm_sin : float -> float) (year_filled : bool) (username : str)
        (now later : date) (s : session) (name : str) (args : list str)
        (first_name : option str) :
  dispatch libm_sin year_filled username now later s
           (Command (lower name) args first_name)
  = dispatch libm_sin year_filled username now later s
             (Command name args first_name).
Proof.
  assert (H : forall c, is_cmd username (lower name) c = is_cmd username name c).
  { intros c. unfold is_cmd, command_parts. rewrite split_lower.
    destruct (split 64 name) as [|p0 [|p1 ps]]; cbn [map];
      now rewrite ?lower_idem. }
  cbn [dispatch]. unfold on_command, commands. now rewrite !H.
Qed.
